(** * Legal-ai: conversation-context management, verified against the code

    A shallow embedding of [services/legal_service.py] (class LegalService),
    [agents/legal_agent.py] (chat_with_legal_agent, generate_stream_response),
    [models/json_response.py] (JsonData), [routers/legal.py] (the upload
    route), [core/multi_llm.py] (_convert_messages) and [tools/legal_tool.py]
    (web_search), followed by the theorems that settle the properties
    claimed for them and further properties of the same code.

    Conventions.
    - A Python [str] is a Rocq [string] holding its UTF-8 encoding; [py_len]
      counts code points, as Python's [len] does.
    - Redis is a family of six disjoint key spaces (the key prefixes of the
      service never collide); every key space maps the key string to the
      decoded payload together with its absolute expiry.
    - A JSON number is an integer: numbers with a fraction or an exponent
      are outside the model.
    - The language model, the wall clock, [json.loads] on the replies of
      the model and the agent executor are the environment: they are inputs
      of the functions that use them. *)

From Stdlib Require Import ZArith String Ascii List Bool Lia.
From stdpp Require Import base option gmap strings list fin_maps.

Import ListNotations.
Set Warnings "-register-all".
Local Open Scope Z_scope.

(** ** Python strings *)

Module Py.

Definition dq : string := String (ascii_of_nat 34) EmptyString.
Definition nl : string := String (ascii_of_nat 10) EmptyString.
Definition bsl : string := String (ascii_of_nat 92) EmptyString.

(** A UTF-8 continuation byte is 10xxxxxx. *)
Definition is_continuation (a : ascii) : bool :=
  let n := Z.of_nat (nat_of_ascii a) in (128 <=? n) && (n <? 192).

(** [len(s)]: the number of code points of [s]. *)
Fixpoint py_len (s : string) : nat :=
  match s with
  | EmptyString => 0%nat
  | String a r => if is_continuation a then py_len r else S (py_len r)
  end.

(** [s[:n]] on code points: the bytes of the first [n] characters. *)
Fixpoint py_take (n : nat) (s : string) : string :=
  match s with
  | EmptyString => EmptyString
  | String a r =>
      if is_continuation a then String a (py_take n r)
      else match n with
           | O => EmptyString
           | S m => String a (py_take m r)
           end
  end.

(** [s[n:]] on code points: what [py_take] leaves. *)
Fixpoint py_drop (n : nat) (s : string) : string :=
  match s with
  | EmptyString => EmptyString
  | String a r =>
      if is_continuation a then py_drop n r
      else match n with
           | O => s
           | S m => py_drop m r
           end
  end.

(** [bool(s)] for a string: non-empty. *)
Definition truthy (s : string) : bool :=
  match s with EmptyString => false | _ => true end.

(** [s.lower()] on the ASCII letters; the two needles searched for below
    contain neither [k] nor a letter followed by a combining mark, so the
    non-ASCII case mappings of Python cannot create or destroy a match. *)
Definition lower_ascii (a : ascii) : ascii :=
  let n := nat_of_ascii a in
  if ((65 <=? n) && (n <=? 90))%nat then ascii_of_nat (n + 32) else a.

Fixpoint lower (s : string) : string :=
  match s with
  | EmptyString => EmptyString
  | String a r => String (lower_ascii a) (lower r)
  end.

(** [needle in s]. *)
Fixpoint contains (needle s : string) : bool :=
  String.prefix needle s ||
  match s with
  | EmptyString => false
  | String _ r => contains needle r
  end.

(** [s in l] for a list of strings. *)
Definition str_in (s : string) (l : list string) : bool :=
  existsb (String.eqb s) l.

(** ["".join(l)]. *)
Definition join (l : list string) : string := fold_right String.append "" l.

End Py.

(** ** JSON values and [json.dumps] *)

Module Json.
Import Py.

(** The values [json.dumps] is applied to in the service: nested dictionaries
    (insertion ordered), lists, strings, integers, booleans and [None]. *)
Inductive json : Type :=
  | JNull
  | JBool (b : bool)
  | JInt (n : Z)
  | JStr (s : string)
  | JArr (items : list json)
  | JObj (fields : list (string * json)).

Definition hex_digit (n : Z) : ascii :=
  ascii_of_nat (Z.to_nat (if n <? 10 then 48 + n else 87 + n)).

(** [format(n, "04x")] for [0 <= n < 65536]. *)
Definition hex4 (n : Z) : string :=
  String (hex_digit (Z.land (Z.shiftr n 12) 15))
  (String (hex_digit (Z.land (Z.shiftr n 8) 15))
  (String (hex_digit (Z.land (Z.shiftr n 4) 15))
  (String (hex_digit (Z.land n 15)) EmptyString))).

(** A backslash-u escape of one code point; code points outside the basic
    plane become a surrogate pair, as in [json.encoder]. *)
Definition u_escape (cp : Z) : string :=
  if cp <? 65536 then bsl +:+ "u" +:+ hex4 cp
  else
    let v := cp - 65536 in
    bsl +:+ "u" +:+ hex4 (Z.lor 55296 (Z.land (Z.shiftr v 10) 1023)) +:+
    bsl +:+ "u" +:+ hex4 (Z.lor 56320 (Z.land v 1023)).

Definition byte_val (a : ascii) : Z := Z.of_nat (nat_of_ascii a).

(** One ASCII character inside a JSON string literal. *)
Definition escape_byte (ensure_ascii : bool) (a : ascii) : string :=
  let n := byte_val a in
  if n =? 34 then bsl +:+ dq
  else if n =? 92 then bsl +:+ bsl
  else if n =? 10 then bsl +:+ "n"
  else if n =? 13 then bsl +:+ "r"
  else if n =? 9 then bsl +:+ "t"
  else if n =? 8 then bsl +:+ "b"
  else if n =? 12 then bsl +:+ "f"
  else if n <? 32 then u_escape n
  else if (n =? 127) && ensure_ascii then u_escape n
  else String a EmptyString.

(** The body of a string literal with [ensure_ascii=True]: every code point
    above 126 is decoded from its UTF-8 bytes and written as an escape. *)
Fixpoint escape_ascii (s : string) : string :=
  match s with
  | EmptyString => EmptyString
  | String a r =>
      let n := byte_val a in
      if n <? 128 then escape_byte true a +:+ escape_ascii r
      else if n <? 224 then
        match r with
        | String b r1 =>
            if (192 <=? n) && is_continuation b
            then u_escape ((n - 192) * 64 + (byte_val b - 128)) +:+ escape_ascii r1
            else u_escape n +:+ escape_ascii r
        | EmptyString => u_escape n
        end
      else if n <? 240 then
        match r with
        | String b (String c r2) =>
            u_escape ((n - 224) * 4096 + (byte_val b - 128) * 64 + (byte_val c - 128))
              +:+ escape_ascii r2
        | _ => u_escape n +:+ escape_ascii r
        end
      else
        match r with
        | String b (String c (String d r3)) =>
            u_escape ((n - 240) * 262144 + (byte_val b - 128) * 4096
                      + (byte_val c - 128) * 64 + (byte_val d - 128))
              +:+ escape_ascii r3
        | _ => u_escape n +:+ escape_ascii r
        end
  end.

(** The body of a string literal with [ensure_ascii=False]. *)
Fixpoint escape_raw (s : string) : string :=
  match s with
  | EmptyString => EmptyString
  | String a r =>
      (if byte_val a <? 128 then escape_byte false a else String a EmptyString)
        +:+ escape_raw r
  end.

Definition quote (ensure_ascii : bool) (s : string) : string :=
  dq +:+ (if ensure_ascii then escape_ascii s else escape_raw s) +:+ dq.

Definition digit (n : Z) : ascii := ascii_of_nat (Z.to_nat (48 + n)).

Fixpoint dec_go (fuel : nat) (n : Z) (acc : string) : string :=
  match fuel with
  | O => acc
  | S f =>
      let acc' := String (digit (n mod 10)) acc in
      if n <? 10 then acc' else dec_go f (n / 10) acc'
  end.

(** [str(n)] for an integer. *)
Definition dec (n : Z) : string :=
  if n <? 0 then "-" +:+ dec_go (S (Z.to_nat (Z.log2 (- n)))) (- n) ""
  else dec_go (S (Z.to_nat (Z.log2 n))) n "".

Fixpoint spaces (n : nat) : string :=
  match n with O => EmptyString | S m => String " " (spaces m) end.

(** The serialiser behind [json.dumps(v, ensure_ascii=ea, indent=indent)],
    at nesting level [lvl]; [compact] selects the separators without blanks
    that pydantic writes. *)
Fixpoint dumps_at (ea compact : bool) (indent : option nat) (lvl : nat) (v : json) : string :=
  let inner := match indent with
               | Some k => nl +:+ spaces (k * S lvl)
               | None => EmptyString
               end in
  let outer := match indent with
               | Some k => nl +:+ spaces (k * lvl)
               | None => EmptyString
               end in
  let sep := match indent with
             | Some _ => "," +:+ inner
             | None => if compact then "," else ", "
             end in
  let colon := if compact then ":" else ": " in
  match v with
  | JNull => "null"
  | JBool true => "true"
  | JBool false => "false"
  | JInt n => dec n
  | JStr s => quote ea s
  | JArr [] => "[]"
  | JArr (x :: rest) =>
      "[" +:+ inner +:+ dumps_at ea compact indent (S lvl) x +:+
      (fix tail (l : list json) : string :=
         match l with
         | [] => EmptyString
         | y :: l' => sep +:+ dumps_at ea compact indent (S lvl) y +:+ tail l'
         end) rest +:+ outer +:+ "]"
  | JObj [] => "{}"
  | JObj ((k, x) :: rest) =>
      "{" +:+ inner +:+ quote ea k +:+ colon +:+ dumps_at ea compact indent (S lvl) x +:+
      (fix tail (l : list (string * json)) : string :=
         match l with
         | [] => EmptyString
         | (k', y) :: l' =>
             sep +:+ quote ea k' +:+ colon +:+ dumps_at ea compact indent (S lvl) y +:+ tail l'
         end) rest +:+ outer +:+ "}"
  end.

(** [json.dumps(v)]. *)
Definition dumps (v : json) : string := dumps_at true false None 0 v.

(** [json.dumps(v, ensure_ascii=False, indent=2)]. *)
Definition dumps_pretty (v : json) : string := dumps_at false false (Some 2%nat) 0 v.

(** The compact form without escapes of non-ASCII text. *)
Definition dumps_compact (v : json) : string := dumps_at false true None 0 v.

(** Dictionaries read by [json.loads]: [d.get(k)] and [d[k] = v]. *)
Definition dict := list (string * json).

Fixpoint dict_get (k : string) (d : dict) : option json :=
  match d with
  | [] => None
  | (k', v) :: r => if String.eqb k k' then Some v else dict_get k r
  end.

Fixpoint dict_set (k : string) (v : json) (d : dict) : dict :=
  match d with
  | [] => [(k, v)]
  | (k', v') :: r =>
      if String.eqb k k' then (k', v) :: r else (k', v') :: dict_set k v r
  end.

(** A dictionary held in memory can have keys that are not texts:
    [dict.update] with a list of pairs takes as key whatever hashable value
    comes first in a pair. *)
Inductive pykey : Type :=
  | KStr (s : string)
  | KInt (n : Z)
  | KBool (b : bool)
  | KNone.

(** The number a key counts as, if any: [True] is 1 and [False] is 0. *)
Definition key_number (k : pykey) : option Z :=
  match k with
  | KInt n => Some n
  | KBool b => Some (if b then 1 else 0)
  | _ => None
  end.

(** [k1 == k2], the test by which a dictionary finds a key. *)
Definition key_eqb (k1 k2 : pykey) : bool :=
  match k1, k2 with
  | KStr s, KStr t => String.eqb s t
  | KNone, KNone => true
  | _, _ =>
      match key_number k1, key_number k2 with
      | Some n1, Some n2 => n1 =? n2
      | _, _ => false
      end
  end.

Definition pydict := list (pykey * json).

Fixpoint pydict_get (k : pykey) (d : pydict) : option json :=
  match d with
  | [] => None
  | (k', v) :: r => if key_eqb k k' then Some v else pydict_get k r
  end.

(** [d[k] = v]: a key already present keeps its place and its own spelling
    (after [d = {1: 0}], [d[True] = 5] leaves [{1: 5}]). *)
Fixpoint pydict_set (k : pykey) (v : json) (d : pydict) : pydict :=
  match d with
  | [] => [(k, v)]
  | (k', v') :: r =>
      if key_eqb k k' then (k', v) :: r else (k', v') :: pydict_set k v r
  end.

(** The hashable values: everything but lists and dictionaries. *)
Definition key_of (v : json) : option pykey :=
  match v with
  | JStr s => Some (KStr s)
  | JInt n => Some (KInt n)
  | JBool b => Some (KBool b)
  | JNull => Some KNone
  | JArr _ | JObj _ => None
  end.

(** One element of the sequence given to [dict.update], read as a key and a
    value: a list of two elements, a text of two characters or a dictionary
    of two keys (iterating it gives its keys); [None] when the element has
    another length, cannot be iterated or has an unhashable key. *)
Definition pair_of (item : json) : option (pykey * json) :=
  match item with
  | JArr [k; v] =>
      match key_of k with
      | Some key => Some (key, v)
      | None => None
      end
  | JStr s =>
      if Nat.eqb (py_len s) 2
      then Some (KStr (py_take 1 s), JStr (py_drop 1 s))
      else None
  | JObj [(k1, _); (k2, _)] => Some (KStr k1, JStr k2)
  | _ => None
  end.

(** The loop of [dict.update] over a sequence: the pairs are stored one by
    one, and the first element that is not a pair raises and ends the loop
    with the earlier pairs in place. *)
Fixpoint merge_pairs (d : pydict) (items : list json) : pydict * bool :=
  match items with
  | [] => (d, false)
  | item :: rest =>
      match pair_of item with
      | Some (k, v) => merge_pairs (pydict_set k v d) rest
      | None => (d, true)
      end
  end.

(** [d.update(other)] for a value read by [json.loads]: the dictionary as
    the call leaves it, and whether the call raised.  A dictionary is merged
    key by key; a list is read as a sequence of pairs; a text is a sequence
    of characters, none of which is a pair; a number, a boolean and [None]
    cannot be iterated. *)
Definition pydict_update (d : pydict) (other : json) : pydict * bool :=
  match other with
  | JObj e => (fold_left (fun acc kv => pydict_set (KStr (fst kv)) (snd kv) acc) e d, false)
  | JArr items => merge_pairs d items
  | JStr s => (d, truthy s)
  | JNull | JBool _ | JInt _ => (d, true)
  end.

(** The text [json.dumps] writes for a key. *)
Definition key_text (k : pykey) : string :=
  match k with
  | KStr s => s
  | KInt n => dec n
  | KBool true => "true"
  | KBool false => "false"
  | KNone => "null"
  end.

(** The entries a dictionary really has: a Python dictionary holds a key
    once, so in a list that repeats a key the later entries are dead. *)
Fixpoint first_entries (d : pydict) : pydict :=
  match d with
  | [] => []
  | (k, v) :: r =>
      (k, v) :: List.filter (fun kv => negb (key_eqb (fst kv) k)) (first_entries r)
  end.

(** [json.loads(json.dumps(d))]: the keys become texts; when two keys are
    written with the same text (1 and the text 1), the reader keeps the place
    of the first and the value of the last. *)
Definition loads_dumps (d : pydict) : dict :=
  fold_left (fun acc kv => dict_set (key_text (fst kv)) (snd kv) acc) (first_entries d) [].

(** A dictionary read by [json.loads], in memory. *)
Definition of_dict (d : dict) : pydict := map (fun kv => (KStr (fst kv), snd kv)) d.

End Json.

(** ** [hashlib.md5(...).hexdigest()] *)

Module MD5.
Import Json.

Definition mask32 : Z := 4294967295.
Definition add32 (a b : Z) : Z := Z.land (a + b) mask32.
Definition not32 (a : Z) : Z := Z.lxor a mask32.
Definition rotl32 (x c : Z) : Z :=
  Z.land (Z.lor (Z.shiftl x c) (Z.shiftr x (32 - c))) mask32.

(** [floor(2^32 * abs(sin(i + 1)))] for [i = 0 .. 63]. *)
Definition sines : list Z :=
  [3614090360; 3905402710; 606105819; 3250441966; 4118548399; 1200080426;
   2821735955; 4249261313; 1770035416; 2336552879; 4294925233; 2304563134;
   1804603682; 4254626195; 2792965006; 1236535329; 4129170786; 3225465664;
   643717713; 3921069994; 3593408605; 38016083; 3634488961; 3889429448;
   568446438; 3275163606; 4107603335; 1163531501; 2850285829; 4243563512;
   1735328473; 2368359562; 4294588738; 2272392833; 1839030562; 4259657740;
   2763975236; 1272893353; 4139469664; 3200236656; 681279174; 3936430074;
   3572445317; 76029189; 3654602809; 3873151461; 530742520; 3299628645;
   4096336452; 1126891415; 2878612391; 4237533241; 1700485571; 2399980690;
   4293915773; 2240044497; 1873313359; 4264355552; 2734768916; 1309151649;
   4149444226; 3174756917; 718787259; 3951481745].

Definition shift_amount (i : Z) : Z :=
  let r := i / 16 in
  let c := i mod 4 in
  nth (Z.to_nat c)
      (if r =? 0 then [7; 12; 17; 22]
       else if r =? 1 then [5; 9; 14; 20]
       else if r =? 2 then [4; 11; 16; 23]
       else [6; 10; 15; 21]) 0.

Record regs := Regs { ra : Z; rb : Z; rc : Z; rd : Z }.

Definition step (block : list Z) (r : regs) (i : Z) : regs :=
  let '(Regs a b c d) := r in
  let f :=
    if i <? 16 then Z.lor (Z.land b c) (Z.land (not32 b) d)
    else if i <? 32 then Z.lor (Z.land d b) (Z.land (not32 d) c)
    else if i <? 48 then Z.lxor b (Z.lxor c d)
    else Z.lxor c (Z.lor b (not32 d)) in
  let g :=
    if i <? 16 then i
    else if i <? 32 then (5 * i + 1) mod 16
    else if i <? 48 then (3 * i + 5) mod 16
    else (7 * i) mod 16 in
  let f' := add32 (add32 (add32 f a) (nth (Z.to_nat i) sines 0))
                  (nth (Z.to_nat g) block 0) in
  Regs d (add32 b (rotl32 f' (shift_amount i))) b c.

Definition rounds : list Z := map Z.of_nat (seq 0 64).

Definition compress (r : regs) (block : list Z) : regs :=
  let r' := fold_left (step block) rounds r in
  Regs (add32 (ra r) (ra r')) (add32 (rb r) (rb r'))
       (add32 (rc r) (rc r')) (add32 (rd r) (rd r')).

Fixpoint bytes_of (s : string) : list Z :=
  match s with
  | EmptyString => []
  | String a r => byte_val a :: bytes_of r
  end.

Definition le_bytes (n : nat) (v : Z) : list Z :=
  map (fun k => Z.land (Z.shiftr v (8 * Z.of_nat k)) 255) (seq 0 n).

(** The message, a 1 bit, zeros up to 56 modulo 64, the bit length on 8 bytes. *)
Definition pad (msg : list Z) : list Z :=
  let len := Z.of_nat (length msg) in
  let zeros := Z.to_nat ((55 - len) mod 64) in
  msg ++ [128] ++ repeat 0 zeros ++ le_bytes 8 (Z.land (8 * len) 18446744073709551615).

Fixpoint words (fuel : nat) (bs : list Z) : list Z :=
  match fuel, bs with
  | S f, b0 :: b1 :: b2 :: b3 :: r =>
      (b0 + 256 * b1 + 65536 * b2 + 16777216 * b3) :: words f r
  | _, _ => []
  end.

Fixpoint blocks (fuel : nat) (ws : list Z) : list (list Z) :=
  match fuel, ws with
  | S f, _ :: _ => firstn 16 ws :: blocks f (skipn 16 ws)
  | _, _ => []
  end.

Definition digest (msg : list Z) : regs :=
  let ws := words (length (pad msg)) (pad msg) in
  fold_left compress (blocks (length ws) ws)
            (Regs 1732584193 4023233417 2562383102 271733878).

Definition hex2 (b : Z) : string :=
  String (hex_digit (Z.shiftr b 4)) (String (hex_digit (Z.land b 15)) EmptyString).

Definition hex_word (w : Z) : string := Py.join (map hex2 (le_bytes 4 w)).

(** [hashlib.md5(s.encode()).hexdigest()]. *)
Definition hexdigest (s : string) : string :=
  let r := digest (bytes_of s) in
  hex_word (ra r) +:+ hex_word (rb r) +:+ hex_word (rc r) +:+ hex_word (rd r).

End MD5.

(** ** The key-value store *)

Module Redis.

(** A stored value with its absolute expiry time in seconds ([None]: the key
    never expires). *)
Record entry (A : Type) : Type := Entry { value : A; expire_at : option Z }.
Arguments Entry {A} _ _.
Arguments value {A} _.
Arguments expire_at {A} _.

Section KeySpace.
Context {A : Type}.
Implicit Types (m : gmap string (entry A)) (k : string) (now : Z).

Definition live now (e : entry A) : bool :=
  match expire_at e with
  | None => true
  | Some t => now <? t
  end.

(** [GET k]: an expired key reads as absent. *)
Definition get now m k : option A :=
  match m !! k with
  | Some e => if live now e then Some (value e) else None
  | None => None
  end.

(** [SET k v]: stores the value and drops any expiry. *)
Definition set k (v : A) m : gmap string (entry A) := <[k := Entry v None]> m.

(** [SETEX k seconds v]. *)
Definition setex now k (seconds : Z) (v : A) m : gmap string (entry A) :=
  <[k := Entry v (Some (now + seconds))]> m.

(** [DEL k]. *)
Definition del k m : gmap string (entry A) := delete k m.

(** [TTL k]: -2 for a missing key, -1 for a key without expiry, the
    remaining seconds otherwise. *)
Definition ttl now m k : Z :=
  match m !! k with
  | Some e =>
      if live now e then
        match expire_at e with
        | None => -1
        | Some t => t - now
        end
      else -2
  | None => -2
  end.

End KeySpace.

End Redis.

(** ** Data model of the service *)

Import Json.

(** One element of the stored history: the dictionary built by
    [add_message]; [metadata] is present only when a non-empty mapping was
    given. *)
Record Message : Type := {
  role : string;
  content : string;
  timestamp : string;
  metadata : option dict
}.

Definition message_to_json (m : Message) : json :=
  JObj ([("role", JStr (role m)); ("content", JStr (content m));
         ("timestamp", JStr (timestamp m))]
        ++ match metadata m with
           | Some d => [("metadata", JObj d)]
           | None => []
           end).

Definition history_to_json (h : list Message) : json := JArr (map message_to_json h).

(** The six key spaces of the service, the clock of the store, the log of
    prompts sent to the language model and the number of wall-clock reads
    made so far. *)
Record World : Type := {
  chat_history : gmap string (Redis.entry (list Message));
  chat_summary : gmap string (Redis.entry string);
  summary_hash : gmap string (Redis.entry string);
  user_profile : gmap string (Redis.entry dict);
  conv_count : gmap string (Redis.entry Z);
  conv_metadata : gmap string (Redis.entry (list json));
  redis_time : Z;
  llm_calls : list string;
  clock_reads : nat
}.

Definition with_chat_history (f : gmap string (Redis.entry (list Message)) ->
                                  gmap string (Redis.entry (list Message)))
    (w : World) : World :=
  {| chat_history := f (chat_history w); chat_summary := chat_summary w;
     summary_hash := summary_hash w; user_profile := user_profile w;
     conv_count := conv_count w; conv_metadata := conv_metadata w;
     redis_time := redis_time w; llm_calls := llm_calls w;
     clock_reads := clock_reads w |}.

Definition with_chat_summary (f : gmap string (Redis.entry string) ->
                                  gmap string (Redis.entry string))
    (w : World) : World :=
  {| chat_history := chat_history w; chat_summary := f (chat_summary w);
     summary_hash := summary_hash w; user_profile := user_profile w;
     conv_count := conv_count w; conv_metadata := conv_metadata w;
     redis_time := redis_time w; llm_calls := llm_calls w;
     clock_reads := clock_reads w |}.

Definition with_summary_hash (f : gmap string (Redis.entry string) ->
                                  gmap string (Redis.entry string))
    (w : World) : World :=
  {| chat_history := chat_history w; chat_summary := chat_summary w;
     summary_hash := f (summary_hash w); user_profile := user_profile w;
     conv_count := conv_count w; conv_metadata := conv_metadata w;
     redis_time := redis_time w; llm_calls := llm_calls w;
     clock_reads := clock_reads w |}.

Definition with_user_profile (f : gmap string (Redis.entry dict) ->
                                  gmap string (Redis.entry dict))
    (w : World) : World :=
  {| chat_history := chat_history w; chat_summary := chat_summary w;
     summary_hash := summary_hash w; user_profile := f (user_profile w);
     conv_count := conv_count w; conv_metadata := conv_metadata w;
     redis_time := redis_time w; llm_calls := llm_calls w;
     clock_reads := clock_reads w |}.

Definition with_conv_count (f : gmap string (Redis.entry Z) ->
                                gmap string (Redis.entry Z))
    (w : World) : World :=
  {| chat_history := chat_history w; chat_summary := chat_summary w;
     summary_hash := summary_hash w; user_profile := user_profile w;
     conv_count := f (conv_count w); conv_metadata := conv_metadata w;
     redis_time := redis_time w; llm_calls := llm_calls w;
     clock_reads := clock_reads w |}.

Definition with_conv_metadata (f : gmap string (Redis.entry (list json)) ->
                                   gmap string (Redis.entry (list json)))
    (w : World) : World :=
  {| chat_history := chat_history w; chat_summary := chat_summary w;
     summary_hash := summary_hash w; user_profile := user_profile w;
     conv_count := conv_count w; conv_metadata := f (conv_metadata w);
     redis_time := redis_time w; llm_calls := llm_calls w;
     clock_reads := clock_reads w |}.

(** Time passing on the store's clock. *)
Definition advance (seconds : Z) (w : World) : World :=
  {| chat_history := chat_history w; chat_summary := chat_summary w;
     summary_hash := summary_hash w; user_profile := user_profile w;
     conv_count := conv_count w; conv_metadata := conv_metadata w;
     redis_time := redis_time w + seconds; llm_calls := llm_calls w;
     clock_reads := clock_reads w |}.

Definition empty_world : World :=
  {| chat_history := ∅; chat_summary := ∅; summary_hash := ∅; user_profile := ∅;
     conv_count := ∅; conv_metadata := ∅; redis_time := 0; llm_calls := [];
     clock_reads := 0 |}.

(** Exceptions: [asyncio.TimeoutError] and every other [Exception], each
    with the text [str(e)] gives. *)
Inductive exn : Type :=
  | TimeoutError (msg : string)
  | OtherError (msg : string).

Inductive result (A : Type) : Type :=
  | Ok (a : A)
  | Raise (e : exn).
Arguments Ok {A} _.
Arguments Raise {A} _.

Definition with_llm_calls (f : list string -> list string) (w : World) : World :=
  {| chat_history := chat_history w; chat_summary := chat_summary w;
     summary_hash := summary_hash w; user_profile := user_profile w;
     conv_count := conv_count w; conv_metadata := conv_metadata w;
     redis_time := redis_time w; llm_calls := f (llm_calls w);
     clock_reads := clock_reads w |}.

Definition tick (w : World) : World :=
  {| chat_history := chat_history w; chat_summary := chat_summary w;
     summary_hash := summary_hash w; user_profile := user_profile w;
     conv_count := conv_count w; conv_metadata := conv_metadata w;
     redis_time := redis_time w; llm_calls := llm_calls w;
     clock_reads := S (clock_reads w) |}.

(** [messages[-n:]] for a positive [n]. *)
Definition last_n {A : Type} (n : nat) (l : list A) : list A :=
  skipn (length l - n) l.

(** [x or ""] for an optional string. *)
Definition or_empty (x : option string) : string :=
  match x with
  | Some s => s
  | None => ""
  end.

(** [bool(x)] for an optional string. *)
Definition opt_truthy (x : option string) : bool :=
  match x with
  | Some s => Py.truthy s
  | None => false
  end.

(** [x == s] for an optional string [x]. *)
Definition opt_eqb (x : option string) (s : string) : bool :=
  match x with
  | Some t => String.eqb t s
  | None => false
  end.

(** The dictionary returned by [get_conversation_context]. *)
Record Context : Type := {
  ctx_history : list Message;
  ctx_summary : string;
  ctx_strategy : string;
  ctx_tokens_used : Z;
  ctx_user_profile : option pydict
}.

(** The context as [json.dumps] writes it and [json.loads] reads it back:
    the turn puts the context into the metadata of [save_conversation], where
    it is only ever serialised. *)
Definition context_to_json (c : Context) : json :=
  JObj ([("history", history_to_json (ctx_history c));
         ("summary", JStr (ctx_summary c));
         ("strategy", JStr (ctx_strategy c));
         ("tokens_used", JInt (ctx_tokens_used c))]
        ++ match ctx_user_profile c with
           | Some p => [("user_profile", JObj (loads_dumps p))]
           | None => []
           end).

Definition summary_prompt (messages : list Message) : string :=
  "请根据以下对话历史生成一个简洁的核心摘要，突出主要话题和关键信息：
            
            "
  +:+ dumps_pretty (history_to_json messages) +:+
  "
            
            摘要要求：
            1. 突出对话的主要话题和关键信息
            2. 使用第三人称描述，提取重要数据/时间节点/待办事项
            3. 保留原始对话中的重要细节
            4. 确保包含最新的对话内容
            5. 长度不超过200字
            ".

Definition profile_prompt (messages : list Message) : string :=
  "根据以下对话历史，分析用户特征：
            
            对话历史：
            "
  +:+ dumps_pretty (history_to_json messages) +:+
  "
            
            请分析：
            1. 用户可能的法律领域兴趣
            2. 用户的对话风格偏好（正式/随意）
            3. 用户的身份特征（个人/企业/学生等）
            4. 用户关心的主要法律问题类型
            
            返回JSON格式：
            {
                " +:+ Py.dq +:+ "legal_interests" +:+ Py.dq +:+ ": [],
                " +:+ Py.dq +:+ "conversation_style" +:+ Py.dq +:+ ": " +:+ Py.dq +:+ "" +:+ Py.dq +:+ ",
                " +:+ Py.dq +:+ "user_type" +:+ Py.dq +:+ ": " +:+ Py.dq +:+ "" +:+ Py.dq +:+ ",
                " +:+ Py.dq +:+ "concerned_areas" +:+ Py.dq +:+ ": []
            }
            ".

(** ** [services/legal_service.py]: class LegalService *)

Module LegalService.

(** [self.context_config]. *)
Definition max_history_messages : nat := 10.
Definition summary_update_threshold : Z := 5.
Definition context_token_limit : Z := 2000.
Definition summary_ttl : Z := 86400.

Definition get_chat_key (account_id : string) : string := "chat_history:" +:+ account_id.
Definition get_summary_key (account_id : string) : string := "chat_summary:" +:+ account_id.
Definition get_profile_key (account_id : string) : string := "user_profile:" +:+ account_id.
Definition get_hash_key (account_id : string) : string := "summary_hash:" +:+ account_id.
Definition get_count_key (account_id : string) : string := "conv_count:" +:+ account_id.

Section Environment.

(** The language model: the answer to the [n]-th invocation with a given
    prompt is the text of the reply or an exception. *)
Variable llm : nat -> string -> result string.

(** The wall clock: [datetime.now().isoformat()] and
    [datetime.now().strftime(%Y%m%d)] at the [n]-th read. *)
Variable now_isoformat : nat -> string.
Variable now_yyyymmdd : nat -> string.

(** [json.loads] of a model reply; [None] when it raises. *)
Variable json_loads : string -> option json.

Definition datetime_now_isoformat (w : World) : string * World :=
  (now_isoformat (clock_reads w), tick w).

Definition datetime_now_yyyymmdd (w : World) : string * World :=
  (now_yyyymmdd (clock_reads w), tick w).

(** [await self.llm.ainvoke(prompt)] followed by [.content]. *)
Definition ainvoke (prompt : string) (w : World) : result string * World :=
  (llm (length (llm_calls w)) prompt, with_llm_calls (fun l => l ++ [prompt]) w).

Definition get_metadata_key (account_id : string) (session_id : option string)
    (w : World) : string * World :=
  if opt_truthy session_id
  then ("conv_metadata:" +:+ account_id +:+ ":" +:+ or_empty session_id, w)
  else let '(d, w1) := datetime_now_yyyymmdd w in
       ("conv_metadata:" +:+ account_id +:+ ":" +:+ d, w1).

Definition save_chat_history (account_id : string) (messages : list Message)
    (w : World) : World :=
  let key := get_chat_key account_id in
  let messages :=
    if (max_history_messages <? length messages)%nat
    then last_n max_history_messages messages
    else messages in
  with_chat_history (Redis.set key messages) w.

Definition get_chat_history (account_id : string) (w : World) : list Message :=
  let key := get_chat_key account_id in
  match Redis.get (redis_time w) (chat_history w) key with
  | Some messages => messages
  | None => []
  end.

Definition add_message (account_id role content : string) (metadata : option dict)
    (w : World) : World :=
  let messages := get_chat_history account_id w in
  let '(ts, w1) := datetime_now_isoformat w in
  let message_data :=
    {| role := role; content := content; timestamp := ts;
       metadata := match metadata with
                   | Some ((_ :: _) as d) => Some d
                   | _ => None
                   end |} in
  save_chat_history account_id (messages ++ [message_data]) w1.

Definition save_chat_messages (account_id user_message assistant_message : string)
    (w : World) : World :=
  add_message account_id "assistant" assistant_message None
    (add_message account_id "user" user_message None w).

Definition clear_chat_history (account_id : string) (w : World) : World :=
  let key := get_chat_key account_id in
  let w1 := with_chat_history (Redis.del key) w in
  with_chat_summary (Redis.del (get_summary_key account_id)) w1.

Definition generate_summary (account_id : string) (w : World) : string * World :=
  let summary_key := get_summary_key account_id in
  let cached_summary := Redis.get (redis_time w) (chat_summary w) summary_key in
  if opt_truthy cached_summary
     && (0 <? Redis.ttl (redis_time w) (chat_summary w) summary_key)
  then (or_empty cached_summary, w)
  else
    let messages := get_chat_history account_id w in
    match messages with
    | [] => ("", w)
    | _ :: _ =>
        let messages_hash := MD5.hexdigest (dumps (history_to_json messages)) in
        let last_hash_key := get_hash_key account_id in
        let last_hash := Redis.get (redis_time w) (summary_hash w) last_hash_key in
        if opt_eqb last_hash messages_hash
        then (or_empty cached_summary, w)
        else
          match ainvoke (summary_prompt messages) w with
          | (Ok new_summary, w1) =>
              let w2 := with_chat_summary
                          (Redis.setex (redis_time w1) summary_key summary_ttl new_summary) w1 in
              let w3 := with_summary_hash
                          (Redis.setex (redis_time w2) last_hash_key summary_ttl messages_hash) w2 in
              (new_summary, w3)
          | (Raise _, w1) => ("", w1)
          end
    end.

(** The store holds the profile as [json.loads] reads it; the dictionary
    returned on the first read is the one built in memory, which [update]
    has changed in place, up to the point where it raised if it did. *)
Definition get_user_profile (account_id : string) (w : World) : pydict * World :=
  let profile_key := get_profile_key account_id in
  match Redis.get (redis_time w) (user_profile w) profile_key with
  | Some profile => (of_dict profile, w)
  | None =>
      let '(ts, w1) := datetime_now_isoformat w in
      let default_profile : pydict :=
        [(KStr "preferred_language", JStr "zh-CN");
         (KStr "legal_interests", JArr []);
         (KStr "conversation_style", JStr "formal");
         (KStr "last_active", JStr ts);
         (KStr "total_conversations", JInt 0)] in
      let messages := get_chat_history account_id w1 in
      let '(profile, w2) :=
        match messages with
        | [] => (default_profile, w1)
        | _ :: _ =>
            match ainvoke (profile_prompt messages) w1 with
            | (Ok reply, w') =>
                match json_loads reply with
                | Some extracted_profile =>
                    (fst (pydict_update default_profile extracted_profile), w')
                | None => (default_profile, w')
                end
            | (Raise _, w') => (default_profile, w')
            end
        end in
      (profile,
       with_user_profile
         (Redis.setex (redis_time w2) profile_key (86400 * 7) (loads_dumps profile)) w2)
  end.

(** [profile.get(k, 0) + 1]: integers and booleans add, anything else
    raises [TypeError]. *)
Definition plus_one (v : option json) : option Z :=
  match v with
  | None => Some 1
  | Some (JInt n) => Some (n + 1)
  | Some (JBool b) => Some (if b then 2 else 1)
  | Some _ => None
  end.

Definition update_user_profile_stats (account_id : string) (w : World) : World :=
  let '(profile, w1) := get_user_profile account_id w in
  match plus_one (pydict_get (KStr "total_conversations") profile) with
  | Some n =>
      let profile := pydict_set (KStr "total_conversations") (JInt n) profile in
      let '(ts, w2) := datetime_now_isoformat w1 in
      let profile := pydict_set (KStr "last_active") (JStr ts) profile in
      with_user_profile
        (Redis.setex (redis_time w2) (get_profile_key account_id) (86400 * 7)
           (loads_dumps profile)) w2
  | None => w1
  end.

Definition get_conversation_context (account_id strategy : string) (max_tokens : Z)
    (w : World) : Context * World :=
  let messages := get_chat_history account_id w in
  let '(summary, w1) := generate_summary account_id w in
  let '(history, summary_field) :=
    if String.eqb strategy "full" then (messages, "")
    else if String.eqb strategy "summary" then ([], summary)
    else if String.eqb strategy "hybrid" then
      let recent_count := 3%nat in
      if (recent_count <? length messages)%nat
      then (last_n recent_count messages, summary)
      else (messages, "")
    else if String.eqb strategy "window" then
      let window_size := 5%nat in
      (if (window_size <? length messages)%nat
       then last_n window_size messages else messages, "")
    else ([], "") in
  let '(profile, w2) := get_user_profile account_id w1 in
  ({| ctx_history := history; ctx_summary := summary_field;
      ctx_strategy := strategy; ctx_tokens_used := 0;
      ctx_user_profile := match profile with
                          | [] => None
                          | _ :: _ => Some profile
                          end |}, w2).

Definition save_conversation (account_id user_input agent_response : string)
    (metadata : option dict) (w : World) : World :=
  let w1 := save_chat_messages account_id user_input agent_response w in
  let w2 :=
    match metadata with
    | Some ((_ :: _) as md) =>
        let '(session_id, wa) := datetime_now_yyyymmdd w1 in
        let '(metadata_key, wb) := get_metadata_key account_id (Some session_id) wa in
        let metadata_list :=
          match Redis.get (redis_time wb) (conv_metadata wb) metadata_key with
          | Some l => l
          | None => []
          end in
        let '(ts, wc) := datetime_now_isoformat wb in
        let metadata_record :=
          JObj [("timestamp", JStr ts);
                ("user_input", JStr (Py.py_take 100 user_input));
                ("agent_response_length", JInt (Z.of_nat (Py.py_len agent_response)));
                ("metadata", JObj md)] in
        let metadata_list := metadata_list ++ [metadata_record] in
        let metadata_list :=
          if (100 <? length metadata_list)%nat then last_n 100 metadata_list
          else metadata_list in
        with_conv_metadata
          (Redis.setex (redis_time wc) metadata_key (86400 * 30) metadata_list) wc
    | _ => w1
    end in
  update_user_profile_stats account_id w2.

(** The range of the integers Redis counts with: signed, 64 bits. *)
Definition int64_min : Z := -9223372036854775808.
Definition int64_max : Z := 9223372036854775807.

(** [INCR k]: a missing key counts from zero; an expiry is kept.  The
    command fails, and changes nothing, when the stored value is not a
    64-bit integer or the sum would not be one; the client raises
    [ResponseError]. *)
Definition incr (now : Z) (k : string) (m : gmap string (Redis.entry Z))
    : result Z * gmap string (Redis.entry Z) :=
  match m !! k with
  | Some e =>
      if Redis.live now e
      then
        if (Redis.value e <? int64_min) || (int64_max <? Redis.value e)
        then (Raise (OtherError "value is not an integer or out of range"), m)
        else if Redis.value e =? int64_max
        then (Raise (OtherError "increment or decrement would overflow"), m)
        else (Ok (Redis.value e + 1),
              <[k := Redis.Entry (Redis.value e + 1) (Redis.expire_at e)]> m)
      else (Ok 1, <[k := Redis.Entry 1 None]> m)
  | None => (Ok 1, <[k := Redis.Entry 1 None]> m)
  end.

Definition update_conversation_summary (account_id : string) (force : bool)
    (w : World) : string * World :=
  let count_key := get_count_key account_id in
  match fst (incr (redis_time w) count_key (conv_count w)) with
  | Raise _ => ("", w)
  | Ok conversation_count =>
      let w1 := with_conv_count (fun m => snd (incr (redis_time w) count_key m)) w in
      if force || (conversation_count mod summary_update_threshold =? 0)
      then
        let '(summary, w2) := generate_summary account_id w1 in
        let w3 := if 100 <=? conversation_count
                  then with_conv_count (Redis.set count_key 0) w2
                  else w2 in
        (summary, w3)
      else
        let summary_key := get_summary_key account_id in
        (or_empty (Redis.get (redis_time w1) (chat_summary w1) summary_key), w1)
  end.

End Environment.

End LegalService.

(** ** [models/json_response.py]: class JsonData *)

Module JsonData.

Record t : Type := {
  code : Z;
  data : option json;
  msg : option string;
  type : string
}.

Definition success (d : json) : t :=
  {| code := 0; data := Some d; msg := None; type := "text" |}.

Definition error (m : string) (c : Z) : t :=
  {| code := c; data := None; msg := Some m; type := "text" |}.

Definition stream_data (d : json) (m : string) : t :=
  {| code := 0; data := Some d; msg := Some m; type := "stream" |}.

Definition to_json (r : t) : json :=
  JObj [("code", JInt (code r));
        ("data", match data r with Some d => d | None => JNull end);
        ("msg", match msg r with Some m => JStr m | None => JNull end);
        ("type", JStr (type r))].

(** [model_dump_json()]. *)
Definition model_dump_json (r : t) : string := dumps_compact (to_json r).

End JsonData.

(** ** [agents/legal_agent.py] *)

Module LegalAgent.
Import LegalService.

(** One item produced by [agent_executor.astream]: a dictionary that may
    carry an [output], [intermediate_steps] or [error] entry. *)
Record Chunk : Type := {
  output : option string;
  intermediate_steps : option json;
  error : option string
}.

(** The dictionary handed to the agent. *)
Record AgentInput : Type := {
  input : string;
  chat_history_in : list Message;
  summary_in : string;
  user_profile_in : pydict
}.

(** What iterating the agent's stream does: the chunks it produces, then
    either the end of the stream or an exception. *)
Record AgentRun : Type := {
  chunks : list Chunk;
  failure : option exn
}.

(** The coroutines the turn hands to [asyncio.create_task]. *)
Inductive Task : Type :=
  | SaveConversation (account_id user_input agent_response : string) (metadata : dict)
  | UpdateConversationSummary (account_id : string).

(** The value of a call expression passed to [asyncio.create_task]: calling
    an [async def] gives a coroutine object and runs nothing; calling a plain
    [def] runs it and gives its return value. *)
Inductive CallValue : Type :=
  | Coroutine (t : Task)
  | NoneValue.

(** [asyncio.create_task]: schedules a coroutine, raises [TypeError] on
    anything else. *)
Definition create_task (v : CallValue) (scheduled : list Task) : result (list Task) :=
  match v with
  | Coroutine t => Ok (scheduled ++ [t])
  | NoneValue => Raise (OtherError "a coroutine was expected, got None")
  end.

(** Which exit of the [try] statement the turn took. *)
Inductive Exit : Type :=
  | Completed
  | TimeoutHandler
  | ErrorHandler.

(** The observable result of one run of the generator
    [chat_with_legal_agent]: the strings it yielded, the exception that
    escaped it (if any), the tasks it scheduled and the store it left. *)
Record Turn : Type := {
  yielded : list string;
  escaped : option exn;
  scheduled : list Task;
  exit_taken : Exit;
  world : World
}.

Definition timeout_apology : string := "抱歉，思考时间过长，请简化您的问题重试。".
Definition generic_apology : string := "对话失败，请稍后再试".
Definition busy_apology : string := "服务繁忙，请稍后重试".
Definition new_session_message : string := "对话历史过长，已开启新会话".

(** The body of the [async for] over the agent's chunks: the tokens
    appended to [full_response] (each of them yielded) and the steps appended
    to [tool_calls_log]. *)
Definition consume_chunk (acc : list string * list json) (chunk : Chunk)
    : list string * list json :=
  let '(full_response, tool_calls_log) := acc in
  match output chunk with
  | Some token => (full_response ++ [token], tool_calls_log)
  | None =>
      match intermediate_steps chunk with
      | Some steps => (full_response, tool_calls_log ++ [steps])
      | None => (full_response, tool_calls_log)
      end
  end.

Definition consume (cs : list Chunk) : list string * list json :=
  fold_left consume_chunk cs ([], []).

Section Environment.

Variable llm : nat -> string -> result string.
Variable now_isoformat : nat -> string.
Variable now_yyyymmdd : nat -> string.
Variable json_loads : string -> option json.

(** Runs a scheduled coroutine to completion. *)
Definition run_task (t : Task) (w : World) : World :=
  match t with
  | SaveConversation a u r md =>
      save_conversation llm now_isoformat now_yyyymmdd json_loads a u r (Some md) w
  | UpdateConversationSummary a =>
      snd (update_conversation_summary llm a false w)
  end.

(** The two [except] clauses of [chat_with_legal_agent], entered with the
    strings yielded and the tasks scheduled so far. *)
Definition except_clauses (account_id : string) (sent : list string)
    (spawned : list Task) (e : exn) (w : World) : Turn :=
  match e with
  | TimeoutError _ =>
      {| yielded := sent ++ [timeout_apology]; escaped := None;
         scheduled := spawned; exit_taken := TimeoutHandler; world := w |}
  | OtherError text =>
      let error_msg := generic_apology in
      if Py.contains "rate limit" (Py.lower text) then
        let error_msg := busy_apology in
        {| yielded := sent ++ [error_msg]; escaped := None;
           scheduled := spawned; exit_taken := ErrorHandler; world := w |}
      else if Py.contains "context length" (Py.lower text) then
        let error_msg := new_session_message in
        (* legal_service.clear_chat_history is a plain def: the call runs
           now and its value, None, is what create_task receives. *)
        let cleared := clear_chat_history account_id w in
        match create_task NoneValue spawned with
        | Ok spawned' =>
            {| yielded := sent ++ [error_msg]; escaped := None;
               scheduled := spawned'; exit_taken := ErrorHandler; world := cleared |}
        | Raise e' =>
            {| yielded := sent; escaped := Some e';
               scheduled := spawned; exit_taken := ErrorHandler; world := cleared |}
        end
      else
        {| yielded := sent ++ [error_msg]; escaped := None;
           scheduled := spawned; exit_taken := ErrorHandler; world := w |}
  end.

(** [chat_with_legal_agent] with [stream_callback=None], the only way the
    repository calls it. *)
Definition chat_with_legal_agent (agent_executor : AgentInput -> AgentRun)
    (account_id input_text : string) (w : World) : Turn :=
  let '(context, w1) :=
    get_conversation_context llm now_isoformat json_loads account_id "hybrid" 1000 w in
  let '(profile, w2) := get_user_profile llm now_isoformat json_loads account_id w1 in
  let agent_input :=
    {| input := input_text; chat_history_in := ctx_history context;
       summary_in := ctx_summary context; user_profile_in := profile |} in
  let run := agent_executor agent_input in
  let '(full_response, tool_calls_log) := consume (chunks run) in
  match failure run with
  | Some e => except_clauses account_id full_response [] e w2
  | None =>
      match full_response with
      | [] =>
          {| yielded := full_response; escaped := None; scheduled := [];
             exit_taken := Completed; world := w2 |}
      | _ :: _ =>
          let complete_response := Py.join full_response in
          let '(ts, w3) := datetime_now_isoformat now_isoformat w2 in
          let metadata : dict :=
            [("tool_calls", JArr tool_calls_log);
             ("context_used", context_to_json context);
             ("timestamp", JStr ts)] in
          match create_task
                  (Coroutine (SaveConversation account_id input_text
                                               complete_response metadata)) [] with
          | Raise e => except_clauses account_id full_response [] e w3
          | Ok s1 =>
              match create_task (Coroutine (UpdateConversationSummary account_id)) s1 with
              | Raise e => except_clauses account_id full_response s1 e w3
              | Ok s2 =>
                  {| yielded := full_response; escaped := None; scheduled := s2;
                     exit_taken := Completed; world := w3 |}
              end
          end
      end
  end.

Definition punctuation : list string := ["。"; "？"; "！"; "；"; "，"].

(** One server-sent-events frame carrying a chunk of text. *)
Definition frame (current_chunk : string) : string :=
  "data: " +:+ JsonData.model_dump_json (JsonData.stream_data (JStr current_chunk) "")
  +:+ Py.nl +:+ Py.nl.

Definition done_frame : string := "data: [DONE]" +:+ Py.nl +:+ Py.nl.

(** The [async for] of [generate_stream_response]: the frames sent while
    the tokens arrive and the chunk still pending when they end. *)
Fixpoint stream_loop (current_chunk : string) (tokens : list string)
    : list string * string :=
  match tokens with
  | [] => ([], current_chunk)
  | token :: rest =>
      let current_chunk := current_chunk +:+ token in
      if Py.str_in token punctuation || (10 <=? Py.py_len current_chunk)%nat
      then let '(frames, pending) := stream_loop "" rest in
           (frame current_chunk :: frames, pending)
      else stream_loop current_chunk rest
  end.

(** The frames [generate_stream_response] sends for the tokens the inner
    generator yields; when that generator raises, the exception leaves the
    loop and nothing more is sent. *)
Definition stream_frames (tokens : list string) (escaped : option exn) : list string :=
  let '(frames, pending) := stream_loop "" tokens in
  match escaped with
  | Some _ => frames
  | None =>
      frames ++ (if Py.truthy pending then [frame pending] else []) ++ [done_frame]
  end.

Definition generate_stream_response (agent_executor : AgentInput -> AgentRun)
    (account_id input_text : string) (w : World) : list string * option exn * World :=
  let turn := chat_with_legal_agent agent_executor account_id input_text w in
  (stream_frames (yielded turn) (escaped turn), escaped turn, world turn).

End Environment.

End LegalAgent.

(** ** [routers/legal.py]: the image upload route *)

Module Router.

Definition UPLOAD_DIR : string := "uploads".

(** The set literal of [chat_with_multi_agent]; only membership is used. *)
Definition allowed_extensions : list string :=
  ["jpg"; "jpeg"; "png"; "gif"; "bmp"; "webp"].

(** The uploaded file: its name as the client sent it, and its bytes. *)
Record UploadFile : Type := {
  filename : option string;
  body : string
}.

Definition is_dot (c : ascii) : bool := Nat.eqb (nat_of_ascii c) 46.

Fixpoint has_dot (s : string) : bool :=
  match s with
  | EmptyString => false
  | String c r => is_dot c || has_dot r
  end.

(** [s.split('.')[-1]]: what follows the last dot, the whole text when
    there is none. *)
Fixpoint after_last_dot (s : string) : string :=
  match s with
  | EmptyString => EmptyString
  | String c r =>
      if has_dot r then after_last_dot r
      else if is_dot c then r
      else String c r
  end.

Fixpoint ends_with_slash (s : string) : bool :=
  match s with
  | EmptyString => false
  | String c EmptyString => Nat.eqb (nat_of_ascii c) 47
  | String _ r => ends_with_slash r
  end.

(** [os.path.join(a, b)] on a POSIX system. *)
Definition path_join (a b : string) : string :=
  if String.prefix "/" b then b
  else if negb (Py.truthy a) || ends_with_slash a then a +:+ b
  else a +:+ "/" +:+ b.

(** What the route answers: an HTTP error, or a streaming response that
    will run [generate_stream_response] for an account and an input. *)
Inductive Response : Type :=
  | HTTPException (status_code : Z) (detail : string)
  | StreamingResponse (account_id input_text : string).

Section Environment.

(** [uuid.uuid4().hex] for this request. *)
Variable uuid4_hex : string.

(** The error of opening, reading or writing the file, if any. *)
Variable io_error : option string.

(** The detail text of a refused file type: it spells the extension with
    the full lowercasing of Python and lists the set in its iteration
    order. *)
Variable unsupported_detail : option string -> string.

(** The extension test of the route; the lowercasing is exact on the
    letters A to Z, which is all the six allowed extensions can match. *)
Definition file_extension (image : UploadFile) : string :=
  match filename image with
  | Some name => if Py.truthy name then Py.lower (after_last_dot name) else ""
  | None => ""
  end.

(** [chat_with_multi_agent]: the response and the files it has written in
    full. *)
Definition chat_with_multi_agent (message account_id : string)
    (image : option UploadFile) : Response * list (string * string) :=
  match image with
  | Some img =>
      let file_extension := file_extension img in
      if negb (Py.str_in file_extension allowed_extensions)
      then (HTTPException 400 (unsupported_detail (filename img)), [])
      else
        let filename := uuid4_hex +:+ "." +:+ file_extension in
        let image_path := path_join UPLOAD_DIR filename in
        match io_error with
        | Some e => (HTTPException 500 ("对话处理失败: " +:+ e), [])
        | None =>
            let full_message :=
              message +:+ Py.nl +:+ Py.nl +:+ "[图像文件: " +:+ image_path +:+ "]" in
            (StreamingResponse account_id full_message, [(image_path, body img)])
        end
  | None => (StreamingResponse account_id message, [])
  end.

End Environment.

End Router.

(** ** [core/multi_llm.py]: OpenAISDKWrapper._convert_messages *)

Module QwenWrapper.
Import Json.

(** The shapes [_convert_messages] tells apart: an object with a content
    attribute (with the name of its class), a tuple of two elements, a
    mapping, and anything else. *)
Inductive Incoming : Type :=
  | MessageObject (class_name : string) (content : json)
  | Pair (role content : json)
  | Mapping (d : dict)
  | Plain (v : json).

Section Environment.

(** [str(x)] of a list or of a mapping. *)
Variable repr_container : json -> string.

(** [str(x)]. *)
Definition py_str (v : json) : string :=
  match v with
  | JStr s => s
  | JNull => "None"
  | JBool true => "True"
  | JBool false => "False"
  | JInt n => dec n
  | _ => repr_container v
  end.

Definition has_key (k : string) (d : dict) : bool :=
  match dict_get k d with
  | Some _ => true
  | None => false
  end.

Definition text_item (v : json) : json :=
  JObj [("type", JStr "text"); ("text", JStr (py_str v))].

(** An item of a list content, for a message object. *)
Definition format_object_item (item : json) : json :=
  match item with
  | JObj d =>
      if has_key "type" d then item
      else
        match dict_get "image_url" d with
        | Some url => JObj [("type", JStr "image_url"); ("image_url", url)]
        | None =>
            match dict_get "text" d with
            | Some t => JObj [("type", JStr "text"); ("text", t)]
            | None => text_item item
            end
        end
  | _ => text_item item
  end.

(** An item of a list content, for a mapping. *)
Definition format_mapping_item (item : json) : json :=
  match item with
  | JObj d => if has_key "type" d then item else text_item item
  | _ => text_item item
  end.

(** The role of a message object, from the name of its class. *)
Definition role_of_class (class_name : string) : string :=
  if Py.contains "AI" class_name || Py.contains "Assistant" class_name
  then "assistant"
  else if Py.contains "System" class_name then "system"
  else "user".

(** [role_map.get(role, "user")]; lists and mappings cannot be looked up
    and raise [TypeError]. *)
Definition role_of_pair (role : json) : result string :=
  match role with
  | JStr r =>
      Ok (if String.eqb r "human" then "user"
          else if String.eqb r "ai" then "assistant"
          else if String.eqb r "system" then "system"
          else "user")
  | JArr _ => Raise (OtherError "unhashable type: 'list'")
  | JObj _ => Raise (OtherError "unhashable type: 'dict'")
  | _ => Ok "user"
  end.

Definition convert_message (msg : Incoming) : result json :=
  match msg with
  | MessageObject class_name content =>
      let role := role_of_class class_name in
      match content with
      | JArr items =>
          Ok (JObj [("role", JStr role);
                    ("content", JArr (map format_object_item items))])
      | _ => Ok (JObj [("role", JStr role); ("content", JStr (py_str content))])
      end
  | Pair role content =>
      match role_of_pair role with
      | Ok r => Ok (JObj [("role", JStr r); ("content", JStr (py_str content))])
      | Raise e => Raise e
      end
  | Mapping d =>
      match dict_get "content" d with
      | Some (JArr items) =>
          Ok (JObj (dict_set "content" (JArr (map format_mapping_item items)) d))
      | _ => Ok (JObj d)
      end
  | Plain v => Ok (JObj [("role", JStr "user"); ("content", JStr (py_str v))])
  end.

(** [_convert_messages]: the loop stops at the first message that raises. *)
Fixpoint convert_messages (messages : list Incoming) : result (list json) :=
  match messages with
  | [] => Ok []
  | msg :: rest =>
      match convert_message msg with
      | Raise e => Raise e
      | Ok m =>
          match convert_messages rest with
          | Raise e => Raise e
          | Ok ms => Ok (m :: ms)
          end
      end
  end.

(** A converted message handed in again, as the mapping it is. *)
Definition as_incoming (v : json) : Incoming :=
  match v with
  | JObj d => Mapping d
  | _ => Plain v
  end.

End Environment.

End QwenWrapper.

(** ** [tools/legal_tool.py]: web_search *)

Module LegalTool.
Import Json.

Section Environment.

(** [SearchApiAPIWrapper().results(query)]: the decoded reply, or an
    exception with its text. *)
Variable search_results : string -> result json.

(** [str(x)] of a list or of a mapping. *)
Variable repr_container : json -> string.

(** The text of the TypeError raised by [x[key]] on a value that is not a
    mapping, and by iterating a value that cannot be iterated. *)
Variable subscript_error : json -> string.
Variable iteration_error : json -> string.

(** [x[key]] with a text key; a missing key raises KeyError, whose text is
    the key between quotes. *)
Definition subscript (x : json) (key : string) : result json :=
  match x with
  | JObj d =>
      match dict_get key d with
      | Some v => Ok v
      | None => Raise (OtherError ("'" +:+ key +:+ "'"))
      end
  | _ => Raise (OtherError (subscript_error x))
  end.

(** The first element a [for] loop takes from a value that is not a list;
    [None] when the loop has nothing to take. *)
Definition first_of_iteration (x : json) : result (option json) :=
  match x with
  | JArr [] => Ok None
  | JArr (v :: _) => Ok (Some v)
  | JStr s => Ok (if Py.truthy s then Some (JStr (Py.py_take 1 s)) else None)
  | JObj [] => Ok None
  | JObj ((k, _) :: _) => Ok (Some (JStr k))
  | _ => Raise (OtherError (iteration_error x))
  end.

(** One block of the answer: the source and the content of a result. *)
Definition block (res : json) : result string :=
  match subscript res "title" with
  | Raise e => Raise e
  | Ok title =>
      match subscript res "snippet" with
      | Raise e => Raise e
      | Ok snippet =>
          Ok ("来源：" +:+ QwenWrapper.py_str repr_container title +:+ Py.nl
              +:+ "内容：" +:+ QwenWrapper.py_str repr_container snippet)
      end
  end.

(** The list comprehension over a list of results. *)
Fixpoint blocks (items : list json) : result (list string) :=
  match items with
  | [] => Ok []
  | res :: rest =>
      match block res with
      | Raise e => Raise e
      | Ok b =>
          match blocks rest with
          | Raise e => Raise e
          | Ok bs => Ok (b :: bs)
          end
      end
  end.

(** [sep.join(l)]. *)
Fixpoint join_with (sep : string) (l : list string) : string :=
  match l with
  | [] => EmptyString
  | [x] => x
  | x :: r => x +:+ sep +:+ join_with sep r
  end.

(** The body of the [try] statement. *)
Definition search_and_format (query : string) : result string :=
  match search_results query with
  | Raise e => Raise e
  | Ok results =>
      match subscript results "organic_results" with
      | Raise e => Raise e
      | Ok (JArr items) =>
          match blocks items with
          | Raise e => Raise e
          | Ok bs => Ok (join_with (Py.nl +:+ Py.nl) bs)
          end
      | Ok other =>
          (* a text or a mapping is iterated too: its elements are texts,
             which have no title *)
          match first_of_iteration other with
          | Raise e => Raise e
          | Ok None => Ok EmptyString
          | Ok (Some element) =>
              match block element with
              | Raise e => Raise e
              | Ok b => Ok b
              end
          end
      end
  end.

Definition exn_text (e : exn) : string :=
  match e with
  | TimeoutError m => m
  | OtherError m => m
  end.

(** [web_search]. *)
Definition web_search (query : string) : string :=
  match search_and_format query with
  | Ok text => text
  | Raise e => "搜索失败：" +:+ exn_text e
  end.

End Environment.

End LegalTool.

(** ** The rule of the specification for the streaming re-chunker

    Written from the words of the specification, to be compared with
    [LegalAgent.stream_loop]: a frame is sent as soon as the accumulated
    chunk ends in one of the punctuation marks or has ten characters. *)

Module StreamSpec.
Import LegalAgent.

Fixpoint is_suffix_fuel (fuel : nat) (p s : string) : bool :=
  String.eqb p s ||
  match fuel, s with
  | S f, String _ r => is_suffix_fuel f p r
  | _, _ => false
  end.

Definition ends_with (p s : string) : bool := is_suffix_fuel (String.length s) p s.

Definition ends_in_punctuation (s : string) : bool :=
  existsb (fun p => ends_with p s) punctuation.

Fixpoint spec_stream_loop (current_chunk : string) (tokens : list string)
    : list string * string :=
  match tokens with
  | [] => ([], current_chunk)
  | token :: rest =>
      let current_chunk := current_chunk +:+ token in
      if ends_in_punctuation current_chunk || (10 <=? Py.py_len current_chunk)%nat
      then let '(frames, pending) := spec_stream_loop "" rest in
           (frame current_chunk :: frames, pending)
      else spec_stream_loop current_chunk rest
  end.

Definition spec_stream_frames (tokens : list string) : list string :=
  let '(frames, pending) := spec_stream_loop "" tokens in
  frames ++ (if Py.truthy pending then [frame pending] else []) ++ [done_frame].

End StreamSpec.

(** ** Notions used in the statements *)

Module Views.
Import LegalService.

(** What is kept in the store after [save_chat_history]: the last ten
    messages at most. *)
Definition retained (messages : list Message) : list Message :=
  if (max_history_messages <? length messages)%nat
  then last_n max_history_messages messages
  else messages.

(** The message [add_message] builds. *)
Definition new_message (now_isoformat : nat -> string) (role content : string)
    (md : option dict) (w : World) : Message :=
  {| role := role; content := content; timestamp := now_isoformat (clock_reads w);
     metadata := match md with
                 | Some ((_ :: _) as d) => Some d
                 | _ => None
                 end |}.

(** A sequence of appends to one account: role, content and metadata of
    each. *)
Definition appends (now_isoformat : nat -> string) (a : string) (ops : list (string * string * option dict))
    (w : World) : World :=
  fold_left (fun w op => add_message now_isoformat a (fst (fst op)) (snd (fst op)) (snd op) w)
            ops w.

(** [n] per-turn maintenance calls in a row, without forcing. *)
Definition maintenance (llm : nat -> string -> result string) (a : string)
    (n : nat) (w : World) : World :=
  Nat.iter n (fun w => snd (update_conversation_summary llm a false w)) w.

(** The counter of an account as [INCR] will see it. *)
Definition counter (a : string) (w : World) : Z :=
  match Redis.get (redis_time w) (conv_count w) (get_count_key a) with
  | Some n => n
  | None => 0
  end.

(** The store with the counter of the account incremented. *)
Definition bump (a : string) (w : World) : World :=
  with_conv_count (fun m => snd (incr (redis_time w) (get_count_key a) m)) w.

(** What [generate_summary] reads before deciding. *)
Definition cached_summary (a : string) (w : World) : option string :=
  Redis.get (redis_time w) (chat_summary w) (get_summary_key a).

Definition stored_hash (a : string) (w : World) : option string :=
  Redis.get (redis_time w) (summary_hash w) (get_hash_key a).

Definition current_hash (a : string) (w : World) : string :=
  MD5.hexdigest (dumps (history_to_json (get_chat_history a w))).

(** The first test of [generate_summary]: a non-empty cached summary that
    has a positive time to live. *)
Definition fresh_cache (a : string) (w : World) : bool :=
  opt_truthy (cached_summary a w)
  && (0 <? Redis.ttl (redis_time w) (chat_summary w) (get_summary_key a)).

Definition is_ok {A : Type} (r : result A) : bool :=
  match r with
  | Ok _ => true
  | Raise _ => false
  end.

(** The store after a successful generation. *)
Definition cache_summary (a new_summary : string) (w : World) : World :=
  let w1 := with_llm_calls
              (fun l => l ++ [summary_prompt (get_chat_history a w)]) w in
  let w2 := with_chat_summary
              (Redis.setex (redis_time w1) (get_summary_key a) summary_ttl new_summary) w1 in
  with_summary_hash
    (Redis.setex (redis_time w2) (get_hash_key a) summary_ttl (current_hash a w)) w2.

(** The dictionary a turn hands to the agent and the store at that point:
    steps 1 and 2 of [chat_with_legal_agent]. *)
Definition turn_input (llm : nat -> string -> result string)
    (now_isoformat : nat -> string) (json_loads : string -> option json)
    (account_id input_text : string) (w : World) : LegalAgent.AgentInput * World :=
  let '(context, w1) :=
    get_conversation_context llm now_isoformat json_loads account_id "hybrid" 1000 w in
  let '(profile, w2) := get_user_profile llm now_isoformat json_loads account_id w1 in
  ({| LegalAgent.input := input_text;
      LegalAgent.chat_history_in := ctx_history context;
      LegalAgent.summary_in := ctx_summary context;
      LegalAgent.user_profile_in := profile |}, w2).

(** The test of the re-chunker on the chunk accumulated so far and the
    token just received. *)
Definition trigger (current_chunk token : string) : bool :=
  Py.str_in token LegalAgent.punctuation
  || (10 <=? Py.py_len (current_chunk +:+ token))%nat.

(** The texts of the chunks the re-chunker sends while the tokens arrive,
    and the text still pending at the end. *)
Fixpoint coalesce (current_chunk : string) (tokens : list string)
    : list string * string :=
  match tokens with
  | [] => ([], current_chunk)
  | token :: rest =>
      if trigger current_chunk token
      then ((current_chunk +:+ token) :: fst (coalesce "" rest),
            snd (coalesce "" rest))
      else coalesce (current_chunk +:+ token) rest
  end.

(** All the chunks sent for a stream that ends normally. *)
Definition chunks_of (tokens : list string) : list string :=
  fst (coalesce "" tokens)
  ++ (if Py.truthy (snd (coalesce "" tokens)) then [snd (coalesce "" tokens)] else []).

(** The JSON text of a stream frame, written out. *)
Definition payload (chunk : string) : string :=
  "{" +:+ Py.dq +:+ "code" +:+ Py.dq +:+ ":0,"
  +:+ Py.dq +:+ "data" +:+ Py.dq +:+ ":" +:+ Json.quote false chunk +:+ ","
  +:+ Py.dq +:+ "msg" +:+ Py.dq +:+ ":" +:+ Py.dq +:+ Py.dq +:+ ","
  +:+ Py.dq +:+ "type" +:+ Py.dq +:+ ":" +:+ Py.dq +:+ "stream" +:+ Py.dq +:+ "}".

End Views.

(** ** More notions used in the statements *)

Module ExtraViews.
Import LegalService.

(** The profile [get_user_profile] starts from when none is stored. *)
Definition default_profile (ts : string) : pydict :=
  [(KStr "preferred_language", JStr "zh-CN");
   (KStr "legal_interests", JArr []);
   (KStr "conversation_style", JStr "formal");
   (KStr "last_active", JStr ts);
   (KStr "total_conversations", JInt 0)].

(** The keys of a dictionary are all texts. *)
Definition is_text_key (k : pykey) : bool :=
  match k with
  | KStr _ => true
  | _ => false
  end.

Definition text_keyed (d : pydict) : bool := forallb (fun kv => is_text_key (fst kv)) d.

(** No key comes twice in the list that stands for a dictionary. *)
Fixpoint keys_once (d : pydict) : Prop :=
  match d with
  | [] => True
  | (k, _) :: r => pydict_get k r = None /\ keys_once r
  end.

(** A dictionary with its keys spelled as [json.dumps] spells them. *)
Definition to_dict (d : pydict) : dict := map (fun kv => (key_text (fst kv), snd kv)) d.

(** An element that [dict.update] can read as a key and a value. *)
Definition is_pair (item : json) : bool :=
  match pair_of item with
  | Some _ => true
  | None => false
  end.

(** The profile stored for an account. *)
Definition stored_profile (a : string) (w : World) : option dict :=
  Redis.get (redis_time w) (user_profile w) (get_profile_key a).

(** The metadata log of an account for a day. *)
Definition metadata_log (a day : string) (w : World) : option (list json) :=
  Redis.get (redis_time w) (conv_metadata w)
            ("conv_metadata:" +:+ a +:+ ":" +:+ day).

(** The record [save_conversation] appends to the metadata log. *)
Definition metadata_record (ts user_input agent_response : string) (md : dict) : json :=
  JObj [("timestamp", JStr ts);
        ("user_input", JStr (Py.py_take 100 user_input));
        ("agent_response_length", JInt (Z.of_nat (Py.py_len agent_response)));
        ("metadata", JObj md)].

(** No byte of the text is below 32: the text holds none of the control
    characters of ASCII but DEL, in particular no line feed and no carriage
    return. *)
Fixpoint no_byte_below_32 (s : string) : bool :=
  match s with
  | EmptyString => true
  | String a r => (32 <=? Json.byte_val a) && no_byte_below_32 r
  end.

Definition carriage_return : string := String (ascii_of_nat 13) EmptyString.
Definition delete_character : string := String (ascii_of_nat 127) EmptyString.

(** The strings carried by the output chunks of a stream, in order. *)
Definition outputs (cs : list LegalAgent.Chunk) : list string :=
  omap LegalAgent.output cs.

(** The store once the tasks a turn has scheduled have run, in the order
    they were scheduled. *)
Definition settle (llm : nat -> string -> result string)
    (now_isoformat now_yyyymmdd : nat -> string)
    (json_loads : string -> option json) (t : LegalAgent.Turn) : World :=
  fold_left (fun w task =>
               LegalAgent.run_task llm now_isoformat now_yyyymmdd json_loads task w)
            (LegalAgent.scheduled t) (LegalAgent.world t).


Definition is_mapping (msg : QwenWrapper.Incoming) : bool :=
  match msg with
  | QwenWrapper.Mapping _ => true
  | _ => false
  end.

End ExtraViews.

(** ** A concrete environment for the examples *)

Module Demo.
Import LegalService LegalAgent Views.

Definition account : string := "u1001".

(** A model that always answers. *)
Definition llm_ok : nat -> string -> result string :=
  fun _ _ => Ok "用户咨询了劳动合同解除后的经济补偿问题。".


(** A clock that advances by one microsecond at every read. *)
Definition clock : nat -> string :=
  fun n => "2024-05-01T09:30:00.00000" +:+ dec (Z.of_nat n).

(** A clock whose reads all fall on the same instant. *)
Definition frozen_clock : nat -> string := fun _ => "2024-05-01T09:30:00".

Definition today : nat -> string := fun _ => "20240501".

(** Replies of the model are not valid JSON. *)
Definition no_profile : string -> option json := fun _ => None.

(** After one persisted turn. *)
Definition one_turn : World :=
  save_chat_messages clock account "公司辞退我需要赔偿吗" "根据劳动合同法第四十七条，应当支付经济补偿。"
    empty_world.

(** After one persisted turn and a first summary. *)
Definition summarised : World := snd (generate_summary llm_ok account one_turn).

(** After a second persisted turn: the history changed, the summary did not. *)
Definition two_turns : World :=
  save_chat_messages clock account "补偿金怎么计算" "按工作年限，每满一年支付一个月工资。"
    summarised.

(** A fifth message. *)
Definition five_messages : World :=
  add_message clock account "user" "试用期被辞退也有补偿吗" None two_turns.

(** The same first turn and summary under the frozen clock. *)
Definition frozen_turn : World :=
  save_chat_messages frozen_clock account "公司辞退我需要赔偿吗"
    "根据劳动合同法第四十七条，应当支付经济补偿。" empty_world.

Definition frozen_summarised : World := snd (generate_summary llm_ok account frozen_turn).

(** Agents: one that answers in two tokens, one that times out after a
    token, one that overflows the context window at once. *)
Definition token (s : string) : Chunk :=
  {| output := Some s; intermediate_steps := None; error := None |}.

Definition agent_answers : AgentInput -> AgentRun :=
  fun _ => {| chunks := [token "应当支付"; token "经济补偿。"]; failure := None |}.

Definition agent_stalls : AgentInput -> AgentRun :=
  fun _ => {| chunks := [token "根据"]; failure := Some (TimeoutError "") |}.

Definition agent_overflows : AgentInput -> AgentRun :=
  fun _ => {| chunks := [];
              failure := Some (OtherError
                "This model's maximum context length is 8192 tokens.") |}.

(** A whole turn: the generator is run to its end, then the tasks it has
    scheduled are run in the order they were scheduled. *)
Definition settled_turn (question : string) (w : World) : World :=
  let t := chat_with_legal_agent llm_ok clock no_profile agent_answers account question w in
  fold_left (fun w task => run_task llm_ok clock today no_profile task w)
            (scheduled t) (world t).

(** The first four turns of a new account, all on one day. *)
Definition four_turns : World :=
  fold_left (fun w question => settled_turn question w)
            ["公司辞退我需要赔偿吗"; "补偿金怎么计算"; "试用期被辞退也有补偿吗";
             "没有签劳动合同怎么办"]
            empty_world.

(** The fifth turn, and the store once its exchange has been saved: the
    maintenance call of the turn comes next. *)
Definition fifth_turn : Turn :=
  chat_with_legal_agent llm_ok clock no_profile agent_answers account
    "仲裁的时效是多久" four_turns.

Definition fifth_turn_saved : World :=
  match scheduled fifth_turn with
  | save :: _ => run_task llm_ok clock today no_profile save (world fifth_turn)
  | [] => world fifth_turn
  end.

End Demo.

(** ** More concrete inputs *)

Module ExtraDemo.
Import LegalAgent.

(** An agent refused by the provider for its request rate, in capitals. *)
Definition agent_throttled : AgentInput -> AgentRun :=
  fun _ => {| chunks := [Demo.token "根据"];
              failure := Some (OtherError "Rate Limit reached, context length 8192") |}.

(** Replies of the model to the profile prompt that are valid JSON but not
    the object asked for: a list whose second element is no pair, and a list
    with a pair whose key is a number. *)
Definition reply_with_a_stray_element : string :=
  "[[" +:+ Py.dq +:+ "user_type" +:+ Py.dq +:+ ", " +:+ Py.dq +:+ "个人" +:+ Py.dq +:+ "], 5]".

Definition reply_with_a_number_key : string :=
  "[[1, " +:+ Py.dq +:+ "个人" +:+ Py.dq +:+ "]]".

(** A second account, with a first turn and a summary of its own, beside
    the account of [Demo.two_turns]. *)
Definition two_accounts : World :=
  snd (LegalService.generate_summary Demo.llm_ok "u2002"
         (LegalService.save_chat_messages Demo.clock "u2002"
            "房东不退押金怎么办" "可以先协商，协商不成可以向法院起诉。" Demo.two_turns)).

(** An agent that has sent a first sentence and the start of a second when
    the context window overflows. *)
Definition agent_overflows_midway : AgentInput -> AgentRun :=
  fun _ => {| chunks := [Demo.token "根据劳动合同法第四十七条，"; Demo.token "应当"];
              failure := Some (OtherError
                "This model's maximum context length is 8192 tokens.") |}.

(** A store in which the counter of the account stands at the largest
    integer [INCR] knows. *)
Definition counter_at_the_limit : World :=
  with_conv_count (Redis.set (LegalService.get_count_key Demo.account)
                             LegalService.int64_max)
                  Demo.two_turns.

Definition llm_says (reply : string) : nat -> string -> result string :=
  fun _ _ => Ok reply.

(** [json.loads] on these two replies. *)
Definition loads_replies : string -> option json :=
  fun text =>
    if String.eqb text reply_with_a_stray_element
    then Some (JArr [JArr [JStr "user_type"; JStr "个人"]; JInt 5])
    else if String.eqb text reply_with_a_number_key
    then Some (JArr [JArr [JInt 1; JStr "个人"]])
    else None.

End ExtraDemo.

(** * Facts *)

(** ** Strings *)

Module PyFacts.
Import Py.

Lemma py_len_app (a b : string) : py_len (a +:+ b) = (py_len a + py_len b)%nat.
Proof.
  induction a as [|c a IH]; simpl; [reflexivity|].
  destruct (is_continuation c); simpl; rewrite IH; reflexivity.
Qed.


Lemma append_cons (x : ascii) (a b : string) :
  String x a +:+ b = String x (a +:+ b).
Proof. reflexivity. Qed.

Lemma append_assoc (a b c : string) : (a +:+ b) +:+ c = a +:+ (b +:+ c).
Proof.
  induction a as [|x a IH]; [reflexivity|].
  rewrite !append_cons, IH. reflexivity.
Qed.

Lemma append_nil_r (a : string) : a +:+ "" = a.
Proof.
  induction a as [|x a IH]; [reflexivity|].
  rewrite append_cons, IH. reflexivity.
Qed.

Lemma join_cons (x : string) (l : list string) : join (x :: l) = x +:+ join l.
Proof. reflexivity. Qed.

Lemma join_app (l1 l2 : list string) : join (l1 ++ l2) = join l1 +:+ join l2.
Proof.
  induction l1 as [|x l1 IH]; [reflexivity|].
  change ((x :: l1) ++ l2) with (x :: (l1 ++ l2)).
  rewrite !join_cons, IH, append_assoc. reflexivity.
Qed.

End PyFacts.

(** ** The store *)

Module RedisFacts.
Import Redis.

Section KeySpace.
Context {A : Type}.
Implicit Types (m : gmap string (entry A)) (k : string) (now : Z).

Lemma get_set now m k v : get now (set k v m) k = Some v.
Proof. unfold get, set. rewrite lookup_insert_eq. reflexivity. Qed.

Lemma get_setex now m k s v : 0 < s -> get now (setex now k s v m) k = Some v.
Proof.
intros Hs. unfold get, setex. rewrite lookup_insert_eq. unfold live; simpl.
destruct (Z.ltb_spec now (now + s)); [reflexivity | lia].
Qed.

Lemma ttl_setex now m k s v : 0 < s -> ttl now (setex now k s v m) k = s.
Proof.
intros Hs. unfold ttl, setex. rewrite lookup_insert_eq. unfold live; simpl.
destruct (Z.ltb_spec now (now + s)); lia.
Qed.

Lemma get_del now m k : get now (del k m) k = None.
Proof. unfold get, del. rewrite lookup_delete_eq. reflexivity. Qed.

Lemma get_set_ne now m k k' v : k <> k' -> get now (set k v m) k' = get now m k'.
Proof. intros H. unfold get, set. rewrite lookup_insert_ne by exact H. reflexivity. Qed.

Lemma get_del_ne now m k k' : k <> k' -> get now (del k m) k' = get now m k'.
Proof. intros H. unfold get, del. rewrite lookup_delete_ne by exact H. reflexivity. Qed.

(** A key that reads as present and has a positive TTL. *)
Lemma ttl_pos_get now m k : 0 < ttl now m k -> is_Some (get now m k).
Proof.
unfold ttl, get. destruct (m !! k) as [e|]; [|lia].
destruct (live now e); [eauto | lia].
Qed.

End KeySpace.

End RedisFacts.

(** ** The service *)

Module ServiceFacts.
Import Py Redis LegalService RedisFacts Views.

(** The keys of the service: different prefixes never meet, and within a
    prefix different accounts have different keys. *)
Lemma key_spaces_disjoint (a b : string) :
  get_chat_key a <> get_summary_key b /\ get_chat_key a <> get_profile_key b
  /\ get_chat_key a <> get_hash_key b /\ get_chat_key a <> get_count_key b
  /\ get_summary_key a <> get_profile_key b /\ get_summary_key a <> get_hash_key b
  /\ get_summary_key a <> get_count_key b /\ get_profile_key a <> get_hash_key b
  /\ get_profile_key a <> get_count_key b /\ get_hash_key a <> get_count_key b.
Proof.
  unfold get_chat_key, get_summary_key, get_profile_key, get_hash_key, get_count_key.
  repeat split; intros H; inversion H.
Qed.

Lemma keys_injective (a b : string) :
  (get_chat_key a = get_chat_key b -> a = b)
  /\ (get_summary_key a = get_summary_key b -> a = b)
  /\ (get_hash_key a = get_hash_key b -> a = b)
  /\ (get_profile_key a = get_profile_key b -> a = b)
  /\ (get_count_key a = get_count_key b -> a = b).
Proof.
  unfold get_chat_key, get_summary_key, get_profile_key, get_hash_key, get_count_key.
  repeat split; intros H; inversion H as [E]; exact E.
Qed.

Lemma length_last_n {A : Type} (n : nat) (l : list A) :
  length (last_n n l) = Nat.min n (length l).
Proof. unfold last_n. rewrite length_skipn. lia. Qed.

Lemma last_n_suffix {A : Type} (n : nat) (l : list A) :
  firstn (length l - n) l ++ last_n n l = l.
Proof. unfold last_n. apply firstn_skipn. Qed.

Lemma last_n_all {A : Type} (n : nat) (l : list A) :
  (length l <= n)%nat -> last_n n l = l.
Proof.
  intros H. unfold last_n.
  replace (length l - n)%nat with 0%nat by lia. reflexivity.
Qed.

Lemma opt_eqb_true (x : option string) (s : string) :
  opt_eqb x s = true <-> x = Some s.
Proof.
  destruct x as [t|]; simpl; [|split; discriminate].
  rewrite String.eqb_eq. split; congruence.
Qed.

Lemma retained_length (messages : list Message) :
  length (retained messages) = Nat.min max_history_messages (length messages).
Proof.
  unfold retained. destruct (Nat.ltb_spec max_history_messages (length messages)).
  - rewrite length_last_n. reflexivity.
  - lia.
Qed.

Lemma retained_suffix (messages : list Message) :
  firstn (length messages - max_history_messages) messages ++ retained messages
  = messages.
Proof.
  unfold retained. destruct (Nat.ltb_spec max_history_messages (length messages)).
  - apply last_n_suffix.
  - replace (length messages - max_history_messages)%nat with 0%nat by lia.
    reflexivity.
Qed.

Lemma get_chat_history_save (a : string) (messages : list Message) (w : World) :
  get_chat_history a (save_chat_history a messages w) = retained messages.
Proof.
  unfold get_chat_history, save_chat_history; simpl.
  rewrite get_set. reflexivity.
Qed.

Section Environment.
Variable llm : nat -> string -> result string.
Variable now_isoformat : nat -> string.
Variable now_yyyymmdd : nat -> string.
Variable json_loads : string -> option json.

Lemma get_chat_history_add (a r c : string) (md : option dict) (w : World) :
  get_chat_history a (add_message now_isoformat a r c md w)
  = retained (get_chat_history a w ++ [new_message now_isoformat r c md w]).
Proof.
  unfold add_message, datetime_now_isoformat.
  rewrite get_chat_history_save. reflexivity.
Qed.

(** [add_message] touches the history key space and the clock only. *)
Lemma add_message_frame (a r c : string) (md : option dict) (w : World) :
  let w' := add_message now_isoformat a r c md w in
  chat_summary w' = chat_summary w /\ summary_hash w' = summary_hash w /\
  user_profile w' = user_profile w /\ conv_count w' = conv_count w /\
  conv_metadata w' = conv_metadata w /\ redis_time w' = redis_time w /\
  llm_calls w' = llm_calls w.
Proof. repeat split. Qed.

(** [clear_chat_history] touches the history and summary key spaces only. *)
Lemma clear_chat_history_frame (a : string) (w : World) :
  let w' := clear_chat_history a w in
  summary_hash w' = summary_hash w /\ user_profile w' = user_profile w /\
  conv_count w' = conv_count w /\ conv_metadata w' = conv_metadata w /\
  redis_time w' = redis_time w /\ llm_calls w' = llm_calls w /\
  clock_reads w' = clock_reads w.
Proof. repeat split. Qed.

Lemma get_chat_history_clear (a : string) (w : World) :
  get_chat_history a (clear_chat_history a w) = [].
Proof.
  unfold get_chat_history, clear_chat_history; simpl.
  rewrite get_del. reflexivity.
Qed.

(** [generate_summary] leaves the history, the profiles, the counters, the
    metadata log and both clocks alone. *)
Lemma generate_summary_frame (a : string) (w : World) :
  let w' := snd (generate_summary llm a w) in
  chat_history w' = chat_history w /\ user_profile w' = user_profile w /\
  conv_count w' = conv_count w /\ conv_metadata w' = conv_metadata w /\
  redis_time w' = redis_time w /\ clock_reads w' = clock_reads w.
Proof.
  unfold generate_summary.
  destruct (opt_truthy _ && _); [repeat split|].
  destruct (get_chat_history a w); [repeat split|].
  destruct (opt_eqb _ _); [repeat split|].
  unfold ainvoke. destruct (llm _ _); repeat split.
Qed.

(** [get_user_profile] writes the profile key space only; it may read the
    clock and call the model. *)
Lemma get_user_profile_frame (a : string) (w : World) :
  let w' := snd (get_user_profile llm now_isoformat json_loads a w) in
  chat_history w' = chat_history w /\ chat_summary w' = chat_summary w /\
  summary_hash w' = summary_hash w /\ conv_count w' = conv_count w /\
  conv_metadata w' = conv_metadata w /\ redis_time w' = redis_time w.
Proof.
  unfold get_user_profile.
  destruct (Redis.get _ _ _); [repeat split|].
  unfold datetime_now_isoformat.
  destruct (get_chat_history a (tick w)); [repeat split|].
  unfold ainvoke. destruct (llm _ _) as [reply|e]; [|repeat split].
  destruct (json_loads reply); repeat split.
Qed.

Lemma get_chat_history_frame (a : string) (w w' : World) :
  chat_history w' = chat_history w -> redis_time w' = redis_time w ->
  get_chat_history a w' = get_chat_history a w.
Proof. intros H1 H2. unfold get_chat_history. rewrite H1, H2. reflexivity. Qed.

End Environment.

End ServiceFacts.

(** ** The summary engine *)

Module SummaryFacts.
Import Py Redis LegalService RedisFacts ServiceFacts Views.

Section Environment.
Variable llm : nat -> string -> result string.

Lemma generate_summary_hit (a : string) (w : World) :
  fresh_cache a w = true ->
  generate_summary llm a w = (or_empty (cached_summary a w), w).
Proof.
  unfold fresh_cache, cached_summary, generate_summary. intros ->. reflexivity.
Qed.

Lemma generate_summary_no_history (a : string) (w : World) :
  fresh_cache a w = false -> get_chat_history a w = [] ->
  generate_summary llm a w = ("", w).
Proof.
  unfold fresh_cache, cached_summary, generate_summary. intros -> ->. reflexivity.
Qed.

Lemma generate_summary_same_hash (a : string) (w : World) :
  fresh_cache a w = false -> get_chat_history a w <> [] ->
  stored_hash a w = Some (current_hash a w) ->
  generate_summary llm a w = (or_empty (cached_summary a w), w).
Proof.
  unfold fresh_cache, cached_summary, stored_hash, current_hash, generate_summary.
  intros -> Hne Hhash.
  destruct (get_chat_history a w) as [|m h] eqn:Hh; [congruence|].
  apply opt_eqb_true in Hhash. rewrite Hhash. reflexivity.
Qed.

Lemma generate_summary_invokes (a : string) (w : World) :
  fresh_cache a w = false -> get_chat_history a w <> [] ->
  stored_hash a w <> Some (current_hash a w) ->
  generate_summary llm a w =
    match llm (length (llm_calls w)) (summary_prompt (get_chat_history a w)) with
    | Ok s => (s, cache_summary a s w)
    | Raise _ =>
        ("", with_llm_calls (fun l => l ++ [summary_prompt (get_chat_history a w)]) w)
    end.
Proof.
  unfold fresh_cache, cached_summary, stored_hash, current_hash, cache_summary,
    generate_summary.
  intros -> Hne Hhash.
  destruct (get_chat_history a w) as [|m h] eqn:Hh; [congruence|].
  destruct (opt_eqb _ _) eqn:He.
  - apply opt_eqb_true in He. congruence.
  - unfold ainvoke. unfold current_hash, get_chat_history in *.
    destruct (llm _ _); simpl; rewrite ?Hh; reflexivity.
Qed.

Lemma app_one_neq {A : Type} (l : list A) (x : A) : l ++ [x] <> l.
Proof.
  intros H. apply (f_equal (@length A)) in H.
  rewrite length_app in H. simpl in H. lia.
Qed.

(** The reads of [generate_summary] on the store a successful generation
    leaves. *)
Lemma cache_summary_reads (a s : string) (w : World) :
  cached_summary a (cache_summary a s w) = Some s /\
  Redis.ttl (redis_time w) (chat_summary (cache_summary a s w)) (get_summary_key a)
    = summary_ttl /\
  stored_hash a (cache_summary a s w) = Some (current_hash a w) /\
  get_chat_history a (cache_summary a s w) = get_chat_history a w /\
  current_hash a (cache_summary a s w) = current_hash a w.
Proof.
  unfold cached_summary, stored_hash, current_hash, cache_summary, get_chat_history;
    simpl.
  rewrite !get_setex, ttl_setex by (unfold summary_ttl; lia).
  repeat split.
Qed.

End Environment.

End SummaryFacts.

(** * The claimed properties *)

(** ** ConversationStore and ContextAssembler *)

Module StoreProperties.
Import Py Redis LegalService RedisFacts ServiceFacts SummaryFacts Views.

Section Environment.
Variable llm : nat -> string -> result string.
Variable now_isoformat : nat -> string.
Variable json_loads : string -> option json.

(** C5. After any append, whatever appends came before it, the history read
    back holds at most [max_history_messages] = 10 messages: it is the old
    history followed by the new message, with the oldest messages dropped
    on overflow and the order of the others kept. *)
Theorem history_bounded_after_append
    (a r c : string) (md : option dict) (ops : list (string * string * option dict))
    (w : World) :
  let before := appends now_isoformat a ops w in
  let old := get_chat_history a before in
  let appended := old ++ [new_message now_isoformat r c md before] in
  let stored := get_chat_history a (add_message now_isoformat a r c md before) in
  (length stored <= 10)%nat
  /\ length stored = Nat.min max_history_messages (S (length old))
  /\ firstn (length appended - max_history_messages) appended ++ stored = appended.
Proof.
  intros before old appended stored.
  assert (Hs : stored = retained appended)
    by (subst stored appended old; apply get_chat_history_add).
  rewrite Hs. repeat split.
  - rewrite retained_length. unfold max_history_messages. lia.
  - rewrite retained_length. subst appended. rewrite length_app.
    replace (length old + length [new_message now_isoformat r c md before])%nat
      with (S (length old)) by (simpl; lia).
    reflexivity.
  - apply retained_suffix.
Qed.

(** C4. With the hybrid strategy the context holds the last three messages
    and the generated summary when the stored history has more than three
    messages, and the whole history with an empty summary otherwise. *)
Theorem hybrid_context (a : string) (max_tokens : Z) (w : World) :
  let h := get_chat_history a w in
  let ctx := fst (get_conversation_context llm now_isoformat json_loads
                    a "hybrid" max_tokens w) in
  ((3 < length h)%nat ->
     ctx_history ctx = last_n 3 h /\ length (ctx_history ctx) = 3%nat /\
     ctx_summary ctx = fst (generate_summary llm a w))
  /\ ((length h <= 3)%nat -> ctx_history ctx = h /\ ctx_summary ctx = "")
  /\ (length h = 2%nat -> ctx_history ctx = h /\ ctx_summary ctx = "")
  /\ (length h = 5%nat ->
        ctx_history ctx = skipn 2 h /\ ctx_summary ctx = fst (generate_summary llm a w)).
Proof.
  intros h ctx.
  assert (Hctx :
    ctx_history ctx = (if (3 <? length h)%nat then last_n 3 h else h) /\
    ctx_summary ctx = (if (3 <? length h)%nat then fst (generate_summary llm a w) else "")).
  { subst ctx h. unfold get_conversation_context.
    destruct (generate_summary llm a w) as [s w1]. simpl.
    destruct (3 <? length (get_chat_history a w))%nat;
      destruct (get_user_profile llm now_isoformat json_loads a w1); simpl; auto. }
  destruct Hctx as [Hh Hs]. rewrite Hh, Hs.
  repeat split.
  - apply Nat.ltb_lt in H. rewrite H. reflexivity.
  - rewrite (proj2 (Nat.ltb_lt _ _) H), length_last_n. lia.
  - apply Nat.ltb_lt in H. rewrite H. reflexivity.
  - apply Nat.ltb_ge in H. rewrite H. reflexivity.
  - apply Nat.ltb_ge in H. rewrite H. reflexivity.
  - rewrite H. reflexivity.
  - rewrite H. reflexivity.
  - rewrite H. simpl. unfold last_n. rewrite H. reflexivity.
  - rewrite H. reflexivity.
Qed.

(** [get_user_profile] only ever adds to the log of model calls. *)
Lemma get_user_profile_calls (a : string) (w : World) :
  exists later,
    llm_calls (snd (get_user_profile llm now_isoformat json_loads a w))
    = llm_calls w ++ later.
Proof.
  unfold get_user_profile.
  destruct (Redis.get _ _ _); [exists []; simpl; now rewrite app_nil_r|].
  unfold datetime_now_isoformat.
  destruct (get_chat_history a (tick w)); [exists []; simpl; now rewrite app_nil_r|].
  unfold ainvoke. exists [profile_prompt (m :: l)].
  destruct (llm _ _) as [reply|e]; [destruct (json_loads reply)|]; reflexivity.
Qed.

(** C10. Whatever the strategy, the store and the log of model calls left by
    context assembly are those left by [generate_summary] followed by
    [get_user_profile]: the summary is generated before the strategy is
    looked at.  The full and window strategies return an empty summary
    field, and yet, when the account has a history, no fresh cached summary
    and no matching hash, assembling the context calls the model and writes
    the summary and content-hash keys. *)
Theorem context_assembly_generates_summary
    (a strategy : string) (max_tokens : Z) (w : World) :
  let r := get_conversation_context llm now_isoformat json_loads
             a strategy max_tokens w in
  snd r = snd (get_user_profile llm now_isoformat json_loads a
                 (snd (generate_summary llm a w)))
  /\ (strategy = "full" \/ strategy = "window" -> ctx_summary (fst r) = "")
  /\ (forall s : string,
        fresh_cache a w = false ->
        get_chat_history a w <> [] ->
        stored_hash a w <> Some (current_hash a w) ->
        llm (length (llm_calls w)) (summary_prompt (get_chat_history a w)) = Ok s ->
        (exists later,
            llm_calls (snd r)
            = llm_calls w ++ summary_prompt (get_chat_history a w) :: later)
        /\ cached_summary a (snd r) = Some s
        /\ stored_hash a (snd r) = Some (current_hash a w)).
Proof.
  intros r.
  assert (Hsnd : snd r = snd (get_user_profile llm now_isoformat json_loads a
                                (snd (generate_summary llm a w)))).
  { subst r. unfold get_conversation_context.
    destruct (generate_summary llm a w) as [s w1]. simpl.
    repeat match goal with |- context [if ?b then _ else _] => destruct b end;
      destruct (get_user_profile llm now_isoformat json_loads a w1); reflexivity. }
  split; [exact Hsnd|]. split.
  - intros Hstrat. subst r. unfold get_conversation_context.
    destruct (generate_summary llm a w) as [s w1].
    destruct Hstrat as [-> | ->]; simpl;
      destruct (get_user_profile llm now_isoformat json_loads a w1); reflexivity.
  - intros s Hfresh Hne Hhash Hllm. rewrite Hsnd.
    rewrite (generate_summary_invokes llm a w Hfresh Hne Hhash), Hllm. simpl.
    destruct (get_user_profile_frame llm now_isoformat json_loads a (cache_summary a s w))
      as (_ & Hsum & Hh & _ & _ & Ht).
    destruct (cache_summary_reads a s w) as (Hc & _ & Hs & _ & _).
    split; [|split].
    + destruct (get_user_profile_calls a (cache_summary a s w)) as [later Hl].
      exists later. rewrite Hl. simpl. rewrite <- app_assoc. reflexivity.
    + unfold cached_summary in *. rewrite Hsum, Ht. exact Hc.
    + unfold stored_hash in *. rewrite Hh, Ht. exact Hs.
Qed.

End Environment.

(** The hybrid strategy on a history of two messages and on one of five. *)
Lemma hybrid_context_witness :
  (ctx_history (fst (get_conversation_context Demo.llm_ok Demo.clock Demo.no_profile
                       Demo.account "hybrid" 1000 Demo.one_turn))
   = get_chat_history Demo.account Demo.one_turn
   /\ ctx_summary (fst (get_conversation_context Demo.llm_ok Demo.clock Demo.no_profile
                          Demo.account "hybrid" 1000 Demo.one_turn)) = "")
  /\ (ctx_history (fst (get_conversation_context Demo.llm_ok Demo.clock Demo.no_profile
                          Demo.account "hybrid" 1000 Demo.five_messages))
      = skipn 2 (get_chat_history Demo.account Demo.five_messages)
      /\ ctx_summary (fst (get_conversation_context Demo.llm_ok Demo.clock Demo.no_profile
                             Demo.account "hybrid" 1000 Demo.five_messages))
         = fst (generate_summary Demo.llm_ok Demo.account Demo.five_messages)).
Proof.
  split.
  - apply (hybrid_context Demo.llm_ok Demo.clock Demo.no_profile Demo.account 1000
             Demo.one_turn).
    vm_compute. reflexivity.
  - apply (hybrid_context Demo.llm_ok Demo.clock Demo.no_profile Demo.account 1000
             Demo.five_messages).
    vm_compute. reflexivity.
Defined.

(** Assembling a full context after the first turn calls the model and
    fills both keys, although the context carries no summary. *)
Lemma context_assembly_generates_summary_witness :
  ctx_summary (fst (get_conversation_context Demo.llm_ok Demo.clock Demo.no_profile
                      Demo.account "full" 1000 Demo.one_turn)) = ""
  /\ (exists later,
        llm_calls (snd (get_conversation_context Demo.llm_ok Demo.clock Demo.no_profile
                          Demo.account "full" 1000 Demo.one_turn))
        = llm_calls Demo.one_turn
          ++ summary_prompt (get_chat_history Demo.account Demo.one_turn) :: later)
  /\ cached_summary Demo.account
        (snd (get_conversation_context Demo.llm_ok Demo.clock Demo.no_profile
                Demo.account "full" 1000 Demo.one_turn))
      = Some "用户咨询了劳动合同解除后的经济补偿问题。"
  /\ stored_hash Demo.account
        (snd (get_conversation_context Demo.llm_ok Demo.clock Demo.no_profile
                Demo.account "full" 1000 Demo.one_turn))
      = Some (current_hash Demo.account Demo.one_turn).
Proof.
  destruct (context_assembly_generates_summary Demo.llm_ok Demo.clock Demo.no_profile
              Demo.account "full" 1000 Demo.one_turn) as (_ & Hfull & Hgen).
  split; [apply Hfull; left; reflexivity|].
  apply Hgen.
  - vm_compute. reflexivity.
  - vm_compute. discriminate.
  - vm_compute. discriminate.
  - reflexivity.
Defined.

End StoreProperties.

(** ** SummaryEngine *)

Module SummaryProperties.
Import Py Redis LegalService RedisFacts ServiceFacts SummaryFacts Views.

Section Environment.
Variable llm : nat -> string -> result string.
Variable now_isoformat : nat -> string.

Lemma stored_hash_dec (a : string) (w : World) :
  stored_hash a w = Some (current_hash a w) \/ stored_hash a w <> Some (current_hash a w).
Proof.
  destruct (opt_eqb (stored_hash a w) (current_hash a w)) eqn:E.
  - left. apply opt_eqb_true. exact E.
  - right. intros H. apply opt_eqb_true in H. congruence.
Qed.

(** C2, as the code has it. A non-empty cached summary with a positive time
    to live is returned at once, without a model call and without looking at
    the content hash.  The hash is compared only when there is no such
    summary: the model is then left alone exactly when the history is empty
    or the stored hash is the hash of the current history. *)
Theorem summary_cache_policy (a : string) (w : World) :
  (fresh_cache a w = true ->
     generate_summary llm a w = (or_empty (cached_summary a w), w))
  /\ (fresh_cache a w = false ->
        (llm_calls (snd (generate_summary llm a w)) = llm_calls w
         <-> get_chat_history a w = [] \/ stored_hash a w = Some (current_hash a w))).
Proof.
  split; [apply generate_summary_hit|].
  intros Hfresh.
  destruct (get_chat_history a w) as [|m h] eqn:Hh.
  - rewrite (generate_summary_no_history llm a w Hfresh Hh). simpl. tauto.
  - assert (Hne : get_chat_history a w <> []) by (rewrite Hh; discriminate).
    destruct (stored_hash_dec a w) as [Heq | Hneq].
    + rewrite (generate_summary_same_hash llm a w Hfresh Hne Heq). simpl. tauto.
    + rewrite (generate_summary_invokes llm a w Hfresh Hne Hneq).
      split.
      * intros Hcalls. exfalso.
        destruct (llm _ _); simpl in Hcalls; exact (app_one_neq _ _ Hcalls).
      * intros [Hnil | Heq]; [discriminate | contradiction].
Qed.


(** C9. Clearing an account removes its history and its summary and leaves
    the content-hash key as it was.  When messages are then appended so that
    the history is again the one the hash was taken from, the summary engine
    finds the stored hash equal to the current one with no cached summary:
    it returns the empty text, calls no model and leaves the store, still
    without a summary, unchanged. *)
Theorem stale_hash_after_clear
    (a : string) (ops : list (string * string * option dict)) (w : World) :
  get_chat_history a w <> [] ->
  stored_hash a w = Some (current_hash a w) ->
  let cleared := clear_chat_history a w in
  let refilled := appends now_isoformat a ops cleared in
  get_chat_history a refilled = get_chat_history a w ->
  (get_chat_history a cleared = [] /\ cached_summary a cleared = None
   /\ stored_hash a cleared = stored_hash a w)
  /\ generate_summary llm a refilled = ("", refilled)
  /\ cached_summary a refilled = None.
Proof.
  intros Hne Hhash cleared refilled Hsame.
  assert (Hframe : forall ops' w',
    chat_summary (appends now_isoformat a ops' w') = chat_summary w' /\
    summary_hash (appends now_isoformat a ops' w') = summary_hash w' /\
    redis_time (appends now_isoformat a ops' w') = redis_time w').
  { induction ops' as [|op ops' IH]; intros w'; [repeat split|].
    unfold appends in *. simpl.
    destruct (IH (add_message now_isoformat a (fst (fst op)) (snd (fst op)) (snd op) w'))
      as (H1 & H2 & H3).
    rewrite H1, H2, H3. repeat split. }
  destruct (Hframe ops cleared) as (Hsum & Hh & Ht).
  assert (Hcleared : cached_summary a cleared = None).
  { unfold cached_summary, cleared, clear_chat_history. simpl. apply get_del. }
  assert (Hnone : cached_summary a refilled = None).
  { unfold cached_summary, refilled. rewrite Hsum, Ht. exact Hcleared. }
  assert (Hstored : stored_hash a refilled = Some (current_hash a refilled)).
  { unfold current_hash. rewrite Hsame. fold (current_hash a w). rewrite <- Hhash.
    unfold stored_hash, refilled. rewrite Hh, Ht. reflexivity. }
  split; [|split].
  - split; [apply get_chat_history_clear|]. split; [exact Hcleared | reflexivity].
  - rewrite generate_summary_same_hash.
    + rewrite Hnone. reflexivity.
    + unfold fresh_cache. rewrite Hnone. reflexivity.
    + rewrite Hsame. exact Hne.
    + exact Hstored.
  - exact Hnone.
Qed.

(** [INCR] on a counter inside the 64-bit range returns the old value plus
    one and stores it. *)
Lemma incr_value (now : Z) (k : string) (m : gmap string (Redis.entry Z)) :
  let v := match Redis.get now m k with Some n => n | None => 0 end in
  int64_min <= v < int64_max ->
  fst (incr now k m) = Ok (v + 1)
  /\ Redis.get now (snd (incr now k m)) k = Some (v + 1).
Proof.
  unfold incr, Redis.get, int64_min, int64_max.
  destruct (m !! k) as [e|] eqn:E.
  - destruct (Redis.live now e) eqn:L; cbv zeta.
    + intros [Hlo Hhi].
      destruct (Z.ltb_spec (Redis.value e) (-9223372036854775808)); [lia|].
      destruct (Z.ltb_spec 9223372036854775807 (Redis.value e)); [lia|].
      destruct (Z.eqb_spec (Redis.value e) 9223372036854775807); [lia|].
      simpl. rewrite lookup_insert_eq. unfold Redis.live in *. simpl. rewrite L.
      split; reflexivity.
    + intros _. simpl. rewrite lookup_insert_eq. split; reflexivity.
  - intros _. simpl. rewrite lookup_insert_eq. split; reflexivity.
Qed.

(** Outside that range, or at its upper end, [INCR] fails and changes
    nothing. *)
Lemma incr_fails (now : Z) (k : string) (m : gmap string (Redis.entry Z)) :
  let v := match Redis.get now m k with Some n => n | None => 0 end in
  v < int64_min \/ int64_max <= v ->
  exists e, incr now k m = (Raise e, m).
Proof.
  unfold incr, Redis.get, int64_min, int64_max.
  destruct (m !! k) as [e|] eqn:E.
  - destruct (Redis.live now e) eqn:L; cbv zeta.
    + intros H.
      destruct (Z.ltb_spec (Redis.value e) (-9223372036854775808)); [eexists; reflexivity|].
      destruct (Z.ltb_spec 9223372036854775807 (Redis.value e)); [eexists; reflexivity|].
      destruct (Z.eqb_spec (Redis.value e) 9223372036854775807); [eexists; reflexivity|].
      lia.
    + lia.
  - lia.
Qed.

Lemma counter_bump (a : string) (w : World) :
  int64_min <= counter a w < int64_max ->
  counter a (bump a w) = counter a w + 1.
Proof.
  intros Hr. unfold counter, bump in *. simpl.
  destruct (incr_value (redis_time w) (get_count_key a) (conv_count w) Hr) as [H1 H2].
  rewrite H2. reflexivity.
Qed.

(** [generate_summary] neither reads nor writes the counters. *)
Lemma generate_summary_counters
    (a : string) (f : gmap string (Redis.entry Z) -> gmap string (Redis.entry Z))
    (w : World) :
  generate_summary llm a (with_conv_count f w)
  = (fst (generate_summary llm a w), with_conv_count f (snd (generate_summary llm a w))).
Proof.
  unfold generate_summary. simpl.
  destruct (opt_truthy _ && _); [reflexivity|].
  change (get_chat_history a (with_conv_count f w)) with (get_chat_history a w).
  destruct (get_chat_history a w); [reflexivity|].
  destruct (opt_eqb _ _); [reflexivity|].
  unfold ainvoke. simpl. destruct (llm _ _); reflexivity.
Qed.

(** One maintenance call on a counter that can be incremented, by the value
    the counter takes. *)
Lemma update_conversation_summary_cases (a : string) (force : bool) (w : World) :
  int64_min <= counter a w < int64_max ->
  let c := counter a w + 1 in
  update_conversation_summary llm a force w =
    if force || (c mod 5 =? 0)
    then (fst (generate_summary llm a w),
          let w2 := with_conv_count
                      (fun m => snd (incr (redis_time w) (get_count_key a) m))
                      (snd (generate_summary llm a w)) in
          if 100 <=? c then with_conv_count (Redis.set (get_count_key a) 0) w2 else w2)
    else (or_empty (cached_summary a w), bump a w).
Proof.
  intros Hr c. unfold update_conversation_summary.
  destruct (incr_value (redis_time w) (get_count_key a) (conv_count w) Hr) as [H1 _].
  rewrite H1. fold (counter a w). fold c. unfold summary_update_threshold.
  destruct (force || (c mod 5 =? 0)); [|reflexivity].
  rewrite generate_summary_counters. reflexivity.
Qed.

(** One maintenance call on a counter that cannot be incremented: the
    [except] clause answers with the empty text and nothing has changed. *)
Lemma update_conversation_summary_fails (a : string) (force : bool) (w : World) :
  counter a w < int64_min \/ int64_max <= counter a w ->
  update_conversation_summary llm a force w = ("", w).
Proof.
  intros Hr. unfold update_conversation_summary.
  destruct (incr_fails (redis_time w) (get_count_key a) (conv_count w) Hr) as [e He].
  rewrite He. reflexivity.
Qed.

Lemma counter_after_call (a : string) (force : bool) (w : World) :
  int64_min <= counter a w < int64_max ->
  counter a (snd (update_conversation_summary llm a force w))
  = if (force || ((counter a w + 1) mod 5 =? 0)) && (100 <=? counter a w + 1)
    then 0 else counter a w + 1.
Proof.
  intros Hr. rewrite (update_conversation_summary_cases a force w Hr). cbv zeta.
  destruct (force || ((counter a w + 1) mod 5 =? 0)) eqn:E5; simpl andb.
  - destruct (generate_summary_frame llm a w) as (_ & _ & Hcount & _ & Htime & _).
    simpl snd.
    destruct (100 <=? counter a w + 1).
    + unfold counter. simpl. rewrite get_set. reflexivity.
    + unfold counter at 1. simpl. rewrite Hcount, Htime.
      destruct (incr_value (redis_time w) (get_count_key a) (conv_count w) Hr) as [H1 H2].
      rewrite H2. reflexivity.
  - simpl snd. apply counter_bump. exact Hr.
Qed.

Lemma counter_after_maintenance (a : string) (n : nat) (w : World) :
  counter a w = 0 ->
  counter a (maintenance llm a n w) = Z.of_nat n mod 100.
Proof.
  intros H0. induction n as [|n IH]; [simpl; rewrite H0; reflexivity|].
  unfold maintenance in *. simpl Nat.iter.
  pose proof (Z.mod_pos_bound (Z.of_nat n) 100 ltac:(lia)) as Hb.
  rewrite counter_after_call by (rewrite IH; unfold int64_min, int64_max; lia).
  rewrite IH. simpl orb.
  rewrite Nat2Z.inj_succ. unfold Z.succ.
  rewrite <- (Zplus_mod_idemp_l (Z.of_nat n) 1 100).
  destruct (Z.eq_dec (Z.of_nat n mod 100 + 1) 100) as [E | E].
  - rewrite E. reflexivity.
  - destruct (Z.leb_spec 100 (Z.of_nat n mod 100 + 1)) as [Hge | Hlt]; [lia|].
    rewrite andb_false_r.
    rewrite (Z.mod_small (Z.of_nat n mod 100 + 1) 100) by lia. reflexivity.
Qed.

(** The cadence of the maintenance calls: without forcing, a call on a
    counter that can be incremented enters the summary engine exactly when
    the value the counter takes is a multiple of 5; otherwise it makes no
    model call, leaves the summary and hash keys alone and returns the
    cached summary, or the empty text when there is none.  Counted from a
    counter at zero, the calls that enter the summary engine are the 5th,
    the 10th, the 15th and so on. *)
Lemma maintenance_cadence (a : string) (w : World) :
  int64_min <= counter a w < int64_max ->
  let c := counter a w + 1 in
  let r := update_conversation_summary llm a false w in
  (c mod 5 = 0 ->
     fst r = fst (generate_summary llm a w)
     /\ llm_calls (snd r) = llm_calls (snd (generate_summary llm a w))
     /\ chat_summary (snd r) = chat_summary (snd (generate_summary llm a w))
     /\ summary_hash (snd r) = summary_hash (snd (generate_summary llm a w)))
  /\ (c mod 5 <> 0 ->
        fst r = or_empty (cached_summary a w)
        /\ llm_calls (snd r) = llm_calls w
        /\ chat_summary (snd r) = chat_summary w
        /\ summary_hash (snd r) = summary_hash w)
  /\ (forall n : nat,
        counter a w = 0 ->
        (counter a (maintenance llm a n w) + 1) mod 5 = Z.of_nat (S n) mod 5).
Proof.
  intros Hr c r. split; [|split].
  - intros Ht. subst r. rewrite (update_conversation_summary_cases a false w Hr). cbv zeta.
    fold c. rewrite Ht. simpl. destruct (100 <=? c); repeat split.
  - intros Ht. subst r. rewrite (update_conversation_summary_cases a false w Hr). cbv zeta.
    fold c. apply Z.eqb_neq in Ht. rewrite Ht. repeat split.
  - intros n H0. rewrite (counter_after_maintenance a n w H0).
    rewrite Nat2Z.inj_succ. unfold Z.succ.
    pose proof (Z.div_mod (Z.of_nat n) 100 ltac:(lia)) as Hd.
    rewrite Hd at 2.
    replace (100 * (Z.of_nat n / 100) + Z.of_nat n mod 100 + 1)
      with (Z.of_nat n mod 100 + 1 + (20 * (Z.of_nat n / 100)) * 5) by lia.
    rewrite Z_mod_plus_full. reflexivity.
Qed.

(** C3. The claim fails on the code where the docstring and the comment of
    [update_conversation_summary] promise what the claim says, an update of
    the summary on every fifth turn.  On a turn whose counter value is a
    multiple of 5 the call does enter [generate_summary], but a cached
    summary that has not expired is returned as it is, whatever has been
    said since it was cached: no model is called, and the summary and the
    hash stay those of the older history. *)
Theorem due_update_serves_cached_summary (a : string) (w : World) :
  int64_min <= counter a w < int64_max ->
  (counter a w + 1) mod summary_update_threshold = 0 ->
  fresh_cache a w = true ->
  let r := update_conversation_summary llm a false w in
  fst r = or_empty (cached_summary a w)
  /\ llm_calls (snd r) = llm_calls w
  /\ cached_summary a (snd r) = cached_summary a w
  /\ stored_hash a (snd r) = stored_hash a w
  /\ get_chat_history a (snd r) = get_chat_history a w.
Proof.
  intros Hr H5 Hfresh r. subst r.
  rewrite (update_conversation_summary_cases a false w Hr). cbv zeta.
  unfold summary_update_threshold in H5. rewrite H5. simpl orb. cbv iota.
  rewrite (generate_summary_hit llm a w Hfresh). simpl fst. simpl snd.
  destruct (100 <=? counter a w + 1); repeat split.
Qed.

End Environment.

(** A second turn was persisted after the summary was cached: the cached
    text is still returned. *)
Lemma summary_cache_policy_witness :
  generate_summary Demo.llm_ok Demo.account Demo.two_turns
  = (or_empty (cached_summary Demo.account Demo.two_turns), Demo.two_turns).
Proof.
  apply (summary_cache_policy Demo.llm_ok Demo.account Demo.two_turns).
  vm_compute. reflexivity.
Defined.

(** C2 refuted as stated: the history has changed since the summary was
    cached and the stored hash is no longer the hash of the history, yet the
    cached text comes back and the model is not called. *)
Lemma stale_summary_is_a_cache_hit :
  length (get_chat_history Demo.account Demo.summarised) = 2%nat
  /\ length (get_chat_history Demo.account Demo.two_turns) = 4%nat
  /\ cached_summary Demo.account Demo.two_turns
     = Some (fst (generate_summary Demo.llm_ok Demo.account Demo.one_turn))
  /\ opt_eqb (stored_hash Demo.account Demo.two_turns)
             (current_hash Demo.account Demo.two_turns) = false
  /\ fst (generate_summary Demo.llm_ok Demo.account Demo.two_turns)
     = "用户咨询了劳动合同解除后的经济补偿问题。"
  /\ llm_calls (snd (generate_summary Demo.llm_ok Demo.account Demo.two_turns))
     = llm_calls Demo.two_turns.
Proof. vm_compute. repeat split. Qed.



(** The account is cleared and the same two messages come back with the
    same timestamps: no summary, no model call. *)
Lemma stale_hash_after_clear_witness :
  (get_chat_history Demo.account
     (clear_chat_history Demo.account Demo.frozen_summarised) = []
   /\ cached_summary Demo.account
        (clear_chat_history Demo.account Demo.frozen_summarised) = None
   /\ stored_hash Demo.account (clear_chat_history Demo.account Demo.frozen_summarised)
      = stored_hash Demo.account Demo.frozen_summarised)
  /\ generate_summary Demo.llm_ok Demo.account
       (appends Demo.frozen_clock Demo.account
          [("user", "公司辞退我需要赔偿吗", None);
           ("assistant", "根据劳动合同法第四十七条，应当支付经济补偿。", None)]
          (clear_chat_history Demo.account Demo.frozen_summarised))
     = ("",
        appends Demo.frozen_clock Demo.account
          [("user", "公司辞退我需要赔偿吗", None);
           ("assistant", "根据劳动合同法第四十七条，应当支付经济补偿。", None)]
          (clear_chat_history Demo.account Demo.frozen_summarised))
  /\ cached_summary Demo.account
       (appends Demo.frozen_clock Demo.account
          [("user", "公司辞退我需要赔偿吗", None);
           ("assistant", "根据劳动合同法第四十七条，应当支付经济补偿。", None)]
          (clear_chat_history Demo.account Demo.frozen_summarised))
     = None.
Proof.
  apply (stale_hash_after_clear Demo.llm_ok Demo.frozen_clock Demo.account
           [("user", "公司辞退我需要赔偿吗", None);
            ("assistant", "根据劳动合同法第四十七条，应当支付经济补偿。", None)]
           Demo.frozen_summarised).
  - vm_compute. discriminate.
  - vm_compute. reflexivity.
  - vm_compute. reflexivity.
Defined.

(** The fifth turn of a new account.  The summary was cached on the second
    turn, from the two messages of the first; eight messages later the
    maintenance call takes the counter to 5 and hands that summary back
    without calling the model. *)
Lemma due_update_serves_cached_summary_witness :
  (nth_error (LegalAgent.scheduled Demo.fifth_turn) 1
   = Some (LegalAgent.UpdateConversationSummary Demo.account)
   /\ counter Demo.account Demo.fifth_turn_saved = 4
   /\ length (get_chat_history Demo.account Demo.fifth_turn_saved) = 10%nat
   /\ stored_hash Demo.account Demo.fifth_turn_saved
      = Some (current_hash Demo.account
                (Demo.settled_turn "公司辞退我需要赔偿吗" empty_world))
   /\ opt_eqb (stored_hash Demo.account Demo.fifth_turn_saved)
              (current_hash Demo.account Demo.fifth_turn_saved) = false
   /\ cached_summary Demo.account Demo.fifth_turn_saved
      = Some "用户咨询了劳动合同解除后的经济补偿问题。"
   /\ length (llm_calls Demo.fifth_turn_saved) = 1%nat)
  /\ fst (update_conversation_summary Demo.llm_ok Demo.account false Demo.fifth_turn_saved)
     = or_empty (cached_summary Demo.account Demo.fifth_turn_saved)
  /\ llm_calls (snd (update_conversation_summary Demo.llm_ok Demo.account false
                       Demo.fifth_turn_saved))
     = llm_calls Demo.fifth_turn_saved
  /\ cached_summary Demo.account
       (snd (update_conversation_summary Demo.llm_ok Demo.account false
               Demo.fifth_turn_saved))
     = cached_summary Demo.account Demo.fifth_turn_saved
  /\ stored_hash Demo.account
       (snd (update_conversation_summary Demo.llm_ok Demo.account false
               Demo.fifth_turn_saved))
     = stored_hash Demo.account Demo.fifth_turn_saved
  /\ get_chat_history Demo.account
       (snd (update_conversation_summary Demo.llm_ok Demo.account false
               Demo.fifth_turn_saved))
     = get_chat_history Demo.account Demo.fifth_turn_saved.
Proof.
  split; [vm_compute; repeat split|].
  assert (Hr : int64_min <= counter Demo.account Demo.fifth_turn_saved < int64_max)
    by (vm_compute; split; [discriminate | reflexivity]).
  assert (H5 : (counter Demo.account Demo.fifth_turn_saved + 1)
               mod summary_update_threshold = 0)
    by (vm_compute; reflexivity).
  assert (Hf : fresh_cache Demo.account Demo.fifth_turn_saved = true)
    by (vm_compute; reflexivity).
  exact (due_update_serves_cached_summary Demo.llm_ok Demo.account Demo.fifth_turn_saved
           Hr H5 Hf).
Defined.

End SummaryProperties.

(** ** ConversationOrchestrator *)

Module TurnProperties.
Import Py Redis LegalService LegalAgent RedisFacts ServiceFacts SummaryFacts Views.

Section Environment.
Variable llm : nat -> string -> result string.
Variable now_isoformat : nat -> string.
Variable now_yyyymmdd : nat -> string.
Variable json_loads : string -> option json.

(** Assembling the context writes nothing but summaries, hashes and
    profiles. *)
Lemma turn_input_frame (a input_text : string) (w : World) :
  let w' := snd (turn_input llm now_isoformat json_loads a input_text w) in
  chat_history w' = chat_history w /\ conv_count w' = conv_count w /\
  conv_metadata w' = conv_metadata w /\ redis_time w' = redis_time w.
Proof.
  unfold turn_input, get_conversation_context.
  destruct (generate_summary_frame llm a w) as (H1 & _ & H3 & H4 & H5 & _).
  destruct (generate_summary llm a w) as [s w1]. simpl in H1, H3, H4, H5.
  destruct (get_user_profile_frame llm now_isoformat json_loads a w1)
    as (G1 & _ & _ & G3 & G4 & G5).
  destruct (get_user_profile llm now_isoformat json_loads a w1) as [p w2].
  simpl in G1, G3, G4, G5.
  destruct (get_user_profile_frame llm now_isoformat json_loads a w2)
    as (K1 & _ & _ & K3 & K4 & K5).
  match goal with
  | |- context [let '(_, _) := (let '(_, _) := ?x in _) in _] => destruct x
  end.
  destruct (get_user_profile llm now_isoformat json_loads a w2) as [p' w3].
  simpl in *. repeat split; congruence.
Qed.

(** The turn, once the dictionary for the agent is built. *)
Lemma chat_with_legal_agent_failure
    (agent : AgentInput -> AgentRun) (a input_text : string) (w : World) (e : exn) :
  let i := turn_input llm now_isoformat json_loads a input_text w in
  failure (agent (fst i)) = Some e ->
  chat_with_legal_agent llm now_isoformat json_loads agent a input_text w
  = except_clauses a (fst (consume (chunks (agent (fst i))))) [] e (snd i).
Proof.
  unfold turn_input, chat_with_legal_agent.
  destruct (get_conversation_context llm now_isoformat json_loads a "hybrid" 1000 w)
    as [context w1].
  destruct (get_user_profile llm now_isoformat json_loads a w1) as [profile w2].
  simpl. intros H.
  destruct (consume _) as [full_response tool_calls_log]. rewrite H. reflexivity.
Qed.

(** C8, as the code has it. When the agent times out, the turn yields the
    tokens already streamed followed by the timeout apology, once (so the
    apology alone when the timeout comes before any token), leaves through
    the timeout handler without an exception, schedules no persistence task
    and leaves the stored histories and the metadata log as they were. *)
Theorem timeout_turn
    (agent : AgentInput -> AgentRun) (a input_text msg : string) (w : World) :
  let i := turn_input llm now_isoformat json_loads a input_text w in
  let streamed := fst (consume (chunks (agent (fst i)))) in
  failure (agent (fst i)) = Some (TimeoutError msg) ->
  let t := chat_with_legal_agent llm now_isoformat json_loads agent a input_text w in
  yielded t = streamed ++ [timeout_apology]
  /\ (streamed = [] -> yielded t = [timeout_apology])
  /\ escaped t = None
  /\ exit_taken t = TimeoutHandler
  /\ scheduled t = []
  /\ chat_history (world t) = chat_history w
  /\ conv_metadata (world t) = conv_metadata w
  /\ get_chat_history a (world t) = get_chat_history a w.
Proof.
  intros i streamed H t. subst t.
  rewrite (chat_with_legal_agent_failure agent a input_text w _ H). simpl.
  fold i. fold streamed.
  destruct (turn_input_frame a input_text w) as (H1 & _ & H3 & H4).
  fold i in H1, H3, H4.
  repeat split; try assumption.
  - intros ->. reflexivity.
  - apply get_chat_history_frame; assumption.
Qed.

(** What the second except clause does on a context overflow, in general:
    the history and the summary are deleted, the profile is kept, and the
    TypeError of create_task leaves the generator before anything is
    yielded. *)
Lemma context_overflow_escapes
    (agent : AgentInput -> AgentRun) (a input_text text : string) (w : World) :
  let i := turn_input llm now_isoformat json_loads a input_text w in
  failure (agent (fst i)) = Some (OtherError text) ->
  contains "rate limit" (lower text) = false ->
  contains "context length" (lower text) = true ->
  let t := chat_with_legal_agent llm now_isoformat json_loads agent a input_text w in
  yielded t = fst (consume (chunks (agent (fst i))))
  /\ escaped t = Some (OtherError "a coroutine was expected, got None")
  /\ get_chat_history a (world t) = []
  /\ cached_summary a (world t) = None
  /\ user_profile (world t) = user_profile (snd i).
Proof.
  intros i H Hrate Hctx t. subst t.
  rewrite (chat_with_legal_agent_failure agent a input_text w _ H).
  unfold except_clauses. rewrite Hrate, Hctx. simpl.
  repeat split.
  - apply get_chat_history_clear.
  - unfold cached_summary, clear_chat_history. simpl. apply get_del.
Qed.

End Environment.

(** The timeout of [Demo.agent_stalls], which has streamed one token. *)
Lemma timeout_turn_witness :
  yielded (chat_with_legal_agent Demo.llm_ok Demo.clock Demo.no_profile
             Demo.agent_stalls Demo.account "试用期被辞退也有补偿吗" Demo.two_turns)
  = ["根据"; timeout_apology]
  /\ scheduled (chat_with_legal_agent Demo.llm_ok Demo.clock Demo.no_profile
                  Demo.agent_stalls Demo.account "试用期被辞退也有补偿吗" Demo.two_turns)
     = []
  /\ get_chat_history Demo.account
       (world (chat_with_legal_agent Demo.llm_ok Demo.clock Demo.no_profile
                 Demo.agent_stalls Demo.account "试用期被辞退也有补偿吗" Demo.two_turns))
     = get_chat_history Demo.account Demo.two_turns.
Proof.
  assert (H : failure (Demo.agent_stalls
                         (fst (turn_input Demo.llm_ok Demo.clock Demo.no_profile
                                 Demo.account "试用期被辞退也有补偿吗" Demo.two_turns)))
              = Some (TimeoutError "")) by reflexivity.
  pose proof (timeout_turn Demo.llm_ok Demo.clock Demo.no_profile Demo.agent_stalls
                Demo.account "试用期被辞退也有补偿吗" "" Demo.two_turns H) as T.
  cbv zeta in T. destruct T as (T1 & _ & _ & _ & T5 & _ & _ & T8).
  split; [exact T1 | split; [exact T5 | exact T8]].
Defined.

(** C8 refuted as stated: a timeout after one streamed token leaves that
    token in the output, before the apology. *)
Lemma timeout_after_a_token :
  failure (Demo.agent_stalls
             (fst (turn_input Demo.llm_ok Demo.clock Demo.no_profile
                     Demo.account "试用期被辞退也有补偿吗" Demo.two_turns)))
  = Some (TimeoutError "")
  /\ yielded (chat_with_legal_agent Demo.llm_ok Demo.clock Demo.no_profile
                Demo.agent_stalls Demo.account "试用期被辞退也有补偿吗" Demo.two_turns)
     = ["根据"; "抱歉，思考时间过长，请简化您的问题重试。"].
Proof. vm_compute. repeat split. Qed.

(** C1 on a provider error that reports an exceeded context length: the
    history and the summary of the account are deleted and its profile is
    kept, and then the turn ends with the TypeError of create_task: the
    generator yields nothing, and the response stream carries no frame at
    all, neither the new-session message nor the end-of-stream sentinel. *)
Theorem context_overflow_turn :
  let t := chat_with_legal_agent Demo.llm_ok Demo.clock Demo.no_profile
             Demo.agent_overflows Demo.account "试用期被辞退也有补偿吗" Demo.two_turns in
  failure (Demo.agent_overflows
             (fst (turn_input Demo.llm_ok Demo.clock Demo.no_profile Demo.account
                     "试用期被辞退也有补偿吗" Demo.two_turns)))
  = Some (OtherError "This model's maximum context length is 8192 tokens.")
  /\ contains "context length"
       (lower "This model's maximum context length is 8192 tokens.") = true
  /\ contains "rate limit"
       (lower "This model's maximum context length is 8192 tokens.") = false
  /\ length (get_chat_history Demo.account Demo.two_turns) = 4%nat
  /\ get_chat_history Demo.account (world t) = []
  /\ cached_summary Demo.account (world t) = None
  /\ is_Some (Redis.get (redis_time (world t)) (user_profile (world t))
                (get_profile_key Demo.account))
  /\ yielded t = []
  /\ escaped t = Some (OtherError "a coroutine was expected, got None")
  /\ fst (fst (generate_stream_response Demo.llm_ok Demo.clock Demo.no_profile
                 Demo.agent_overflows Demo.account "试用期被辞退也有补偿吗"
                 Demo.two_turns)) = [].
Proof. vm_compute. repeat split. eauto. Qed.

End TurnProperties.

(** ** The streamed wire format *)

Module StreamProperties.
Import Py LegalAgent PyFacts Views.

Lemma stream_loop_cons (c token : string) (rest : list string) :
  stream_loop c (token :: rest)
  = if trigger c token
    then (frame (c +:+ token) :: fst (stream_loop "" rest), snd (stream_loop "" rest))
    else stream_loop (c +:+ token) rest.
Proof.
  change (stream_loop c (token :: rest))
    with (if trigger c token
          then let '(frames, pending) := stream_loop "" rest in
               (frame (c +:+ token) :: frames, pending)
          else stream_loop (c +:+ token) rest).
  destruct (trigger c token); [|reflexivity].
  destruct (stream_loop "" rest). reflexivity.
Qed.

Lemma coalesce_cons (c token : string) (rest : list string) :
  coalesce c (token :: rest)
  = if trigger c token
    then ((c +:+ token) :: fst (coalesce "" rest), snd (coalesce "" rest))
    else coalesce (c +:+ token) rest.
Proof. reflexivity. Qed.

Lemma stream_loop_coalesce (c : string) (tokens : list string) :
  stream_loop c tokens = (map frame (fst (coalesce c tokens)), snd (coalesce c tokens)).
Proof.
  revert c. induction tokens as [|token rest IH]; intros c; [reflexivity|].
  rewrite stream_loop_cons, coalesce_cons.
  destruct (trigger c token).
  - rewrite (IH ""). reflexivity.
  - apply IH.
Qed.

Lemma coalesce_join (c : string) (tokens : list string) :
  join (fst (coalesce c tokens)) +:+ snd (coalesce c tokens) = c +:+ join tokens.
Proof.
  revert c. induction tokens as [|token rest IH]; intros c.
  - change (coalesce c []) with (@nil string, c).
    change (join []) with "". rewrite append_nil_r. reflexivity.
  - rewrite coalesce_cons. destruct (trigger c token).
    + change (fst (?x, ?y)) with x. change (snd (?x, ?y)) with y.
      rewrite !join_cons, append_assoc, (IH ""), append_assoc.
      reflexivity.
    + rewrite IH, join_cons, append_assoc. reflexivity.
Qed.

Lemma str_in_In (s : string) (l : list string) : str_in s l = true -> In s l.
Proof.
  unfold str_in. rewrite existsb_exists. intros (x & Hin & Heq).
  apply String.eqb_eq in Heq. subst. exact Hin.
Qed.

(** Every chunk sent before the end of the stream has ten characters or
    ends with a token that is a punctuation mark; what is pending is
    shorter than ten characters. *)
Lemma coalesce_sound (c : string) (tokens : list string) :
  Forall (fun chunk =>
            (10 <= py_len chunk)%nat
            \/ exists pre p, In p punctuation /\ chunk = pre +:+ p)
         (fst (coalesce c tokens))
  /\ ((py_len c < 10)%nat -> (py_len (snd (coalesce c tokens)) < 10)%nat).
Proof.
  revert c. induction tokens as [|token rest IH]; intros c.
  - split; [constructor | auto].
  - rewrite coalesce_cons. destruct (trigger c token) eqn:T.
    + destruct (IH "") as [Hall Hpend].
      change (fst (?x, ?y)) with x. change (snd (?x, ?y)) with y. split.
      * constructor; [|exact Hall].
        unfold trigger in T. apply orb_true_iff in T. destruct T as [T | T].
        -- right. exists c, token. split; [apply str_in_In; exact T | reflexivity].
        -- left. apply Nat.leb_le. exact T.
      * intros _. apply Hpend. change (py_len "") with 0%nat. lia.
    + destruct (IH (c +:+ token)) as [Hall Hpend]. split; [exact Hall|].
      intros _. apply Hpend.
      unfold trigger in T. apply orb_false_iff in T. destruct T as [_ T].
      apply Nat.leb_gt in T. exact T.
Qed.

Lemma frame_payload (c : string) : frame c = "data: " +:+ payload c +:+ nl +:+ nl.
Proof.
  unfold frame, payload, JsonData.model_dump_json, JsonData.stream_data,
    JsonData.to_json, Json.dumps_compact. simpl.
  unfold Json.quote. rewrite !append_assoc. reflexivity.
Qed.

(** The wire format the code produces.  For every sequence of tokens of a
    stream that ends normally, the wire output is one frame per chunk
    followed by the sentinel frame, which comes last; every frame is the
    text [data: ],
    the JSON object with the fields code, data, msg and type (0, the chunk,
    the empty text and stream) and two newlines; the chunks put together are
    the tokens put together; a frame is sent when the token just received is
    itself one of the punctuation marks or the accumulated chunk has reached
    ten characters, and only then, except for the last chunk, which is what
    is still pending, if anything, when the tokens end. *)
Lemma stream_wire_format (tokens : list string) :
  stream_frames tokens None = map frame (chunks_of tokens) ++ [done_frame]
  /\ last (stream_frames tokens None) = Some done_frame
  /\ done_frame = "data: [DONE]" +:+ nl +:+ nl
  /\ (forall c, frame c = "data: " +:+ payload c +:+ nl +:+ nl)
  /\ join (chunks_of tokens) = join tokens
  /\ (forall c token rest,
        stream_loop c (token :: rest)
        = if trigger c token
          then (frame (c +:+ token) :: fst (stream_loop "" rest),
                snd (stream_loop "" rest))
          else stream_loop (c +:+ token) rest)
  /\ Forall (fun chunk =>
               (10 <= py_len chunk)%nat
               \/ exists pre p, In p punctuation /\ chunk = pre +:+ p)
            (fst (coalesce "" tokens))
  /\ (py_len (snd (coalesce "" tokens)) < 10)%nat.
Proof.
  assert (Hframes :
    stream_frames tokens None = map frame (chunks_of tokens) ++ [done_frame]).
  { unfold stream_frames, chunks_of. rewrite stream_loop_coalesce.
    rewrite map_app, <- app_assoc.
    destruct (truthy (snd (coalesce "" tokens))); reflexivity. }
  split; [exact Hframes|]. split; [rewrite Hframes; apply last_snoc|].
  split; [reflexivity|]. split; [exact frame_payload|]. split; [|split; [|split]].
  - unfold chunks_of. rewrite join_app.
    pose proof (coalesce_join "" tokens) as H.
    change ("" +:+ join tokens) with (join tokens) in H. rewrite <- H.
    destruct (snd (coalesce "" tokens)) as [|x pending] eqn:E; simpl truthy; cbv iota.
    + reflexivity.
    + rewrite join_cons. change (join []) with "". rewrite append_nil_r. reflexivity.
  - exact stream_loop_cons.
  - apply coalesce_sound.
  - apply coalesce_sound. change (py_len "") with 0%nat. lia.
Qed.

(** C7. The claim fails on the code where the comment of the loop states
    the rule of the claim (send the chunk when a punctuation mark is met or
    the length is reached): the test looks at the token, not at the chunk,
    and misses a mark that arrives inside a longer token.  After the token
    that ends in a full stop the accumulated chunk ends in a punctuation
    mark and no frame is sent for it; the rule of the claim sends two frames
    where the code sends one. *)
Lemma punctuation_inside_a_token :
  StreamSpec.ends_in_punctuation "好。" = true
  /\ str_in "好。" punctuation = false
  /\ stream_loop "" ["好。"] = ([], "好。")
  /\ stream_frames ["好。"; "的"] None = [frame "好。的"; done_frame]
  /\ StreamSpec.spec_stream_frames ["好。"; "的"] = [frame "好。"; frame "的"; done_frame].
Proof. vm_compute. repeat split. Qed.

End StreamProperties.

(** ** The library functions, on known values *)

Module LibraryChecks.
Import Py Json LegalService LegalAgent.

(** The MD5 test suite of RFC 1321, in part. *)
Example md5_of_the_empty_string :
  MD5.hexdigest "" = "d41d8cd98f00b204e9800998ecf8427e".
Proof. vm_compute. reflexivity. Qed.

Example md5_of_abc : MD5.hexdigest "abc" = "900150983cd24fb0d6963f7d28e17f72".
Proof. vm_compute. reflexivity. Qed.

Example md5_of_message_digest :
  MD5.hexdigest "message digest" = "f96b697d7cb7938d525a2f31aaf161d0".
Proof. vm_compute. reflexivity. Qed.

(** [json.dumps] escapes what is not printable ASCII. *)
Example dumps_of_a_message :
  dumps (history_to_json
           [{| role := "user"; content := "你好"; timestamp := "t"; metadata := None |}])
  = "[{" +:+ dq +:+ "role" +:+ dq +:+ ": " +:+ dq +:+ "user" +:+ dq +:+ ", "
    +:+ dq +:+ "content" +:+ dq +:+ ": " +:+ dq +:+ bsl +:+ "u4f60" +:+ bsl +:+ "u597d"
    +:+ dq +:+ ", " +:+ dq +:+ "timestamp" +:+ dq +:+ ": " +:+ dq +:+ "t" +:+ dq +:+ "}]".
Proof. vm_compute. reflexivity. Qed.

(** [len] counts characters, not bytes. *)
Example len_of_the_new_session_message : py_len new_session_message = 13%nat.
Proof. reflexivity. Qed.

(** A whole turn that succeeds: two tokens, one frame each, and the two
    tasks scheduled; once they have run the history holds the turn. *)
Example answered_turn :
  let t := chat_with_legal_agent Demo.llm_ok Demo.clock Demo.no_profile
             Demo.agent_answers Demo.account "公司辞退我需要赔偿吗" empty_world in
  yielded t = ["应当支付"; "经济补偿。"]
  /\ escaped t = None
  /\ length (scheduled t) = 2%nat
  /\ map content
       (get_chat_history Demo.account
          (fold_left (fun w task => run_task Demo.llm_ok Demo.clock Demo.today
                                      Demo.no_profile task w)
                     (scheduled t) (world t)))
     = ["公司辞退我需要赔偿吗"; "应当支付经济补偿。"].
Proof. vm_compute. repeat split. Qed.

End LibraryChecks.

(** * Further properties of the code *)

(** ** Histories: order, isolation of accounts, clearing *)

Module StoreExtras.
Import Py Redis LegalService RedisFacts ServiceFacts SummaryFacts Views.

Lemma retained_snoc (l : list Message) (x : Message) :
  retained (l ++ [x]) = skipn (length l - 9) l ++ [x].
Proof.
  unfold retained, last_n, max_history_messages. rewrite length_app. simpl length.
  destruct (Nat.ltb_spec 10 (length l + 1)) as [H | H].
  - rewrite skipn_app.
    replace (length l + 1 - 10)%nat with (length l - 9)%nat by lia.
    replace (length l - 9 - length l)%nat with 0%nat by lia. reflexivity.
  - replace (length l - 9)%nat with 0%nat by lia. reflexivity.
Qed.

Section Environment.
Variable llm : nat -> string -> result string.
Variable now_isoformat : nat -> string.

(** The history after [save_chat_messages]. *)
Lemma save_chat_messages_history (a u r : string) (w : World) :
  let h := get_chat_history a w in
  let h' := get_chat_history a (save_chat_messages now_isoformat a u r w) in
  exists (n : nat) (mu ma : Message),
    h' = skipn n h ++ [mu; ma]
    /\ role mu = "user" /\ content mu = u
    /\ role ma = "assistant" /\ content ma = r
    /\ (h = [] -> h' = [mu; ma]).
Proof.
  intros h h'.
  set (w1 := add_message now_isoformat a "user" u None w).
  set (mu := new_message now_isoformat "user" u None w).
  set (ma := new_message now_isoformat "assistant" r None w1).
  assert (H1 : get_chat_history a w1 = skipn (length h - 9) h ++ [mu]).
  { unfold w1. rewrite get_chat_history_add. apply retained_snoc. }
  assert (H2 : h' = skipn (length (get_chat_history a w1) - 9) (get_chat_history a w1)
                    ++ [ma]).
  { unfold h', save_chat_messages. fold w1. rewrite get_chat_history_add.
    apply retained_snoc. }
  rewrite H1 in H2. rewrite length_app in H2. simpl length in H2.
  rewrite skipn_app in H2.
  replace (length (skipn (length h - 9) h) + 1 - 9
           - length (skipn (length h - 9) h))%nat with 0%nat in H2 by lia.
  simpl skipn in H2. rewrite skipn_skipn, <- app_assoc in H2.
  eexists _, mu, ma. split; [exact H2|].
  repeat split.
  intros Hnil. rewrite H2, Hnil. reflexivity.
Qed.

(** X1. [save_chat_messages] appends the user message and then the
    assistant message: read back, the history ends with these two, in this
    order, after what is kept of the older history; on an empty history it
    is exactly the two. *)
Theorem save_chat_messages_read_back (a u r : string) (w : World) :
  let h := get_chat_history a w in
  let h' := get_chat_history a (save_chat_messages now_isoformat a u r w) in
  exists (n : nat) (mu ma : Message),
    h' = skipn n h ++ [mu; ma]
    /\ role mu = "user" /\ content mu = u
    /\ role ma = "assistant" /\ content ma = r
    /\ (h = [] -> h' = [mu; ma]).
Proof. exact (save_chat_messages_history a u r w). Qed.

(** X2. Accounts do not see each other: appending to, clearing or
    summarising one account leaves the history, the cached summary and the
    stored hash of every other account as they were. *)
Theorem accounts_are_isolated (a b r c : string) (md : option dict) (w : World) :
  a <> b ->
  get_chat_history b (add_message now_isoformat a r c md w) = get_chat_history b w
  /\ get_chat_history b (clear_chat_history a w) = get_chat_history b w
  /\ cached_summary b (clear_chat_history a w) = cached_summary b w
  /\ get_chat_history b (snd (generate_summary llm a w)) = get_chat_history b w
  /\ cached_summary b (snd (generate_summary llm a w)) = cached_summary b w
  /\ stored_hash b (snd (generate_summary llm a w)) = stored_hash b w.
Proof.
  intros Hab.
  destruct (keys_injective a b) as (Kc & Ks & Kh & _).
  assert (Hc : get_chat_key a <> get_chat_key b) by (intros E; apply Hab, Kc, E).
  assert (Hs : get_summary_key a <> get_summary_key b) by (intros E; apply Hab, Ks, E).
  assert (Hh : get_hash_key a <> get_hash_key b) by (intros E; apply Hab, Kh, E).
  split; [|split; [|split; [|split; [|split]]]].
  - unfold get_chat_history, add_message, datetime_now_isoformat, save_chat_history.
    simpl. rewrite get_set_ne by exact Hc. reflexivity.
  - unfold get_chat_history, clear_chat_history. simpl.
    rewrite get_del_ne by exact Hc. reflexivity.
  - unfold cached_summary, clear_chat_history. simpl.
    rewrite get_del_ne by exact Hs. reflexivity.
  - destruct (generate_summary_frame llm a w) as (H1 & _ & _ & _ & H5 & _).
    apply get_chat_history_frame; assumption.
  - unfold cached_summary, generate_summary.
    destruct (opt_truthy _ && _); [reflexivity|].
    destruct (get_chat_history a w); [reflexivity|].
    destruct (opt_eqb _ _); [reflexivity|].
    unfold ainvoke. destruct (llm _ _); simpl; [|reflexivity].
    unfold Redis.get, Redis.setex. rewrite lookup_insert_ne by exact Hs. reflexivity.
  - unfold stored_hash, generate_summary.
    destruct (opt_truthy _ && _); [reflexivity|].
    destruct (get_chat_history a w); [reflexivity|].
    destruct (opt_eqb _ _); [reflexivity|].
    unfold ainvoke. destruct (llm _ _); simpl; [|reflexivity].
    unfold Redis.get, Redis.setex. rewrite lookup_insert_ne by exact Hh. reflexivity.
Qed.

(** X3. Clearing is idempotent, touches neither the profile nor the turn
    counter nor the metadata log, and right after it the summary engine
    answers with the empty text without calling the model. *)
Theorem clear_then_summary (a : string) (w : World) :
  clear_chat_history a (clear_chat_history a w) = clear_chat_history a w
  /\ user_profile (clear_chat_history a w) = user_profile w
  /\ conv_count (clear_chat_history a w) = conv_count w
  /\ conv_metadata (clear_chat_history a w) = conv_metadata w
  /\ generate_summary llm a (clear_chat_history a w) = ("", clear_chat_history a w).
Proof.
  split; [|repeat split].
  - unfold clear_chat_history, with_chat_summary, with_chat_history, Redis.del. simpl.
    rewrite !delete_delete_eq. reflexivity.
  - apply generate_summary_no_history.
    + unfold fresh_cache, cached_summary, clear_chat_history. simpl.
      rewrite get_del. reflexivity.
    + apply get_chat_history_clear.
Qed.

End Environment.

(** Two accounts with a history and a summary each: what is done to the
    first leaves the second with its two messages, its summary and its
    hash. *)
Lemma accounts_are_isolated_witness :
  (length (get_chat_history "u2002" ExtraDemo.two_accounts) = 2%nat
   /\ length (get_chat_history Demo.account ExtraDemo.two_accounts) = 4%nat
   /\ cached_summary "u2002" ExtraDemo.two_accounts
      = Some "用户咨询了劳动合同解除后的经济补偿问题。"
   /\ stored_hash "u2002" ExtraDemo.two_accounts
      = Some (current_hash "u2002" ExtraDemo.two_accounts)
   /\ get_chat_history Demo.account
        (clear_chat_history Demo.account ExtraDemo.two_accounts) = [])
  /\ get_chat_history "u2002"
       (add_message Demo.clock Demo.account "user" "你好" None ExtraDemo.two_accounts)
     = get_chat_history "u2002" ExtraDemo.two_accounts
  /\ get_chat_history "u2002" (clear_chat_history Demo.account ExtraDemo.two_accounts)
     = get_chat_history "u2002" ExtraDemo.two_accounts
  /\ cached_summary "u2002" (clear_chat_history Demo.account ExtraDemo.two_accounts)
     = cached_summary "u2002" ExtraDemo.two_accounts
  /\ get_chat_history "u2002"
       (snd (generate_summary Demo.llm_ok Demo.account ExtraDemo.two_accounts))
     = get_chat_history "u2002" ExtraDemo.two_accounts
  /\ cached_summary "u2002"
       (snd (generate_summary Demo.llm_ok Demo.account ExtraDemo.two_accounts))
     = cached_summary "u2002" ExtraDemo.two_accounts
  /\ stored_hash "u2002"
       (snd (generate_summary Demo.llm_ok Demo.account ExtraDemo.two_accounts))
     = stored_hash "u2002" ExtraDemo.two_accounts.
Proof.
  assert (H : Demo.account <> "u2002") by (vm_compute; discriminate).
  split; [vm_compute; repeat split|].
  exact (accounts_are_isolated Demo.llm_ok Demo.clock Demo.account "u2002"
           "user" "你好" None ExtraDemo.two_accounts H).
Defined.

End StoreExtras.

(** ** Context strategies and the user profile *)

(** ** Dictionaries in memory and in the store *)

Module DictFacts.
Import Py Json ExtraViews.

Lemma key_eqb_refl (k : pykey) : key_eqb k k = true.
Proof.
  destruct k as [s|n|b|]; simpl.
  - apply String.eqb_refl.
  - apply Z.eqb_refl.
  - apply Z.eqb_refl.
  - reflexivity.
Qed.

Lemma key_eqb_sym (k1 k2 : pykey) : key_eqb k1 k2 = key_eqb k2 k1.
Proof.
  destruct k1, k2; simpl; try reflexivity; try apply String.eqb_sym; apply Z.eqb_sym.
Qed.

Lemma key_eqb_trans (k1 k2 k3 : pykey) :
  key_eqb k1 k2 = true -> key_eqb k2 k3 = true -> key_eqb k1 k3 = true.
Proof.
  destruct k1, k2, k3; simpl; try discriminate; try reflexivity;
    rewrite ?String.eqb_eq, ?Z.eqb_eq; congruence.
Qed.

Lemma key_eqb_false (k k1 k2 : pykey) :
  key_eqb k k1 = false -> key_eqb k1 k2 = true -> key_eqb k k2 = false.
Proof.
  intros H1 H2. destruct (key_eqb k k2) eqn:E; [|reflexivity].
  rewrite key_eqb_sym in H2. rewrite (key_eqb_trans k k2 k1 E H2) in H1. discriminate.
Qed.

Lemma dict_get_app (k : string) (l1 l2 : dict) :
  dict_get k (l1 ++ l2)
  = match dict_get k l1 with Some v => Some v | None => dict_get k l2 end.
Proof.
  induction l1 as [|[k' v'] l1 IH]; simpl; [reflexivity|].
  destruct (String.eqb k k'); [reflexivity | exact IH].
Qed.

Lemma dict_set_fresh (k : string) (v : json) (d : dict) :
  dict_get k d = None -> dict_set k v d = d ++ [(k, v)].
Proof.
  induction d as [|[k' v'] d IH]; simpl; [reflexivity|].
  destruct (String.eqb k k'); [discriminate|].
  intros H. rewrite (IH H). reflexivity.
Qed.

Lemma pydict_get_of_dict (k : string) (d : dict) :
  pydict_get (KStr k) (of_dict d) = dict_get k d.
Proof.
  induction d as [|[k' v] d IH]; simpl; [reflexivity|].
  rewrite IH. reflexivity.
Qed.

Lemma pydict_set_of_dict (k : string) (v : json) (d : dict) :
  pydict_set (KStr k) v (of_dict d) = of_dict (dict_set k v d).
Proof.
  induction d as [|[k' v'] d IH]; simpl; [reflexivity|].
  destruct (String.eqb k k'); simpl; [reflexivity|].
  rewrite IH. reflexivity.
Qed.

Lemma pydict_get_set_eq (k k' : pykey) (v : json) (d : pydict) :
  key_eqb k' k = true -> pydict_get k' (pydict_set k v d) = Some v.
Proof.
  intros H. induction d as [|[k0 v0] d IH]; simpl.
  - rewrite H. reflexivity.
  - destruct (key_eqb k k0) eqn:E; simpl.
    + rewrite (key_eqb_trans k' k k0 H E). reflexivity.
    + destruct (key_eqb k' k0) eqn:E'; [|exact IH].
      rewrite key_eqb_sym in H. rewrite (key_eqb_trans k k' k0 H E') in E. discriminate.
Qed.

Lemma pydict_get_set_ne (k k' : pykey) (v : json) (d : pydict) :
  key_eqb k' k = false -> pydict_get k' (pydict_set k v d) = pydict_get k' d.
Proof.
  intros H. induction d as [|[k0 v0] d IH]; simpl.
  - rewrite H. reflexivity.
  - destruct (key_eqb k k0) eqn:E; simpl.
    + rewrite (key_eqb_false k' k k0 H E). reflexivity.
    + rewrite IH. reflexivity.
Qed.

Lemma pydict_get_set_some (k k' : pykey) (v : json) (d : pydict) :
  is_Some (pydict_get k' d) -> is_Some (pydict_get k' (pydict_set k v d)).
Proof.
  intros H. destruct (key_eqb k' k) eqn:E.
  - rewrite (pydict_get_set_eq k k' v d E). eauto.
  - rewrite (pydict_get_set_ne k k' v d E). exact H.
Qed.

Lemma merge_pairs_some (k : pykey) (items : list json) (d : pydict) :
  is_Some (pydict_get k d) -> is_Some (pydict_get k (fst (merge_pairs d items))).
Proof.
  revert d. induction items as [|item items IH]; intros d H; simpl; [exact H|].
  destruct (pair_of item) as [[k0 v0]|]; [|exact H].
  apply IH. apply pydict_get_set_some. exact H.
Qed.

(** [update] never removes a key. *)
Lemma pydict_update_some (k : pykey) (d : pydict) (other : json) :
  is_Some (pydict_get k d) -> is_Some (pydict_get k (fst (pydict_update d other))).
Proof.
  intros H. destruct other as [| b | n | s | items | e]; simpl; try exact H.
  - apply merge_pairs_some. exact H.
  - revert d H. induction e as [|[k0 v0] e IH]; intros d H; simpl; [exact H|].
    apply IH. apply pydict_get_set_some. exact H.
Qed.

(** [update] with an object: the last entry of the object for a key wins,
    the other keys keep their values. *)
Lemma pydict_get_update_object (k : string) (e : dict) (d : pydict) :
  pydict_get (KStr k) (fst (pydict_update d (JObj e)))
  = match dict_get k (rev e) with
    | Some v => Some v
    | None => pydict_get (KStr k) d
    end.
Proof.
  simpl. revert d. induction e as [|[k1 v1] e IH]; intros d; simpl; [reflexivity|].
  rewrite IH, dict_get_app. destruct (dict_get k (rev e)); [reflexivity|].
  simpl. destruct (String.eqb k k1) eqn:E.
  - apply pydict_get_set_eq. exact E.
  - apply pydict_get_set_ne. exact E.
Qed.

(** [update] with a list: the pairs before the first element that is not a
    pair are stored, that element raises and the rest is never read. *)
Lemma merge_pairs_stops (good : list json) (bad : json) (rest : list json) (d : pydict) :
  forallb is_pair good = true -> is_pair bad = false ->
  merge_pairs d (good ++ bad :: rest) = (fst (merge_pairs d good), true).
Proof.
  unfold is_pair. revert d.
  induction good as [|item good IH]; intros d Hg Hb; simpl.
  - destruct (pair_of bad); [discriminate | reflexivity].
  - simpl in Hg. destruct (pair_of item) as [[k v]|]; [|discriminate].
    apply IH; assumption.
Qed.

Lemma keys_once_set (k : pykey) (v : json) (d : pydict) :
  keys_once d -> keys_once (pydict_set k v d).
Proof.
  induction d as [|[k0 v0] d IH]; simpl; intros H; [auto|].
  destruct H as [H0 Hd]. destruct (key_eqb k k0) eqn:E; simpl.
  - split; assumption.
  - split; [|apply IH; exact Hd].
    rewrite pydict_get_set_ne; [exact H0|]. rewrite key_eqb_sym. exact E.
Qed.

Lemma keys_once_update (d : pydict) (other : json) :
  keys_once d -> keys_once (fst (pydict_update d other)).
Proof.
  intros H. destruct other as [| b | n | s | items | e]; simpl; try exact H.
  - revert d H. induction items as [|item items IH]; intros d H; simpl; [exact H|].
    destruct (pair_of item) as [[k0 v0]|]; [|exact H].
    apply IH. apply keys_once_set. exact H.
  - revert d H. induction e as [|[k0 v0] e IH]; intros d H; simpl; [exact H|].
    apply IH. apply keys_once_set. exact H.
Qed.

Lemma pydict_get_filter (k k' : pykey) (d : pydict) :
  pydict_get k' (List.filter (fun kv => negb (key_eqb (fst kv) k)) d)
  = if key_eqb k' k then None else pydict_get k' d.
Proof.
  induction d as [|[k1 v1] d IH]; simpl; [destruct (key_eqb k' k); reflexivity|].
  destruct (key_eqb k1 k) eqn:E1; simpl.
  - rewrite IH. destruct (key_eqb k' k) eqn:E; [reflexivity|].
    rewrite key_eqb_sym in E1.
    rewrite (key_eqb_false k' k k1 E E1). reflexivity.
  - rewrite IH. destruct (key_eqb k' k1) eqn:E'; [|reflexivity].
    destruct (key_eqb k' k) eqn:E; [|reflexivity].
    rewrite key_eqb_sym in E'. rewrite (key_eqb_trans k1 k' k E' E) in E1. discriminate.
Qed.

Lemma keys_once_filter (k : pykey) (d : pydict) :
  keys_once d -> keys_once (List.filter (fun kv => negb (key_eqb (fst kv) k)) d).
Proof.
  induction d as [|[k1 v1] d IH]; simpl; [auto|].
  intros [H1 Hd]. destruct (key_eqb k1 k); simpl; [apply IH; exact Hd|].
  split; [|apply IH; exact Hd].
  rewrite pydict_get_filter, H1. destruct (key_eqb k1 k); reflexivity.
Qed.

Lemma keys_once_first_entries (d : pydict) : keys_once (first_entries d).
Proof.
  induction d as [|[k v] d IH]; simpl; [exact I|].
  split; [|apply keys_once_filter; exact IH].
  rewrite pydict_get_filter, key_eqb_refl. reflexivity.
Qed.

Lemma pydict_get_first_entries (k : pykey) (d : pydict) :
  pydict_get k (first_entries d) = pydict_get k d.
Proof.
  induction d as [|[k1 v1] d IH]; simpl; [reflexivity|].
  rewrite pydict_get_filter, IH. destruct (key_eqb k k1); reflexivity.
Qed.

Lemma first_entries_once (d : pydict) : keys_once d -> first_entries d = d.
Proof.
  induction d as [|[k v] d IH]; simpl; [reflexivity|].
  intros [H0 Hd]. rewrite (IH Hd). f_equal.
  clear IH Hd. induction d as [|[k1 v1] d IH]; simpl; [reflexivity|].
  simpl in H0. destruct (key_eqb k k1) eqn:E; [discriminate|].
  rewrite key_eqb_sym, E. simpl. rewrite (IH H0). reflexivity.
Qed.

Lemma text_keyed_filter (f : pykey * json -> bool) (d : pydict) :
  text_keyed d = true -> text_keyed (List.filter f d) = true.
Proof.
  unfold text_keyed. induction d as [|kv d IH]; simpl; [reflexivity|].
  intros H. apply andb_true_iff in H as [H1 H2].
  destruct (f kv); simpl; [rewrite H1; simpl|]; apply IH; exact H2.
Qed.

Lemma text_keyed_first_entries (d : pydict) :
  text_keyed d = true -> text_keyed (first_entries d) = true.
Proof.
  induction d as [|[k v] d IH]; simpl; [reflexivity|].
  intros H. unfold text_keyed in H. simpl in H. apply andb_true_iff in H as [H1 H2].
  unfold text_keyed at 1. simpl. rewrite H1. simpl.
  apply text_keyed_filter. apply IH. exact H2.
Qed.

Lemma text_keyed_of_dict (d : dict) : text_keyed (of_dict d) = true.
Proof. unfold text_keyed. induction d as [|[k v] d IH]; simpl; [reflexivity | exact IH]. Qed.

Lemma of_dict_to_dict (d : pydict) : text_keyed d = true -> of_dict (to_dict d) = d.
Proof.
  unfold text_keyed. induction d as [|[k v] d IH]; simpl; [reflexivity|].
  intros H. apply andb_true_iff in H as [H1 H2].
  destruct k; try discriminate. simpl. rewrite (IH H2). reflexivity.
Qed.

Lemma dict_get_to_dict (k : string) (d : pydict) :
  text_keyed d = true -> dict_get k (to_dict d) = pydict_get (KStr k) d.
Proof.
  unfold text_keyed. induction d as [|[k1 v1] d IH]; simpl; [reflexivity|].
  intros H. apply andb_true_iff in H as [H1 H2].
  destruct k1; try discriminate. simpl. rewrite (IH H2). reflexivity.
Qed.

Lemma fresh_after_set (s : string) (v : json) (acc : dict) (d : pydict) :
  text_keyed d = true -> pydict_get (KStr s) d = None ->
  Forall (fun kv => dict_get (key_text (fst kv)) acc = None) d ->
  Forall (fun kv => dict_get (key_text (fst kv)) (acc ++ [(s, v)]) = None) d.
Proof.
  unfold text_keyed. induction d as [|[k1 v1] d IH]; simpl; intros Ht Hg Hf; [constructor|].
  apply andb_true_iff in Ht as [H1 H2]. destruct k1 as [s1| | |]; try discriminate.
  simpl in Hg. destruct (String.eqb s s1) eqn:E; [discriminate|].
  inversion Hf as [|? ? Hs Hrest]; subst. simpl in Hs.
  constructor; [|apply IH; assumption].
  simpl. rewrite dict_get_app, Hs. simpl.
  rewrite String.eqb_sym, E. reflexivity.
Qed.

(** Writing and reading back a dictionary that has text keys, each once,
    gives its entries in their order. *)
Lemma fold_set_once (d : pydict) (acc : dict) :
  text_keyed d = true -> keys_once d ->
  Forall (fun kv => dict_get (key_text (fst kv)) acc = None) d ->
  fold_left (fun acc kv => dict_set (key_text (fst kv)) (snd kv) acc) d acc
  = acc ++ to_dict d.
Proof.
  revert acc. induction d as [|[k v] d IH]; intros acc Ht Ho Hf; simpl.
  - rewrite app_nil_r. reflexivity.
  - unfold text_keyed in Ht. simpl in Ht. apply andb_true_iff in Ht as [H1 H2].
    destruct k as [s| | |]; try discriminate. destruct Ho as [Hg Ho].
    inversion Hf as [|? ? Hs Hrest]; subst. simpl in Hs. simpl.
    rewrite (dict_set_fresh s v acc Hs).
    rewrite IH; [rewrite <- app_assoc; reflexivity | exact H2 | exact Ho |].
    apply fresh_after_set; assumption.
Qed.

Lemma loads_dumps_text_keyed (d : pydict) :
  text_keyed d = true -> loads_dumps d = to_dict (first_entries d).
Proof.
  intros Ht. unfold loads_dumps.
  rewrite fold_set_once; [reflexivity | | |].
  - apply text_keyed_first_entries. exact Ht.
  - apply keys_once_first_entries.
  - apply Forall_forall. intros kv _. reflexivity.
Qed.

(** A profile read from the store, changed or not, is stored again with the
    same lookups. *)
Lemma dict_get_loads_dumps (k : string) (d : dict) :
  dict_get k (loads_dumps (of_dict d)) = dict_get k d.
Proof.
  rewrite loads_dumps_text_keyed by apply text_keyed_of_dict.
  rewrite dict_get_to_dict
    by (apply text_keyed_first_entries; apply text_keyed_of_dict).
  rewrite pydict_get_first_entries. apply pydict_get_of_dict.
Qed.

(** A dictionary with text keys comes back from the store as it was. *)
Lemma of_dict_loads_dumps (d : pydict) :
  text_keyed d = true -> keys_once d -> of_dict (loads_dumps d) = d.
Proof.
  intros Ht Ho. rewrite (loads_dumps_text_keyed d Ht), (first_entries_once d Ho).
  apply of_dict_to_dict. exact Ht.
Qed.

End DictFacts.

Module ProfileExtras.
Import Py Redis Json LegalService RedisFacts ServiceFacts SummaryFacts Views ExtraViews
  DictFacts.

Lemma dict_get_set_eq (k : string) (v : json) (d : dict) :
  dict_get k (dict_set k v d) = Some v.
Proof.
  induction d as [|[k' v'] d IH]; simpl.
  - rewrite String.eqb_refl. reflexivity.
  - destruct (String.eqb k k') eqn:E; simpl; rewrite E; [reflexivity | exact IH].
Qed.

Lemma dict_get_set_ne (k k' : string) (v : json) (d : dict) :
  k <> k' -> dict_get k' (dict_set k v d) = dict_get k' d.
Proof.
  intros Hne. induction d as [|[k0 v0] d IH]; simpl.
  - destruct (String.eqb k' k) eqn:E; [|reflexivity].
    apply String.eqb_eq in E. congruence.
  - destruct (String.eqb k k0) eqn:E; simpl.
    + apply String.eqb_eq in E. subst k0.
      destruct (String.eqb k' k) eqn:E'; [|reflexivity].
      apply String.eqb_eq in E'. congruence.
    + rewrite IH. reflexivity.
Qed.

Section Environment.
Variable llm : nat -> string -> result string.
Variable now_isoformat : nat -> string.
Variable json_loads : string -> option json.

(** X4. The strategies other than hybrid: full returns the whole stored
    history and no summary, summary returns the generated summary and no
    history, window returns the last five messages at most and no summary.
    Whatever the strategy, the token budget is not looked at and
    tokens_used is 0. *)
Theorem context_strategies (a strategy : string) (max_tokens max_tokens' : Z) (w : World) :
  let h := get_chat_history a w in
  let ctx := fun s => fst (get_conversation_context llm now_isoformat json_loads
                             a s max_tokens w) in
  (ctx_history (ctx "full") = h /\ ctx_summary (ctx "full") = "")
  /\ (ctx_history (ctx "summary") = []
      /\ ctx_summary (ctx "summary") = fst (generate_summary llm a w))
  /\ (ctx_history (ctx "window") = skipn (length h - 5) h
      /\ (length (ctx_history (ctx "window")) <= 5)%nat
      /\ ctx_summary (ctx "window") = "")
  /\ ctx_strategy (ctx strategy) = strategy
  /\ ctx_tokens_used (ctx strategy) = 0
  /\ get_conversation_context llm now_isoformat json_loads a strategy max_tokens' w
     = get_conversation_context llm now_isoformat json_loads a strategy max_tokens w.
Proof.
  intros h ctx. subst ctx. cbv beta. unfold get_conversation_context. fold h.
  destruct (generate_summary llm a w) as [s w1]. simpl.
  destruct (Nat.ltb_spec 5 (length h)) as [H5 | H5].
  - destruct (get_user_profile llm now_isoformat json_loads a w1) as [p w2].
    simpl. split; [auto|]. split; [auto|]. split.
    + unfold last_n. split; [reflexivity|]. split; [|reflexivity].
      rewrite length_skipn. lia.
    + match goal with
      | |- context [if ?b then _ else _] => destruct b
      end; repeat match goal with
                  | |- context [if ?b then _ else _] => destruct b
                  end; auto.
  - destruct (get_user_profile llm now_isoformat json_loads a w1) as [p w2].
    simpl. split; [auto|]. split; [auto|]. split.
    + replace (length h - 5)%nat with 0%nat by lia. simpl. split; [reflexivity|].
      split; [lia | reflexivity].
    + match goal with
      | |- context [if ?b then _ else _] => destruct b
      end; repeat match goal with
                  | |- context [if ?b then _ else _] => destruct b
                  end; auto.
Qed.

(** X5. A strategy name that is none of full, summary, hybrid and window
    is not refused: the context comes back with an empty history and an
    empty summary, and the summary has been generated all the same. *)
Theorem unknown_strategy_gives_empty_context
    (a strategy : string) (max_tokens : Z) (w : World) :
  strategy <> "full" -> strategy <> "summary" ->
  strategy <> "hybrid" -> strategy <> "window" ->
  let r := get_conversation_context llm now_isoformat json_loads
             a strategy max_tokens w in
  ctx_history (fst r) = [] /\ ctx_summary (fst r) = ""
  /\ ctx_strategy (fst r) = strategy
  /\ snd r = snd (get_conversation_context llm now_isoformat json_loads
                    a "hybrid" max_tokens w).
Proof.
  intros H1 H2 H3 H4 r. subst r. unfold get_conversation_context.
  apply String.eqb_neq in H1, H2, H3, H4. rewrite H1, H2, H3, H4.
  destruct (generate_summary llm a w) as [s w1]. simpl.
  destruct (3 <? length (get_chat_history a w))%nat;
    destruct (get_user_profile llm now_isoformat json_loads a w1); auto.
Qed.

Lemma keys_once_default (ts : string) : keys_once (default_profile ts).
Proof. simpl. repeat split. Qed.

(** What the first read of a profile that is not stored does. *)
Lemma get_user_profile_first (a : string) (w : World) :
  stored_profile a w = None ->
  let ts := now_isoformat (clock_reads w) in
  let h := get_chat_history a w in
  let merged :=
    match h with
    | [] => default_profile ts
    | _ :: _ =>
        match llm (length (llm_calls w)) (profile_prompt h) with
        | Ok reply =>
            match json_loads reply with
            | Some other => fst (pydict_update (default_profile ts) other)
            | None => default_profile ts
            end
        | Raise _ => default_profile ts
        end
    end in
  fst (get_user_profile llm now_isoformat json_loads a w) = merged
  /\ stored_profile a (snd (get_user_profile llm now_isoformat json_loads a w))
     = Some (loads_dumps merged)
  /\ llm_calls (snd (get_user_profile llm now_isoformat json_loads a w))
     = llm_calls w ++ match h with [] => [] | _ :: _ => [profile_prompt h] end.
Proof.
  intros Hnone ts h merged. subst merged h ts.
  assert (Hh : get_chat_history a (tick w) = get_chat_history a w) by reflexivity.
  unfold get_user_profile. unfold stored_profile in *. rewrite Hnone.
  unfold datetime_now_isoformat. rewrite Hh.
  fold (default_profile (now_isoformat (clock_reads w))).
  destruct (get_chat_history a w) as [|m h] eqn:E.
  - simpl. rewrite app_nil_r. repeat split. apply get_setex. lia.
  - unfold ainvoke.
    change (length (llm_calls (tick w))) with (length (llm_calls w)).
    destruct (llm (length (llm_calls w)) (profile_prompt (m :: h))) as [reply|e].
    + destruct (json_loads reply) as [other|]; simpl; repeat split; apply get_setex; lia.
    + simpl. repeat split. apply get_setex. lia.
Qed.

(** X6. Once read, a profile is served from the store: a second
    [get_user_profile] changes nothing, so it neither calls the model nor
    reads the clock, and it returns the stored profile, which reads as what
    [json.dumps] wrote of the first result.  The two results are equal when
    every key of the first is a text, and always when the profile was stored
    before the first call; a key that is not a text (one taken from a pair
    in the reply of the model) comes back as its JSON text. *)
Theorem get_user_profile_twice (a : string) (w : World) :
  let first := get_user_profile llm now_isoformat json_loads a w in
  let second := get_user_profile llm now_isoformat json_loads a (snd first) in
  snd second = snd first
  /\ (exists stored,
        stored_profile a (snd first) = Some stored /\ fst second = of_dict stored)
  /\ (forall k, pydict_get (KStr k) (fst second) = dict_get k (loads_dumps (fst first)))
  /\ (text_keyed (fst first) = true -> fst second = fst first)
  /\ (is_Some (stored_profile a w) -> fst second = fst first).
Proof.
  intros first second. subst second first.
  destruct (stored_profile a w) as [d|] eqn:Hs.
  - assert (E : get_user_profile llm now_isoformat json_loads a w = (of_dict d, w)).
    { unfold get_user_profile. unfold stored_profile in Hs. rewrite Hs. reflexivity. }
    rewrite E. simpl. rewrite E. simpl.
    split; [reflexivity|]. split; [exists d; split; [exact Hs | reflexivity]|].
    split; [|split; reflexivity].
    intros k. rewrite dict_get_loads_dumps. apply pydict_get_of_dict.
  - destruct (get_user_profile_first a w Hs) as (Hfst & Hstored & _).
    cbv zeta in Hfst, Hstored.
    set (r := get_user_profile llm now_isoformat json_loads a w) in *.
    assert (E : get_user_profile llm now_isoformat json_loads a (snd r)
                = (of_dict (loads_dumps (fst r)), snd r)).
    { unfold get_user_profile at 1. unfold stored_profile in Hstored.
      rewrite Hstored, <- Hfst. reflexivity. }
    rewrite E. simpl.
    split; [reflexivity|].
    split; [eexists; split; [rewrite Hstored, <- Hfst; reflexivity | reflexivity]|].
    split; [intros k; apply pydict_get_of_dict|].
    split; [|intros [x Hx]; discriminate].
    intros Ht. apply of_dict_loads_dumps; [exact Ht|].
    rewrite Hfst.
    destruct (get_chat_history a w); [apply keys_once_default|].
    destruct (llm _ _) as [reply|e]; [|apply keys_once_default].
    destruct (json_loads reply); [|apply keys_once_default].
    apply keys_once_update. apply keys_once_default.
Qed.

(** X7. The first read of the profile of an account without history
    stores and returns the default profile, stamped with the clock, without
    calling the model.  With a history the model is asked once.  The default
    profile is kept as it is when the model fails, when its reply is not
    JSON and when the reply is a number, a boolean, null or a text; the
    entries of a reply that is an object are merged into it; of a reply that
    is a list, the pairs before the first element that is not a pair are
    merged, although [update] raises at that element.  In every case the
    five default keys are present in the result, and what is stored is the
    result as [json.dumps] writes it. *)
Theorem first_profile (a : string) (w : World) :
  stored_profile a w = None ->
  let r := get_user_profile llm now_isoformat json_loads a w in
  let ts := now_isoformat (clock_reads w) in
  let h := get_chat_history a w in
  let answer := llm (length (llm_calls w)) (profile_prompt h) in
  (h = [] -> fst r = default_profile ts /\ llm_calls (snd r) = llm_calls w)
  /\ (h <> [] ->
        llm_calls (snd r) = llm_calls w ++ [profile_prompt h]
        /\ (forall e, answer = Raise e -> fst r = default_profile ts)
        /\ (forall reply, answer = Ok reply -> json_loads reply = None ->
              fst r = default_profile ts)
        /\ (forall reply other, answer = Ok reply -> json_loads reply = Some other ->
              other = JNull \/ (exists b, other = JBool b) \/ (exists n, other = JInt n)
              \/ (exists s, other = JStr s) ->
              fst r = default_profile ts)
        /\ (forall reply e, answer = Ok reply -> json_loads reply = Some (JObj e) ->
              forall k,
                pydict_get (KStr k) (fst r)
                = match dict_get k (rev e) with
                  | Some v => Some v
                  | None => pydict_get (KStr k) (default_profile ts)
                  end)
        /\ (forall reply good bad rest,
              answer = Ok reply ->
              json_loads reply = Some (JArr (good ++ bad :: rest)) ->
              forallb is_pair good = true -> is_pair bad = false ->
              fst r = fst (pydict_update (default_profile ts) (JArr good))))
  /\ (is_Some (pydict_get (KStr "preferred_language") (fst r))
      /\ is_Some (pydict_get (KStr "legal_interests") (fst r))
      /\ is_Some (pydict_get (KStr "conversation_style") (fst r))
      /\ is_Some (pydict_get (KStr "last_active") (fst r))
      /\ is_Some (pydict_get (KStr "total_conversations") (fst r)))
  /\ stored_profile a (snd r) = Some (loads_dumps (fst r)).
Proof.
  intros Hnone r ts h answer.
  destruct (get_user_profile_first a w Hnone) as (Hfst & Hstored & Hcalls).
  cbv zeta in Hfst, Hstored, Hcalls. fold r ts h answer in Hfst, Hstored, Hcalls.
  split; [|split; [|split]].
  - intros Hh. rewrite Hfst, Hcalls, Hh. rewrite app_nil_r. split; reflexivity.
  - intros Hh. rewrite Hfst, Hcalls.
    destruct h as [|m h']; [congruence|].
    split; [reflexivity|]. split; [|split; [|split; [|split]]].
    + intros e He. rewrite He. reflexivity.
    + intros reply He Hl. rewrite He, Hl. reflexivity.
    + intros reply other He Hl Hshape. rewrite He, Hl.
      destruct Hshape as [-> | [[b ->] | [[n ->] | [s ->]]]]; reflexivity.
    + intros reply e He Hl k. rewrite He, Hl. apply pydict_get_update_object.
    + intros reply good bad rest He Hl Hg Hb. rewrite He, Hl.
      simpl. rewrite (merge_pairs_stops good bad rest _ Hg Hb). reflexivity.
  - rewrite Hfst.
    assert (Hd : forall k, is_Some (pydict_get (KStr k) (default_profile ts)) ->
                           is_Some (pydict_get (KStr k)
                                      match h with
                                      | [] => default_profile ts
                                      | _ :: _ =>
                                          match answer with
                                          | Ok reply =>
                                              match json_loads reply with
                                              | Some other =>
                                                  fst (pydict_update (default_profile ts) other)
                                              | None => default_profile ts
                                              end
                                          | Raise _ => default_profile ts
                                          end
                                      end)).
    { intros k Hk. destruct h; [exact Hk|].
      destruct answer as [reply|e]; [|exact Hk].
      destruct (json_loads reply); [|exact Hk].
      apply pydict_update_some. exact Hk. }
    repeat split; apply Hd; simpl; eauto.
  - rewrite Hstored, Hfst. reflexivity.
Qed.

End Environment.

(** The strategy name of a caller who writes it with a capital letter. *)
Lemma unknown_strategy_gives_empty_context_witness :
  ctx_history (fst (get_conversation_context Demo.llm_ok Demo.clock Demo.no_profile
                      Demo.account "Full" 1000 Demo.two_turns)) = []
  /\ ctx_summary (fst (get_conversation_context Demo.llm_ok Demo.clock Demo.no_profile
                         Demo.account "Full" 1000 Demo.two_turns)) = "".
Proof.
  assert (H1 : "Full" <> "full") by discriminate.
  assert (H2 : "Full" <> "summary") by discriminate.
  assert (H3 : "Full" <> "hybrid") by discriminate.
  assert (H4 : "Full" <> "window") by discriminate.
  pose proof (unknown_strategy_gives_empty_context Demo.llm_ok Demo.clock Demo.no_profile
                Demo.account "Full" 1000 Demo.two_turns H1 H2 H3 H4) as H.
  cbv zeta in H. destruct H as (Ha & Hb & _).
  split; [exact Ha | exact Hb].
Defined.

(** A reply with a pair whose key is a number: the first read returns the
    key as the number, the second returns it as a text. *)
Lemma get_user_profile_twice_witness :
  pydict_get (KInt 1)
    (fst (get_user_profile (ExtraDemo.llm_says ExtraDemo.reply_with_a_number_key)
            Demo.clock ExtraDemo.loads_replies Demo.account Demo.one_turn))
  = Some (JStr "个人")
  /\ pydict_get (KInt 1)
       (fst (get_user_profile (ExtraDemo.llm_says ExtraDemo.reply_with_a_number_key)
               Demo.clock ExtraDemo.loads_replies Demo.account
               (snd (get_user_profile
                       (ExtraDemo.llm_says ExtraDemo.reply_with_a_number_key)
                       Demo.clock ExtraDemo.loads_replies Demo.account Demo.one_turn))))
     = None
  /\ pydict_get (KStr "1")
       (fst (get_user_profile (ExtraDemo.llm_says ExtraDemo.reply_with_a_number_key)
               Demo.clock ExtraDemo.loads_replies Demo.account
               (snd (get_user_profile
                       (ExtraDemo.llm_says ExtraDemo.reply_with_a_number_key)
                       Demo.clock ExtraDemo.loads_replies Demo.account Demo.one_turn))))
     = Some (JStr "个人")
  /\ snd (get_user_profile (ExtraDemo.llm_says ExtraDemo.reply_with_a_number_key)
            Demo.clock ExtraDemo.loads_replies Demo.account
            (snd (get_user_profile
                    (ExtraDemo.llm_says ExtraDemo.reply_with_a_number_key)
                    Demo.clock ExtraDemo.loads_replies Demo.account Demo.one_turn)))
     = snd (get_user_profile (ExtraDemo.llm_says ExtraDemo.reply_with_a_number_key)
              Demo.clock ExtraDemo.loads_replies Demo.account Demo.one_turn).
Proof.
  pose proof (get_user_profile_twice
                (ExtraDemo.llm_says ExtraDemo.reply_with_a_number_key)
                Demo.clock ExtraDemo.loads_replies Demo.account Demo.one_turn) as H.
  cbv zeta in H. destruct H as (Hsame & _ & Hread & _ & _).
  split; [vm_compute; reflexivity|].
  split; [vm_compute; reflexivity|].
  split; [|exact Hsame].
  rewrite Hread. vm_compute. reflexivity.
Defined.

(** The first profile of an account with a history, when the model replies
    with a list whose second element is no pair: the pair before it is in
    the profile returned and stored. *)
Lemma first_profile_witness :
  length (get_chat_history Demo.account Demo.one_turn) = 2%nat
  /\ fst (get_user_profile (ExtraDemo.llm_says ExtraDemo.reply_with_a_stray_element)
            Demo.clock ExtraDemo.loads_replies Demo.account Demo.one_turn)
     = fst (pydict_update (default_profile (Demo.clock (clock_reads Demo.one_turn)))
              (JArr [JArr [JStr "user_type"; JStr "个人"]]))
  /\ pydict_get (KStr "user_type")
       (fst (get_user_profile (ExtraDemo.llm_says ExtraDemo.reply_with_a_stray_element)
               Demo.clock ExtraDemo.loads_replies Demo.account Demo.one_turn))
     = Some (JStr "个人")
  /\ option_map (dict_get "user_type")
       (stored_profile Demo.account
          (snd (get_user_profile (ExtraDemo.llm_says ExtraDemo.reply_with_a_stray_element)
                  Demo.clock ExtraDemo.loads_replies Demo.account Demo.one_turn)))
     = Some (Some (JStr "个人")).
Proof.
  assert (H0 : stored_profile Demo.account Demo.one_turn = None) by reflexivity.
  pose proof (first_profile (ExtraDemo.llm_says ExtraDemo.reply_with_a_stray_element)
                Demo.clock ExtraDemo.loads_replies Demo.account Demo.one_turn H0) as H.
  cbv zeta in H. destruct H as (_ & H & _ & Hstored).
  assert (Hh : get_chat_history Demo.account Demo.one_turn <> [])
    by (vm_compute; discriminate).
  destruct (H Hh) as (_ & _ & _ & _ & _ & Hlist).
  split; [vm_compute; reflexivity|].
  split.
  - apply (Hlist ExtraDemo.reply_with_a_stray_element
             [JArr [JStr "user_type"; JStr "个人"]] (JInt 5) []);
      [reflexivity | vm_compute; reflexivity | reflexivity | reflexivity].
  - split; [vm_compute; reflexivity|].
    rewrite Hstored. vm_compute. reflexivity.
Defined.

End ProfileExtras.

(** ** Persistence of a turn and the turn counter *)

Module PersistenceExtras.
Import Py Redis Json LegalService RedisFacts ServiceFacts SummaryFacts Views ExtraViews.
Import DictFacts ProfileExtras.

Lemma py_take_bound (n : nat) (s : string) : (py_len (py_take n s) <= n)%nat.
Proof.
  revert n. induction s as [|c s IH]; intros n; simpl; [lia|].
  destruct (is_continuation c) eqn:E; simpl.
  - rewrite E. apply IH.
  - destruct n as [|m]; simpl; [lia|]. rewrite E. specialize (IH m). lia.
Qed.

Lemma py_take_all (n : nat) (s : string) : (py_len s <= n)%nat -> py_take n s = s.
Proof.
  revert n. induction s as [|c s IH]; intros n; simpl; [reflexivity|].
  destruct (is_continuation c) eqn:E; intros H.
  - rewrite IH by exact H. reflexivity.
  - destruct n as [|m]; [lia|]. rewrite IH by lia. reflexivity.
Qed.

Lemma cap_snoc {A : Type} (n : nat) (l : list A) (x : A) :
  (if (S n <? length (l ++ [x]))%nat then last_n (S n) (l ++ [x]) else l ++ [x])
  = skipn (length l - n) l ++ [x].
Proof.
  unfold last_n. rewrite length_app. simpl length.
  destruct (Nat.ltb_spec (S n) (length l + 1)) as [H | H].
  - rewrite skipn_app.
    replace (length l + 1 - S n)%nat with (length l - n)%nat by lia.
    replace (length l - n - length l)%nat with 0%nat by lia. reflexivity.
  - replace (length l - n)%nat with 0%nat by lia. reflexivity.
Qed.

Section Environment.
Variable llm : nat -> string -> result string.
Variable now_isoformat : nat -> string.
Variable now_yyyymmdd : nat -> string.
Variable json_loads : string -> option json.

(** The usage statistics write the profile key space only. *)
Lemma update_user_profile_stats_frame (a : string) (w : World) :
  let w' := update_user_profile_stats llm now_isoformat json_loads a w in
  chat_history w' = chat_history w /\ chat_summary w' = chat_summary w /\
  summary_hash w' = summary_hash w /\ conv_count w' = conv_count w /\
  conv_metadata w' = conv_metadata w /\ redis_time w' = redis_time w.
Proof.
  unfold update_user_profile_stats.
  pose proof (get_user_profile_frame llm now_isoformat json_loads a w) as H.
  destruct (get_user_profile llm now_isoformat json_loads a w) as [p w1].
  simpl in H. destruct (plus_one _); [|exact H].
  unfold datetime_now_isoformat. simpl. exact H.
Qed.

(** X8. The usage statistics of a stored profile: an integer count grows
    by one and last_active takes the reading of the clock, every other entry
    is kept and no model is called; a count that is missing starts at one;
    a count that is neither an integer nor a boolean blocks the update, and
    nothing at all is written. *)
Theorem profile_stats (a : string) (p : dict) (w : World) :
  stored_profile a w = Some p ->
  let w' := update_user_profile_stats llm now_isoformat json_loads a w in
  (forall n : Z,
      plus_one (dict_get "total_conversations" p) = Some n ->
      exists p',
        stored_profile a w' = Some p'
        /\ dict_get "total_conversations" p' = Some (JInt n)
        /\ dict_get "last_active" p' = Some (JStr (now_isoformat (clock_reads w)))
        /\ (forall k, k <> "total_conversations" -> k <> "last_active" ->
                      dict_get k p' = dict_get k p)
        /\ llm_calls w' = llm_calls w)
  /\ (forall n : Z, dict_get "total_conversations" p = Some (JInt n) ->
                    plus_one (dict_get "total_conversations" p) = Some (n + 1))
  /\ (dict_get "total_conversations" p = None ->
        plus_one (dict_get "total_conversations" p) = Some 1)
  /\ (plus_one (dict_get "total_conversations" p) = None -> w' = w).
Proof.
  intros Hp w'. subst w'. unfold stored_profile in Hp.
  unfold update_user_profile_stats, get_user_profile. rewrite Hp.
  rewrite pydict_get_of_dict.
  split; [|split; [|split]].
  - intros n Hn. rewrite Hn. unfold datetime_now_isoformat.
    rewrite !pydict_set_of_dict.
    eexists. split.
    + unfold stored_profile. simpl. apply get_setex. lia.
    + split; [|split; [|split]].
      * rewrite dict_get_loads_dumps.
        rewrite dict_get_set_ne by discriminate. apply dict_get_set_eq.
      * rewrite dict_get_loads_dumps. apply dict_get_set_eq.
      * intros k H1 H2. rewrite dict_get_loads_dumps.
        rewrite !dict_get_set_ne by congruence. reflexivity.
      * reflexivity.
  - intros n ->. reflexivity.
  - intros ->. reflexivity.
  - intros ->. reflexivity.
Qed.

(** [save_conversation] with a metadata mapping that is not empty, on a
    clock whose day stamp is not empty. *)
Lemma save_conversation_unfold (a u r : string) (kv : string * json) (d : dict)
    (w : World) :
  let w1 := save_chat_messages now_isoformat a u r w in
  let day := now_yyyymmdd (2 + clock_reads w)%nat in
  let ts := now_isoformat (3 + clock_reads w)%nat in
  let old := match metadata_log a day w with Some l => l | None => [] end in
  truthy day = true ->
  save_conversation llm now_isoformat now_yyyymmdd json_loads a u r
    (Some (kv :: d)) w
  = update_user_profile_stats llm now_isoformat json_loads a
      (with_conv_metadata
         (Redis.setex (redis_time w) ("conv_metadata:" +:+ a +:+ ":" +:+ day)
            (86400 * 30)
            (skipn (length old - 99) old ++ [metadata_record ts u r (kv :: d)]))
         (tick (tick w1))).
Proof.
  intros w1 day ts old Hday.
  unfold save_conversation. fold w1.
  unfold datetime_now_yyyymmdd, get_metadata_key, datetime_now_isoformat.
  cbn [opt_truthy or_empty].
  change (clock_reads w1) with (2 + clock_reads w)%nat. fold day. rewrite Hday.
  cbn [or_empty].
  change (clock_reads (tick w1)) with (3 + clock_reads w)%nat. fold ts.
  fold (metadata_record ts u r (kv :: d)).
  change (Redis.get (redis_time (tick w1)) (conv_metadata (tick w1))
            ("conv_metadata:" +:+ a +:+ ":" +:+ day))
    with (metadata_log a day w). fold old.
  rewrite (cap_snoc 99 old (metadata_record ts u r (kv :: d))).
  reflexivity.
Qed.

(** X9. [save_conversation] stores the two messages as
    [save_chat_messages] does.  With an empty or missing metadata mapping
    the metadata log is not touched.  Otherwise the log of the day gets one
    record more at its end, holding at most the first 100 characters of the
    user input and the length of the response, and is cut to its last 100
    records. *)
Theorem save_conversation_log (a u r : string) (md : option dict) (w : World) :
  let w' := save_conversation llm now_isoformat now_yyyymmdd json_loads a u r md w in
  let day := now_yyyymmdd (2 + clock_reads w)%nat in
  let ts := now_isoformat (3 + clock_reads w)%nat in
  let old := match metadata_log a day w with Some l => l | None => [] end in
  (md = None \/ md = Some [] ->
     conv_metadata w' = conv_metadata w
     /\ get_chat_history a w'
        = get_chat_history a (save_chat_messages now_isoformat a u r w))
  /\ (forall d, md = Some d -> d <> [] -> truthy day = true ->
        metadata_log a day w'
        = Some (skipn (length old - 99) old ++ [metadata_record ts u r d])
        /\ (length (skipn (length old - 99) old ++ [metadata_record ts u r d])
            <= 100)%nat
        /\ (py_len (py_take 100 u) <= 100)%nat
        /\ ((py_len u <= 100)%nat -> py_take 100 u = u)
        /\ get_chat_history a w'
           = get_chat_history a (save_chat_messages now_isoformat a u r w)).
Proof.
  intros w' day ts old. subst w'. split.
  - intros Hmd.
    assert (E : save_conversation llm now_isoformat now_yyyymmdd json_loads a u r md w
                = update_user_profile_stats llm now_isoformat json_loads a
                    (save_chat_messages now_isoformat a u r w))
      by (destruct Hmd as [-> | ->]; reflexivity).
    rewrite E.
    destruct (update_user_profile_stats_frame a
                (save_chat_messages now_isoformat a u r w))
      as (F1 & _ & _ & _ & F5 & F6).
    split; [rewrite F5; reflexivity|].
    apply get_chat_history_frame; assumption.
  - intros d -> Hd Hday. destruct d as [|kv d]; [congruence|].
    pose proof (save_conversation_unfold a u r kv d w Hday) as E.
    cbv zeta in E. fold day ts old in E. unfold dict in *. rewrite E. clear E.
    match goal with
    | |- context [update_user_profile_stats _ _ _ a ?x] =>
        destruct (update_user_profile_stats_frame a x) as (F1 & _ & _ & _ & F5 & F6)
    end.
    split; [|split; [|split; [|split]]].
    + unfold metadata_log. rewrite F5, F6. simpl.
      apply get_setex. lia.
    + rewrite length_app, length_skipn. simpl. lia.
    + apply py_take_bound.
    + apply py_take_all.
    + rewrite (get_chat_history_frame a _ _ F1 F6). reflexivity.
Qed.

(** X10. The turn counter wraps: counted from zero, after [n] maintenance
    calls it holds [n] modulo 100, so it never leaves the range 0 to 99,
    whatever the calls find in the store. *)
Theorem counter_wraps (a : string) (n : nat) (w : World) :
  counter a w = 0 ->
  counter a (maintenance llm a n w) = Z.of_nat n mod 100
  /\ 0 <= counter a (maintenance llm a n w) < 100.
Proof.
  intros H0.
  rewrite (SummaryProperties.counter_after_maintenance llm a n w H0).
  split; [reflexivity|]. apply Z.mod_pos_bound. lia.
Qed.

(** X11. A forced maintenance call enters the summary engine whatever
    value the counter takes, as long as [INCR] succeeds: it returns what
    [generate_summary] returns and makes the model calls it makes; the
    counter is incremented all the same, and reset once it has reached 100.
    When the counter cannot be incremented, because it stands at the largest
    64-bit integer or outside the range, forcing does not help: the [except]
    clause returns the empty text, the summary engine is not entered and
    nothing has changed. *)
Theorem forced_update (a : string) (w : World) :
  let c := counter a w + 1 in
  let r := update_conversation_summary llm a true w in
  (int64_min <= counter a w < int64_max ->
     fst r = fst (generate_summary llm a w)
     /\ llm_calls (snd r) = llm_calls (snd (generate_summary llm a w))
     /\ chat_summary (snd r) = chat_summary (snd (generate_summary llm a w))
     /\ counter a (snd r) = (if 100 <=? c then 0 else c))
  /\ (counter a w < int64_min \/ int64_max <= counter a w -> r = ("", w)).
Proof.
  intros c r. subst r. split.
  - intros Hr.
    pose proof (SummaryProperties.counter_after_call llm a true w Hr) as Hc.
    simpl in Hc. fold c in Hc.
    rewrite (SummaryProperties.update_conversation_summary_cases llm a true w Hr) in *.
    cbv zeta. simpl orb. cbv iota. fold c. simpl fst. simpl snd.
    split; [reflexivity|]. split; [destruct (100 <=? c); reflexivity|].
    split; [destruct (100 <=? c); reflexivity|].
    cbv zeta in Hc. simpl orb in Hc. cbv iota in Hc. fold c in Hc. simpl snd in Hc.
    exact Hc.
  - intros Hr. apply SummaryProperties.update_conversation_summary_fails. exact Hr.
Qed.

End Environment.

(** The statistics after the first turn of a new account. *)
Lemma profile_stats_witness :
  exists p',
    stored_profile Demo.account
      (update_user_profile_stats Demo.llm_ok Demo.clock Demo.no_profile Demo.account
         (snd (get_user_profile Demo.llm_ok Demo.clock Demo.no_profile Demo.account
                 empty_world))) = Some p'
    /\ dict_get "total_conversations" p' = Some (JInt 1).
Proof.
  assert (Hp : stored_profile Demo.account
                 (snd (get_user_profile Demo.llm_ok Demo.clock Demo.no_profile
                         Demo.account empty_world))
               = Some (loads_dumps (default_profile (Demo.clock 0%nat))))
    by (vm_compute; reflexivity).
  pose proof (profile_stats Demo.llm_ok Demo.clock Demo.no_profile Demo.account _ _ Hp)
    as H.
  cbv zeta in H. destruct H as (H & _).
  destruct (H 1 eq_refl) as (p' & H1 & H2 & _).
  exists p'. split; [exact H1 | exact H2].
Defined.

(** The first record of the metadata log of a day. *)
Lemma save_conversation_log_witness :
  metadata_log Demo.account "20240501"
    (save_conversation Demo.llm_ok Demo.clock Demo.today Demo.no_profile Demo.account
       "公司辞退我需要赔偿吗" "应当支付经济补偿。" (Some [("tool_calls", JArr [])])
       empty_world)
  = Some [metadata_record (Demo.clock 3%nat) "公司辞退我需要赔偿吗" "应当支付经济补偿。"
            [("tool_calls", JArr [])]].
Proof.
  pose proof (save_conversation_log Demo.llm_ok Demo.clock Demo.today Demo.no_profile
                Demo.account "公司辞退我需要赔偿吗" "应当支付经济补偿。"
                (Some [("tool_calls", JArr [])]) empty_world) as H.
  cbv zeta in H. destruct H as (_ & H).
  assert (Hd : [("tool_calls", JArr [])] <> @nil (string * json)) by discriminate.
  destruct (H _ eq_refl Hd eq_refl) as (H1 & _).
  exact H1.
Defined.

(** The counter of a new account around its hundredth maintenance call,
    and after two hundred and five calls. *)
Lemma counter_wraps_witness :
  counter Demo.account (maintenance Demo.llm_ok Demo.account 99 empty_world) = 99
  /\ counter Demo.account (maintenance Demo.llm_ok Demo.account 100 empty_world) = 0
  /\ counter Demo.account (maintenance Demo.llm_ok Demo.account 205 empty_world) = 5.
Proof.
  assert (H0 : counter Demo.account empty_world = 0) by reflexivity.
  destruct (counter_wraps Demo.llm_ok Demo.account 99 empty_world H0) as [H99 _].
  destruct (counter_wraps Demo.llm_ok Demo.account 100 empty_world H0) as [H100 _].
  destruct (counter_wraps Demo.llm_ok Demo.account 205 empty_world H0) as [H205 _].
  rewrite H99, H100, H205. repeat split.
Defined.

(** A forced call on the second turn of an account, and a forced call on a
    counter that stands at the largest 64-bit integer. *)
Lemma forced_update_witness :
  (counter Demo.account Demo.two_turns = 0
   /\ fst (update_conversation_summary Demo.llm_ok Demo.account true Demo.two_turns)
      = fst (generate_summary Demo.llm_ok Demo.account Demo.two_turns)
   /\ counter Demo.account
        (snd (update_conversation_summary Demo.llm_ok Demo.account true Demo.two_turns))
      = 1)
  /\ counter Demo.account ExtraDemo.counter_at_the_limit = 9223372036854775807
  /\ update_conversation_summary Demo.llm_ok Demo.account true
       ExtraDemo.counter_at_the_limit
     = ("", ExtraDemo.counter_at_the_limit).
Proof.
  pose proof (forced_update Demo.llm_ok Demo.account Demo.two_turns) as H.
  pose proof (forced_update Demo.llm_ok Demo.account ExtraDemo.counter_at_the_limit) as H'.
  cbv zeta in H, H'. destruct H as [H _]. destruct H' as [_ H'].
  assert (H0 : counter Demo.account Demo.two_turns = 0) by reflexivity.
  assert (Hl : counter Demo.account ExtraDemo.counter_at_the_limit = 9223372036854775807)
    by reflexivity.
  split.
  - split; [exact H0|].
    assert (Hr : int64_min <= counter Demo.account Demo.two_turns < int64_max)
      by (rewrite H0; unfold int64_min, int64_max; lia).
    destruct (H Hr) as (H1 & _ & _ & H4).
    split; [exact H1|]. rewrite H4, H0. reflexivity.
  - split; [exact Hl|].
    apply H'. right. rewrite Hl. unfold int64_max. lia.
Defined.

End PersistenceExtras.

(** ** The turn: answers, handled failures, persistence *)

Module TurnExtras.
Import Py Redis Json LegalService LegalAgent RedisFacts ServiceFacts SummaryFacts.
Import Views ExtraViews.

Lemma consume_outputs (cs : list Chunk) (acc : list string * list json) :
  fst (fold_left consume_chunk cs acc) = fst acc ++ outputs cs.
Proof.
  revert acc. induction cs as [|c cs IH]; intros [full log]; simpl.
  - rewrite app_nil_r. reflexivity.
  - rewrite IH. unfold outputs. simpl.
    destruct (output c) as [token|]; simpl.
    + rewrite <- app_assoc. reflexivity.
    + destruct (intermediate_steps c); reflexivity.
Qed.

Section Environment.
Variable llm : nat -> string -> result string.
Variable now_isoformat : nat -> string.
Variable now_yyyymmdd : nat -> string.
Variable json_loads : string -> option json.

(** The turn when the agent's stream ends normally. *)
Lemma chat_with_legal_agent_success
    (agent : AgentInput -> AgentRun) (a input_text : string) (w : World) :
  let i := turn_input llm now_isoformat json_loads a input_text w in
  let tokens := fst (consume (chunks (agent (fst i)))) in
  failure (agent (fst i)) = None ->
  let t := chat_with_legal_agent llm now_isoformat json_loads agent a input_text w in
  yielded t = tokens /\ escaped t = None /\ exit_taken t = Completed
  /\ (tokens = [] -> scheduled t = [] /\ world t = snd i)
  /\ (tokens <> [] ->
        world t = tick (snd i)
        /\ exists md,
             scheduled t = [SaveConversation a input_text (join tokens) md;
                            UpdateConversationSummary a]
             /\ dict_get "timestamp" md
                = Some (JStr (now_isoformat (clock_reads (snd i))))
             /\ is_Some (dict_get "tool_calls" md)
             /\ is_Some (dict_get "context_used" md)).
Proof.
  unfold turn_input, chat_with_legal_agent.
  destruct (get_conversation_context llm now_isoformat json_loads a "hybrid" 1000 w)
    as [context w1].
  destruct (get_user_profile llm now_isoformat json_loads a w1) as [profile w2].
  simpl. intros H.
  destruct (consume _) as [full_response tool_calls_log]. rewrite H. simpl.
  destruct full_response as [|tok rest]; simpl.
  - repeat split; congruence.
  - repeat split; try congruence.
    eexists. split; [reflexivity|]. simpl. repeat split; eauto.
Qed.

(** X12. When the agent's stream ends normally the turn yields the
    strings of its output chunks, in order, and nothing else.  With at least
    one output chunk it schedules the persistence of the user input with the
    concatenated response, and then the summary maintenance; with none it
    yields nothing and schedules nothing, so that the user input is not
    persisted. *)
Theorem answered_turn_outcome
    (agent : AgentInput -> AgentRun) (a input_text : string) (w : World) :
  let i := turn_input llm now_isoformat json_loads a input_text w in
  let tokens := outputs (chunks (agent (fst i))) in
  failure (agent (fst i)) = None ->
  let t := chat_with_legal_agent llm now_isoformat json_loads agent a input_text w in
  yielded t = tokens /\ escaped t = None /\ exit_taken t = Completed
  /\ (tokens = [] -> scheduled t = [] /\ world t = snd i)
  /\ (tokens <> [] ->
        exists md,
          scheduled t = [SaveConversation a input_text (join tokens) md;
                         UpdateConversationSummary a]).
Proof.
  intros i tokens H t.
  assert (E : fst (consume (chunks (agent (fst i)))) = tokens)
    by (unfold consume; rewrite consume_outputs; reflexivity).
  destruct (chat_with_legal_agent_success agent a input_text w H)
    as (H1 & H2 & H3 & H4 & H5).
  fold i in H1, H4, H5. rewrite E in H1, H4, H5.
  split; [exact H1|]. split; [exact H2|]. split; [exact H3|]. split; [exact H4|].
  intros Hne. destruct (H5 Hne) as (_ & md & Hs & _). exists md. exact Hs.
Qed.

(** X13. Failures other than a timeout: a message that contains rate
    limit, in any letter case, gives the busy apology, and this test comes
    first, so that the history is kept even if the message speaks of the
    context length too; a message with neither text gives the generic
    apology.  In both cases the apology follows the tokens already
    streamed, nothing is scheduled and no exception leaves the turn. *)
Theorem handled_failure
    (agent : AgentInput -> AgentRun) (a input_text text : string) (w : World) :
  let i := turn_input llm now_isoformat json_loads a input_text w in
  let tokens := outputs (chunks (agent (fst i))) in
  failure (agent (fst i)) = Some (OtherError text) ->
  let t := chat_with_legal_agent llm now_isoformat json_loads agent a input_text w in
  (contains "rate limit" (lower text) = true ->
     yielded t = tokens ++ [busy_apology] /\ world t = snd i
     /\ get_chat_history a (world t) = get_chat_history a w
     /\ scheduled t = [] /\ escaped t = None)
  /\ (contains "rate limit" (lower text) = false ->
      contains "context length" (lower text) = false ->
        yielded t = tokens ++ [generic_apology] /\ world t = snd i
        /\ get_chat_history a (world t) = get_chat_history a w
        /\ scheduled t = [] /\ escaped t = None).
Proof.
  intros i tokens H t. subst t.
  assert (E : fst (consume (chunks (agent (fst i)))) = tokens)
    by (unfold consume; rewrite consume_outputs; reflexivity).
  rewrite (TurnProperties.chat_with_legal_agent_failure
             llm now_isoformat json_loads agent a input_text w _ H).
  fold i. rewrite E. unfold except_clauses.
  destruct (TurnProperties.turn_input_frame llm now_isoformat json_loads
              a input_text w) as (F1 & _ & _ & F4).
  fold i in F1, F4.
  split.
  - intros ->. simpl. repeat split. apply get_chat_history_frame; assumption.
  - intros -> ->. simpl. repeat split. apply get_chat_history_frame; assumption.
Qed.

(** The history once [save_conversation] has run, whatever the metadata. *)
Lemma save_conversation_history (a u r : string) (md : option dict) (w : World) :
  get_chat_history a
    (save_conversation llm now_isoformat now_yyyymmdd json_loads a u r md w)
  = get_chat_history a (save_chat_messages now_isoformat a u r w).
Proof.
  unfold save_conversation.
  match goal with
  | |- get_chat_history a (update_user_profile_stats _ _ _ a ?x) = _ =>
      destruct (PersistenceExtras.update_user_profile_stats_frame
                  llm now_isoformat json_loads a x) as (F1 & _ & _ & _ & _ & F6);
      rewrite (get_chat_history_frame a x _ F1 F6)
  end.
  destruct md as [[|kv d]|]; [reflexivity| |reflexivity].
  unfold datetime_now_yyyymmdd, get_metadata_key, datetime_now_isoformat.
  cbn [opt_truthy or_empty].
  destruct (truthy _); reflexivity.
Qed.

(** X14. A turn and its tasks: when an answered turn has yielded at least
    one token and the two tasks it scheduled have run, the history of the
    account ends with the user input and then the whole response, after
    what is kept of the history the turn started from. *)
Theorem answered_turn_is_persisted
    (agent : AgentInput -> AgentRun) (a input_text : string) (w : World) :
  let i := turn_input llm now_isoformat json_loads a input_text w in
  let tokens := outputs (chunks (agent (fst i))) in
  failure (agent (fst i)) = None ->
  tokens <> [] ->
  let t := chat_with_legal_agent llm now_isoformat json_loads agent a input_text w in
  let h' := get_chat_history a
              (settle llm now_isoformat now_yyyymmdd json_loads t) in
  exists (n : nat) (mu ma : Message),
    h' = skipn n (get_chat_history a w) ++ [mu; ma]
    /\ role mu = "user" /\ content mu = input_text
    /\ role ma = "assistant" /\ content ma = join tokens.
Proof.
  intros i tokens H Hne t h'.
  assert (E : fst (consume (chunks (agent (fst i)))) = tokens)
    by (unfold consume; rewrite consume_outputs; reflexivity).
  destruct (chat_with_legal_agent_success agent a input_text w H)
    as (_ & _ & _ & _ & H5).
  fold i in H5. rewrite E in H5. destruct (H5 Hne) as (Hw & md & Hs & _).
  fold t in Hw, Hs.
  assert (Hh : h' = get_chat_history a
                      (save_chat_messages now_isoformat a input_text (join tokens)
                         (world t))).
  { unfold h', settle. rewrite Hs. simpl.
    destruct (update_conversation_summary llm a false
                (save_conversation llm now_isoformat now_yyyymmdd json_loads a
                   input_text (join tokens) (Some md) (world t))) as [s wf] eqn:Eu.
    assert (F : chat_history wf = chat_history
                  (save_conversation llm now_isoformat now_yyyymmdd json_loads a
                     input_text (join tokens) (Some md) (world t))
                /\ redis_time wf = redis_time
                  (save_conversation llm now_isoformat now_yyyymmdd json_loads a
                     input_text (join tokens) (Some md) (world t))).
    { apply (f_equal snd) in Eu. simpl in Eu. rewrite <- Eu.
      unfold update_conversation_summary.
      match goal with
      | |- context [match ?r with Ok _ => _ | Raise _ => _ end] =>
          destruct r as [count|e]; [|split; reflexivity]
      end.
      match goal with
      | |- context [if ?b then _ else _] => destruct b
      end.
      - match goal with
        | |- context [generate_summary llm a ?x] =>
            destruct (generate_summary_frame llm a x) as (G1 & _ & _ & _ & G5 & _);
            destruct (generate_summary llm a x) as [s' w']
        end.
        simpl in G1, G5. simpl.
        match goal with
        | |- context [if ?b then _ else _] => destruct b
        end; simpl; split; assumption.
      - simpl. split; reflexivity. }
    destruct F as [F1 F2].
    simpl. rewrite (get_chat_history_frame a _ _ F1 F2).
    apply save_conversation_history. }
  destruct (StoreExtras.save_chat_messages_history now_isoformat a input_text
              (join tokens) (world t)) as (n & mu & ma & Hn & R1 & R2 & R3 & R4 & _).
  rewrite <- Hh in Hn.
  destruct (TurnProperties.turn_input_frame llm now_isoformat json_loads
              a input_text w) as (F1 & _ & _ & F4).
  fold i in F1, F4.
  assert (Hsame : get_chat_history a (world t) = get_chat_history a w).
  { rewrite Hw. apply get_chat_history_frame; assumption. }
  rewrite Hsame in Hn.
  exists n, mu, ma. repeat split; assumption.
Qed.

End Environment.

(** The answer of [Demo.agent_answers] to a first question. *)
Lemma answered_turn_outcome_witness :
  yielded (chat_with_legal_agent Demo.llm_ok Demo.clock Demo.no_profile
             Demo.agent_answers Demo.account "公司辞退我需要赔偿吗" empty_world)
  = ["应当支付"; "经济补偿。"]
  /\ escaped (chat_with_legal_agent Demo.llm_ok Demo.clock Demo.no_profile
                Demo.agent_answers Demo.account "公司辞退我需要赔偿吗" empty_world)
     = None.
Proof.
  assert (H : failure (Demo.agent_answers
                         (fst (turn_input Demo.llm_ok Demo.clock Demo.no_profile
                                 Demo.account "公司辞退我需要赔偿吗" empty_world)))
              = None) by reflexivity.
  pose proof (answered_turn_outcome Demo.llm_ok Demo.clock Demo.no_profile Demo.agent_answers
                Demo.account "公司辞退我需要赔偿吗" empty_world H) as T.
  cbv zeta in T. destruct T as (T1 & T2 & _).
  split; [exact T1 | exact T2].
Defined.

(** A throttled request whose message also names the context length: the
    busy apology, and the history is still there. *)
Lemma handled_failure_witness :
  yielded (chat_with_legal_agent Demo.llm_ok Demo.clock Demo.no_profile
             ExtraDemo.agent_throttled Demo.account "补偿金怎么计算" Demo.one_turn)
  = ["根据"; busy_apology]
  /\ get_chat_history Demo.account
       (world (chat_with_legal_agent Demo.llm_ok Demo.clock Demo.no_profile
                 ExtraDemo.agent_throttled Demo.account "补偿金怎么计算" Demo.one_turn))
     = get_chat_history Demo.account Demo.one_turn.
Proof.
  assert (H : failure (ExtraDemo.agent_throttled
                         (fst (turn_input Demo.llm_ok Demo.clock Demo.no_profile
                                 Demo.account "补偿金怎么计算" Demo.one_turn)))
              = Some (OtherError "Rate Limit reached, context length 8192"))
    by reflexivity.
  pose proof (handled_failure Demo.llm_ok Demo.clock Demo.no_profile
                ExtraDemo.agent_throttled Demo.account "补偿金怎么计算"
                "Rate Limit reached, context length 8192" Demo.one_turn H) as T.
  cbv zeta in T. destruct T as (T & _).
  assert (Hr : contains "rate limit" (lower "Rate Limit reached, context length 8192")
               = true) by (vm_compute; reflexivity).
  destruct (T Hr) as (T1 & _ & T3 & _).
  split; [exact T1 | exact T3].
Defined.

(** The first turn of an account, once its tasks have run. *)
Lemma answered_turn_is_persisted_witness :
  exists (n : nat) (mu ma : Message),
    get_chat_history Demo.account
      (settle Demo.llm_ok Demo.clock Demo.today Demo.no_profile
         (chat_with_legal_agent Demo.llm_ok Demo.clock Demo.no_profile
            Demo.agent_answers Demo.account "公司辞退我需要赔偿吗" empty_world))
    = skipn n (get_chat_history Demo.account empty_world) ++ [mu; ma]
    /\ content mu = "公司辞退我需要赔偿吗"
    /\ content ma = "应当支付经济补偿。".
Proof.
  assert (H : failure (Demo.agent_answers
                         (fst (turn_input Demo.llm_ok Demo.clock Demo.no_profile
                                 Demo.account "公司辞退我需要赔偿吗" empty_world)))
              = None) by reflexivity.
  assert (Hne : outputs (chunks (Demo.agent_answers
                                   (fst (turn_input Demo.llm_ok Demo.clock
                                           Demo.no_profile Demo.account
                                           "公司辞退我需要赔偿吗" empty_world))))
                <> []) by discriminate.
  pose proof (answered_turn_is_persisted Demo.llm_ok Demo.clock Demo.today
                Demo.no_profile Demo.agent_answers Demo.account
                "公司辞退我需要赔偿吗" empty_world H Hne) as T.
  cbv zeta in T. destruct T as (n & mu & ma & T1 & _ & T3 & _ & T5).
  exists n, mu, ma. split; [exact T1|]. split; [exact T3 | exact T5].
Defined.

End TurnExtras.

(** ** The response stream *)

Module StreamExtras.
Import Py Json LegalAgent PyFacts Views ExtraViews StreamProperties.

Lemma no_byte_below_32_app (a b : string) :
  no_byte_below_32 (a +:+ b) = no_byte_below_32 a && no_byte_below_32 b.
Proof.
  induction a as [|c a IH]; [reflexivity|].
  rewrite append_cons. simpl. rewrite IH, andb_assoc. reflexivity.
Qed.

(** Whatever the byte, the serialiser writes no byte below 32 for it. *)
Lemma escaped_byte_is_not_below_32 (a : ascii) :
  no_byte_below_32 (if byte_val a <? 128 then escape_byte false a
                   else String a EmptyString) = true.
Proof.
  destruct a as [[] [] [] [] [] [] [] []]; vm_compute; reflexivity.
Qed.

Lemma escape_raw_is_not_below_32 (s : string) : no_byte_below_32 (escape_raw s) = true.
Proof.
  induction s as [|a s IH]; [reflexivity|].
  change (escape_raw (String a s))
    with ((if byte_val a <? 128 then escape_byte false a else String a EmptyString)
          +:+ escape_raw s).
  rewrite no_byte_below_32_app, escaped_byte_is_not_below_32, IH. reflexivity.
Qed.

Lemma newline_is_no_prefix (a : ascii) (s : string) :
  (32 <=? byte_val a) = true -> String.prefix nl (String a s) = false.
Proof.
  destruct a as [[] [] [] [] [] [] [] []]; intros Ha;
    first [reflexivity | vm_compute in Ha; discriminate].
Qed.

Lemma carriage_return_is_no_prefix (a : ascii) (s : string) :
  (32 <=? byte_val a) = true -> String.prefix carriage_return (String a s) = false.
Proof.
  destruct a as [[] [] [] [] [] [] [] []]; intros Ha;
    first [reflexivity | vm_compute in Ha; discriminate].
Qed.

(** X15. A frame cannot be broken into two by its content: whatever the
    chunk holds (line feeds, carriage returns, quotes, other control
    characters), the JSON text of its frame holds no byte below 32, so
    neither a line feed nor a carriage return, and the only line ends of a
    frame are the two line feeds that close it.  DEL is not among the
    characters the serialiser escapes: it is written as it is. *)
Theorem frame_has_no_inner_newline (chunk : string) :
  frame chunk = "data: " +:+ payload chunk +:+ nl +:+ nl
  /\ no_byte_below_32 ("data: " +:+ payload chunk) = true
  /\ contains nl ("data: " +:+ payload chunk) = false
  /\ contains carriage_return ("data: " +:+ payload chunk) = false
  /\ contains delete_character (payload delete_character) = true.
Proof.
  assert (H : no_byte_below_32 ("data: " +:+ payload chunk) = true).
  { unfold payload, quote. rewrite !no_byte_below_32_app.
    rewrite escape_raw_is_not_below_32. reflexivity. }
  split; [apply frame_payload|]. split; [exact H|].
  split; [|split; [|vm_compute; reflexivity]].
  - revert H. generalize ("data: " +:+ payload chunk). intros s.
    induction s as [|a s IH]; [reflexivity|].
    simpl no_byte_below_32. intros Hs. apply andb_true_iff in Hs. destruct Hs as [Ha Hs].
    change (contains nl (String a s))
      with (String.prefix nl (String a s) || contains nl s).
    rewrite (IH Hs), orb_false_r. apply newline_is_no_prefix. exact Ha.
  - revert H. generalize ("data: " +:+ payload chunk). intros s.
    induction s as [|a s IH]; [reflexivity|].
    simpl no_byte_below_32. intros Hs. apply andb_true_iff in Hs. destruct Hs as [Ha Hs].
    change (contains carriage_return (String a s))
      with (String.prefix carriage_return (String a s) || contains carriage_return s).
    rewrite (IH Hs), orb_false_r. apply carriage_return_is_no_prefix. exact Ha.
Qed.

Lemma frame_is_not_the_sentinel (c : string) : frame c <> done_frame.
Proof.
  rewrite frame_payload. unfold payload, done_frame. intros H. inversion H.
Qed.

(** The frames of a stream end with the sentinel exactly when no exception
    cut it. *)
Lemma stream_frames_end (tokens : list string) (e : option exn) :
  (last (stream_frames tokens e) = Some done_frame <-> e = None)
  /\ (forall x, e = Some x ->
        stream_frames tokens e = map frame (fst (coalesce "" tokens))).
Proof.
  assert (Hcut : forall x, e = Some x ->
                   stream_frames tokens e = map frame (fst (coalesce "" tokens))).
  { intros x ->. unfold stream_frames. rewrite stream_loop_coalesce. reflexivity. }
  split; [|exact Hcut].
  destruct e as [x|].
  - split; [|discriminate]. rewrite (Hcut x eq_refl).
    intros H. exfalso.
    destruct (fst (coalesce "" tokens)) as [|c l] using rev_ind; [discriminate|].
    rewrite map_app in H. simpl in H. rewrite last_snoc in H.
    apply (inj Some) in H. exact (frame_is_not_the_sentinel c H).
  - split; [reflexivity|]. intros _.
    unfold stream_frames. rewrite stream_loop_coalesce.
    rewrite app_assoc. apply last_snoc.
Qed.

(** X16. The response ends with the sentinel exactly when no exception
    left the turn; a response cut by an exception holds the frames sent so
    far and nothing else: the chunk pending at that point is lost and no
    sentinel follows. *)
Theorem sentinel_iff_no_exception
    (llm : nat -> string -> result string) (now_isoformat : nat -> string)
    (json_loads : string -> option json)
    (agent : AgentInput -> AgentRun) (a input_text : string) (w : World) :
  let t := chat_with_legal_agent llm now_isoformat json_loads agent a input_text w in
  let r := generate_stream_response llm now_isoformat json_loads
             agent a input_text w in
  (last (fst (fst r)) = Some done_frame <-> snd (fst r) = None)
  /\ snd (fst r) = escaped t
  /\ (forall x, escaped t = Some x ->
        fst (fst r) = map frame (fst (coalesce "" (yielded t)))).
Proof.
  intros t r. subst r. unfold generate_stream_response. fold t. simpl.
  destruct (stream_frames_end (yielded t) (escaped t)) as [H1 H2].
  split; [exact H1|]. split; [reflexivity | exact H2].
Qed.

(** X17. The re-chunker holds back less than ten characters: every chunk
    sent before the end is a pending text shorter than ten characters
    followed by one whole token of the stream, and what is pending at the
    end is shorter than ten characters. *)
Theorem rechunker_delay_is_bounded (tokens : list string) :
  Forall (fun chunk =>
            exists pre token,
              chunk = pre +:+ token /\ (py_len pre < 10)%nat /\ In token tokens)
         (fst (coalesce "" tokens))
  /\ (py_len (snd (coalesce "" tokens)) < 10)%nat.
Proof.
  assert (G : forall ts c,
    (py_len c < 10)%nat ->
    Forall (fun chunk =>
              exists pre token,
                chunk = pre +:+ token /\ (py_len pre < 10)%nat /\ In token ts)
           (fst (coalesce c ts))
    /\ (py_len (snd (coalesce c ts)) < 10)%nat).
  { induction ts as [|token rest IH]; intros c Hc.
    - split; [constructor | exact Hc].
    - rewrite coalesce_cons. destruct (trigger c token) eqn:T.
      + assert (H0 : (py_len "" < 10)%nat) by (change (py_len "") with 0%nat; lia).
        destruct (IH "" H0) as [Hall Hpend].
        change (fst (?x, ?y)) with x. change (snd (?x, ?y)) with y.
        split; [|exact Hpend].
        constructor.
        * exists c, token. split; [reflexivity|]. split; [exact Hc | left; reflexivity].
        * eapply Forall_impl; [exact Hall|].
          intros chunk (pre & tk & E1 & E2 & E3).
          exists pre, tk. split; [exact E1|]. split; [exact E2 | right; exact E3].
      + unfold trigger in T. apply orb_false_iff in T. destruct T as [_ T].
        apply Nat.leb_gt in T.
        destruct (IH (c +:+ token) T) as [Hall Hpend].
        split; [|exact Hpend].
        eapply Forall_impl; [exact Hall|].
        intros chunk (pre & tk & E1 & E2 & E3).
        exists pre, tk. split; [exact E1|]. split; [exact E2 | right; exact E3]. }
  apply G. change (py_len "") with 0%nat. lia.
Qed.

(** A context overflow after a first sentence and the start of a second:
    the frame of the first sentence has been sent, the two characters
    pending are lost and no sentinel follows. *)
Lemma sentinel_iff_no_exception_witness :
  yielded (chat_with_legal_agent Demo.llm_ok Demo.clock Demo.no_profile
             ExtraDemo.agent_overflows_midway Demo.account "补偿金怎么计算"
             Demo.one_turn)
  = ["根据劳动合同法第四十七条，"; "应当"]
  /\ snd (coalesce "" ["根据劳动合同法第四十七条，"; "应当"]) = "应当"
  /\ snd (fst (generate_stream_response Demo.llm_ok Demo.clock Demo.no_profile
                 ExtraDemo.agent_overflows_midway Demo.account "补偿金怎么计算"
                 Demo.one_turn))
     = Some (OtherError "a coroutine was expected, got None")
  /\ fst (fst (generate_stream_response Demo.llm_ok Demo.clock Demo.no_profile
                 ExtraDemo.agent_overflows_midway Demo.account "补偿金怎么计算"
                 Demo.one_turn))
     = [frame "根据劳动合同法第四十七条，"].
Proof.
  pose proof (sentinel_iff_no_exception Demo.llm_ok Demo.clock Demo.no_profile
                ExtraDemo.agent_overflows_midway Demo.account "补偿金怎么计算"
                Demo.one_turn) as H.
  cbv zeta in H. destruct H as (_ & _ & H).
  split; [vm_compute; reflexivity|].
  split; [vm_compute; reflexivity|].
  split; [vm_compute; reflexivity|].
  rewrite (H (OtherError "a coroutine was expected, got None"));
    vm_compute; reflexivity.
Defined.

End StreamExtras.

(** ** The image upload route *)

Module RouterExtras.
Import Py Router PyFacts.

Lemma after_last_dot_has_no_dot (s : string) : has_dot (after_last_dot s) = false.
Proof.
  induction s as [|c r IH]; [reflexivity|]. simpl.
  destruct (has_dot r) eqn:E; [exact IH|].
  destruct (is_dot c) eqn:D; [exact E|]. simpl. rewrite D, E. reflexivity.
Qed.

Lemma after_last_dot_without_dot (s : string) :
  has_dot s = false -> after_last_dot s = s.
Proof.
  destruct s as [|c r]; [reflexivity|]. simpl. intros H.
  apply orb_false_iff in H. destruct H as [D E]. rewrite E, D. reflexivity.
Qed.

Lemma after_last_dot_is_a_suffix (s : string) :
  exists pre, s = pre +:+ after_last_dot s.
Proof.
  induction s as [|c r [pre IH]]; [exists ""; reflexivity|]. simpl.
  destruct (has_dot r).
  - exists (String c pre). rewrite append_cons, <- IH. reflexivity.
  - destruct (is_dot c).
    + exists (String c ""). reflexivity.
    + exists "". reflexivity.
Qed.

Lemma str_in_is_In (s : string) (l : list string) : str_in s l = true <-> In s l.
Proof.
  unfold str_in. rewrite existsb_exists. split.
  - intros (x & Hin & Heq). apply String.eqb_eq in Heq. subst. exact Hin.
  - intros H. exists s. split; [exact H | apply String.eqb_refl].
Qed.

Lemma prefix_nil (s : string) : String.prefix "" s = true.
Proof. destruct s; reflexivity. Qed.

Lemma path_of_upload (u ext : string) :
  String.prefix "/" u = false ->
  path_join UPLOAD_DIR (u +:+ "." +:+ ext) = "uploads/" +:+ u +:+ "." +:+ ext.
Proof.
  intros H. unfold path_join.
  assert (E : String.prefix "/" (u +:+ "." +:+ ext) = false).
  { destruct u as [|c u]; [reflexivity|].
    rewrite append_cons.
    change (String.prefix "/" (String c (u +:+ "." +:+ ext)))
      with (if Ascii.ascii_dec "/" c
            then String.prefix "" (u +:+ "." +:+ ext) else false).
    change (String.prefix "/" (String c u))
      with (if Ascii.ascii_dec "/" c then String.prefix "" u else false) in H.
    destruct (Ascii.ascii_dec "/" c); [|reflexivity].
    rewrite prefix_nil in H. discriminate. }
  rewrite E. reflexivity.
Qed.

Section Environment.
Variable uuid4_hex : string.
Variable io_error : option string.
Variable unsupported_detail : option string -> string.

(** X18. The upload is judged by the text after the last dot of the file
    name, lowercased, and by nothing else: outside the six extensions the
    route answers 400 and writes no file.  A name that is missing or empty
    is refused; a name without any dot is judged as a whole, so a file
    called PNG passes; the extension kept never holds a dot. *)
Theorem upload_is_judged_by_extension
    (message account_id : string) (image : UploadFile) :
  let r := chat_with_multi_agent uuid4_hex io_error unsupported_detail
             message account_id (Some image) in
  (~ In (file_extension image) allowed_extensions ->
     r = (HTTPException 400 (unsupported_detail (filename image)), []))
  /\ (filename image = None \/ filename image = Some "" ->
      r = (HTTPException 400 (unsupported_detail (filename image)), []))
  /\ (forall name, filename image = Some name -> has_dot name = false ->
                   file_extension image = lower name)
  /\ (forall name, filename image = Some name ->
                   exists pre, name = pre +:+ after_last_dot name)
  /\ has_dot (file_extension image) = false
  /\ (In (file_extension image) allowed_extensions ->
      fst r <> HTTPException 400 (unsupported_detail (filename image))).
Proof.
  intros r.
  assert (Hrefuse : ~ In (file_extension image) allowed_extensions ->
                    r = (HTTPException 400 (unsupported_detail (filename image)), [])).
  { intros H. subst r. unfold chat_with_multi_agent.
    destruct (str_in (file_extension image) allowed_extensions) eqn:E.
    - apply str_in_is_In in E. contradiction.
    - reflexivity. }
  split; [exact Hrefuse|]. split; [|split; [|split; [|split]]].
  - intros H. apply Hrefuse.
    assert (E : file_extension image = "")
      by (unfold file_extension; destruct H as [-> | ->]; reflexivity).
    rewrite E. simpl. intuition discriminate.
  - intros name Hn Hd. unfold file_extension. rewrite Hn.
    destruct name as [|c n]; [reflexivity|].
    simpl truthy. cbv iota. rewrite after_last_dot_without_dot by exact Hd. reflexivity.
  - intros name _. apply after_last_dot_is_a_suffix.
  - unfold file_extension. destruct (filename image) as [name|]; [|reflexivity].
    destruct (truthy name); [|reflexivity].
    pose proof (after_last_dot_has_no_dot name) as H.
    revert H. generalize (after_last_dot name). intros e.
    induction e as [|c e IH]; [reflexivity|]. simpl.
    intros H. apply orb_false_iff in H. destruct H as [D E].
    rewrite (IH E), orb_false_r.
    revert D. unfold is_dot, lower_ascii.
    destruct c as [[] [] [] [] [] [] [] []]; vm_compute; intros D;
      first [reflexivity | discriminate D].
  - intros H. subst r. unfold chat_with_multi_agent.
    apply str_in_is_In in H. rewrite H. simpl.
    destruct io_error; simpl; discriminate.
Qed.

(** X19. An accepted upload is stored under a name the server chooses:
    the path is the upload directory, the fresh identifier, a dot and one of
    the six extensions, whatever the name the client gave; the input handed
    to the agent is the message, a blank line and the marker with that
    path.  Without an image the message goes through unchanged and nothing
    is written. *)
Theorem accepted_upload (message account_id : string) (image : UploadFile) :
  In (file_extension image) allowed_extensions ->
  io_error = None ->
  String.prefix "/" uuid4_hex = false ->
  let path := "uploads/" +:+ uuid4_hex +:+ "." +:+ file_extension image in
  chat_with_multi_agent uuid4_hex io_error unsupported_detail
    message account_id (Some image)
  = (StreamingResponse account_id
       (message +:+ nl +:+ nl +:+ "[图像文件: " +:+ path +:+ "]"),
     [(path, body image)])
  /\ chat_with_multi_agent uuid4_hex io_error unsupported_detail
       message account_id None
     = (StreamingResponse account_id message, []).
Proof.
  intros Hin Hio Hslash path. split; [|reflexivity].
  unfold chat_with_multi_agent. apply str_in_is_In in Hin. rewrite Hin, Hio.
  simpl negb. cbv iota.
  assert (Hp : path_join UPLOAD_DIR (uuid4_hex +:+ "." +:+ file_extension image) = path)
    by (apply path_of_upload; exact Hslash).
  rewrite Hp. reflexivity.
Qed.

End Environment.

(** A client file name that tries to leave the upload directory. *)
Lemma accepted_upload_witness :
  chat_with_multi_agent "3f2a9c0e5b7d4d1e8a6f0b1c2d3e4f50" None (fun _ => "")
    "请分析这份合同" "u1001"
    (Some {| filename := Some "../../etc/passwd.PNG"; body := "PNG" |})
  = (StreamingResponse "u1001"
       ("请分析这份合同" +:+ nl +:+ nl
        +:+ "[图像文件: uploads/3f2a9c0e5b7d4d1e8a6f0b1c2d3e4f50.png]"),
     [("uploads/3f2a9c0e5b7d4d1e8a6f0b1c2d3e4f50.png", "PNG")]).
Proof.
  assert (Hin : In (file_extension
                      {| filename := Some "../../etc/passwd.PNG"; body := "PNG" |})
                   allowed_extensions)
    by (vm_compute; tauto).
  destruct (accepted_upload "3f2a9c0e5b7d4d1e8a6f0b1c2d3e4f50" None (fun _ => "")
              "请分析这份合同" "u1001"
              {| filename := Some "../../etc/passwd.PNG"; body := "PNG" |}
              Hin eq_refl eq_refl) as [H _].
  exact H.
Defined.

(** A file without extension whose whole name is an extension. *)
Lemma upload_is_judged_by_extension_witness :
  file_extension {| filename := Some "PNG"; body := "" |} = lower "PNG"
  /\ chat_with_multi_agent "3f2a9c0e5b7d4d1e8a6f0b1c2d3e4f50" None (fun _ => "")
       "请分析这份合同" "u1001" (Some {| filename := None; body := "" |})
     = (HTTPException 400 "", []).
Proof.
  pose proof (upload_is_judged_by_extension "3f2a9c0e5b7d4d1e8a6f0b1c2d3e4f50" None
                (fun _ => "") "请分析这份合同" "u1001"
                {| filename := Some "PNG"; body := "" |}) as H1.
  pose proof (upload_is_judged_by_extension "3f2a9c0e5b7d4d1e8a6f0b1c2d3e4f50" None
                (fun _ => "") "请分析这份合同" "u1001"
                {| filename := None; body := "" |}) as H2.
  cbv zeta in H1, H2.
  destruct H1 as (_ & _ & H1 & _). destruct H2 as (_ & H2 & _).
  split; [apply (H1 "PNG"); reflexivity | apply H2; left; reflexivity].
Defined.

End RouterExtras.

(** ** Conversion of messages for the Qwen endpoint *)

Module QwenExtras.
Import Py Json QwenWrapper Views ExtraViews ProfileExtras.

Lemma dict_set_twice (k : string) (v : json) (d : dict) :
  dict_set k v (dict_set k v d) = dict_set k v d.
Proof.
  induction d as [|[k' v'] d IH]; simpl.
  - rewrite String.eqb_refl. reflexivity.
  - destruct (String.eqb k k') eqn:E; simpl; rewrite E; [reflexivity|].
    rewrite IH. reflexivity.
Qed.

Section Environment.
Variable repr_container : json -> string.

Lemma format_mapping_item_fixed (item : json) :
  format_mapping_item repr_container (format_mapping_item repr_container item)
  = format_mapping_item repr_container item.
Proof.
  unfold format_mapping_item.
  destruct item as [| | | | |d]; try reflexivity.
  destruct (has_key "type" d) eqn:E; [rewrite E|]; reflexivity.
Qed.

Lemma format_object_item_fixed (item : json) :
  format_mapping_item repr_container (format_object_item repr_container item)
  = format_object_item repr_container item.
Proof.
  unfold format_mapping_item, format_object_item.
  destruct item as [| | | | |d]; try reflexivity.
  destruct (has_key "type" d) eqn:E; [rewrite E; reflexivity|].
  destruct (dict_get "image_url" d); [reflexivity|].
  destruct (dict_get "text" d); reflexivity.
Qed.

Lemma map_fixed {A : Type} (f g : A -> A) (l : list A) :
  (forall x, f (g x) = g x) -> map f (map g l) = map g l.
Proof.
  intros H. induction l as [|x l IH]; simpl; [reflexivity|]. rewrite H, IH. reflexivity.
Qed.

(** What one message becomes is a mapping, which the conversion leaves as
    it is. *)
Lemma convert_message_fixed (msg : Incoming) (out : json) :
  convert_message repr_container msg = Ok out ->
  convert_message repr_container (as_incoming out) = Ok out.
Proof.
  destruct msg as [class_name content | role content | d | v]; simpl.
  - destruct content; intros H; injection H as <-; simpl; try reflexivity.
    rewrite (map_fixed _ _ _ format_object_item_fixed). reflexivity.
  - destruct (role_of_pair role); intros H; [|discriminate].
    injection H as <-. reflexivity.
  - destruct (dict_get "content" d) as [c|] eqn:E.
    + destruct c; intros H; injection H as <-; simpl; rewrite ?E; try reflexivity.
      rewrite dict_get_set_eq.
      rewrite (map_fixed _ _ _ format_mapping_item_fixed), dict_set_twice.
      reflexivity.
    + intros H; injection H as <-. simpl. rewrite E. reflexivity.
  - intros H; injection H as <-. reflexivity.
Qed.


(** X21. Roles are normalised: whatever is not already a mapping comes out
    with the role user, assistant or system.  A class whose name holds AI or
    Assistant is the assistant even when the name also holds System; in a
    tuple only human, ai and system are known, so that the role assistant,
    like any other text, becomes user. *)
Theorem roles_are_normalised (msg : Incoming) (out : json) :
  is_mapping msg = false ->
  convert_message repr_container msg = Ok out ->
  (exists role rest,
      out = JObj (("role", JStr role) :: rest)
      /\ (role = "user" \/ role = "assistant" \/ role = "system"))
  /\ (forall class_name,
        contains "AI" class_name = true -> role_of_class class_name = "assistant")
  /\ (forall class_name,
        contains "AI" class_name = false ->
        contains "Assistant" class_name = false ->
        contains "System" class_name = false -> role_of_class class_name = "user")
  /\ role_of_pair (JStr "assistant") = Ok "user"
  /\ role_of_pair (JStr "ai") = Ok "assistant".
Proof.
  intros Hm H. split; [|split; [|split; [|split]]].
  - destruct msg as [class_name content | role content | d | v]; simpl in *.
    + assert (Hr : role_of_class class_name = "user"
                   \/ role_of_class class_name = "assistant"
                   \/ role_of_class class_name = "system").
      { unfold role_of_class.
        destruct (contains "AI" class_name || contains "Assistant" class_name);
          [auto|]. destruct (contains "System" class_name); auto. }
      destruct content; injection H as <-; eexists _, _; split; try reflexivity;
        exact Hr.
    + destruct role as [| b | n | r | l | o]; simpl in H; try discriminate;
        injection H as <-; eexists _, _; (split; [reflexivity|]); auto.
      destruct (String.eqb r "human"); [auto|].
      destruct (String.eqb r "ai"); [auto|].
      destruct (String.eqb r "system"); auto.
    + discriminate.
    + injection H as <-. eexists _, _. split; [reflexivity | auto].
  - intros class_name Hc. unfold role_of_class. rewrite Hc. reflexivity.
  - intros class_name H1 H2 H3. unfold role_of_class. rewrite H1, H2, H3. reflexivity.
  - reflexivity.
  - reflexivity.
Qed.

(** X22. The conversion is idempotent: its result, handed in again as the
    mappings it consists of, comes back unchanged. *)
Theorem conversion_is_idempotent (messages : list Incoming) (out : list json) :
  convert_messages repr_container messages = Ok out ->
  convert_messages repr_container (map as_incoming out) = Ok out.
Proof.
  revert out. induction messages as [|msg rest IH]; intros out; simpl.
  - intros H. injection H as <-. reflexivity.
  - destruct (convert_message repr_container msg) as [m|e] eqn:Em; [|discriminate].
    destruct (convert_messages repr_container rest) as [ms|e]; [|discriminate].
    intros H. injection H as <-. simpl.
    rewrite (convert_message_fixed msg m Em), (IH ms eq_refl). reflexivity.
Qed.

End Environment.

(** The usual classes of LangChain and a tuple, converted. *)
Lemma roles_are_normalised_witness :
  exists role rest,
    JObj [("role", JStr "assistant"); ("content", JStr "您好")]
    = JObj (("role", JStr role) :: rest)
    /\ (role = "user" \/ role = "assistant" \/ role = "system").
Proof.
  assert (H : convert_message (fun _ => "") (MessageObject "AIMessage" (JStr "您好"))
              = Ok (JObj [("role", JStr "assistant"); ("content", JStr "您好")]))
    by reflexivity.
  destruct (roles_are_normalised (fun _ => "") (MessageObject "AIMessage" (JStr "您好"))
              _ eq_refl H) as (R & _).
  exact R.
Defined.

(** A multimodal message converted twice. *)
Lemma conversion_is_idempotent_witness :
  convert_messages (fun _ => "")
    (map as_incoming
       [JObj [("role", JStr "user");
              ("content", JArr [JObj [("type", JStr "text"); ("text", JStr "这是什么")];
                                JObj [("type", JStr "image_url");
                                      ("image_url", JStr "uploads/a.png")]])]])
  = Ok [JObj [("role", JStr "user");
              ("content", JArr [JObj [("type", JStr "text"); ("text", JStr "这是什么")];
                                JObj [("type", JStr "image_url");
                                      ("image_url", JStr "uploads/a.png")]])]].
Proof.
  apply (conversion_is_idempotent (fun _ => "")
           [MessageObject "HumanMessage"
              (JArr [JObj [("text", JStr "这是什么")];
                     JObj [("image_url", JStr "uploads/a.png")]])]).
  reflexivity.
Defined.


End QwenExtras.

(** ** The search tool *)

Module ToolExtras.
Import Py Json LegalTool PyFacts Views.

Lemma prefix_of_append (p x : string) : String.prefix p (p +:+ x) = true.
Proof.
  induction p as [|c p IH]; [destruct x; reflexivity|].
  rewrite append_cons.
  change (String.prefix (String c p) (String c (p +:+ x)))
    with (if Ascii.ascii_dec c c then String.prefix p (p +:+ x) else false).
  destruct (Ascii.ascii_dec c c); [exact IH | congruence].
Qed.

Section Environment.
Variable search_results : string -> result json.
Variable repr_container : json -> string.
Variable subscript_error : json -> string.
Variable iteration_error : json -> string.

Lemma block_starts_with_source (res : json) (b : string) :
  block repr_container subscript_error res = Ok b ->
  exists rest, b = "来源：" +:+ rest.
Proof.
  unfold block.
  destruct (subscript subscript_error res "title"); [|discriminate].
  destruct (subscript subscript_error res "snippet"); [|discriminate].
  intros H. injection H as <-. eexists. reflexivity.
Qed.

Lemma blocks_start_with_source (items : list json) (bs : list string) :
  blocks repr_container subscript_error items = Ok bs ->
  join_with (nl +:+ nl) bs = ""
  \/ exists rest, join_with (nl +:+ nl) bs = "来源：" +:+ rest.
Proof.
  destruct items as [|res items]; simpl.
  - intros H. injection H as <-. left. reflexivity.
  - destruct (block repr_container subscript_error res) as [b|e] eqn:Eb; [|discriminate].
    destruct (blocks repr_container subscript_error items) as [bs'|e]; [|discriminate].
    intros H. injection H as <-. right.
    destruct (block_starts_with_source res b Eb) as [rest ->].
    destruct bs' as [|b' bs']; simpl.
    + exists rest. reflexivity.
    + eexists. rewrite append_assoc. reflexivity.
Qed.

Lemma success_starts_with_source (query text : string) :
  search_and_format search_results repr_container subscript_error iteration_error query
  = Ok text ->
  text = "" \/ exists rest, text = "来源：" +:+ rest.
Proof.
  unfold search_and_format.
  destruct (search_results query) as [results|e]; [|discriminate].
  destruct (subscript subscript_error results "organic_results") as [v|e];
    [|discriminate].
  destruct v as [| b | n | str | items | d].
  - simpl. discriminate.
  - simpl. discriminate.
  - simpl. discriminate.
  - simpl. destruct (truthy str); [discriminate|].
    intros H. injection H as <-. left. reflexivity.
  - destruct (blocks repr_container subscript_error items) as [bs|e] eqn:Eb;
      [|discriminate].
    intros H. injection H as <-. exact (blocks_start_with_source items bs Eb).
  - destruct d as [|[k v] d]; simpl.
    + intros H. injection H as <-. left. reflexivity.
    + discriminate.
Qed.

(** X23. The search tool never raises and its answer tells failure from
    success: the text starts with the failure prefix exactly when the
    search or the formatting of its reply failed.  A reply without results
    gives the empty text, a reply without the list of results gives the
    failure text that names the missing key, and a failed search gives the
    failure text with the message of the exception. *)
Theorem web_search_reports_failure (query : string) :
  let answer := web_search search_results repr_container subscript_error
                  iteration_error query in
  String.prefix "搜索失败：" answer
  = negb (is_ok (search_and_format search_results repr_container subscript_error
                   iteration_error query))
  /\ (forall d, search_results query = Ok (JObj d) ->
                dict_get "organic_results" d = Some (JArr []) -> answer = "")
  /\ (forall d, search_results query = Ok (JObj d) ->
                dict_get "organic_results" d = None ->
                answer = "搜索失败：'organic_results'")
  /\ (forall e, search_results query = Raise e ->
                answer = "搜索失败：" +:+ exn_text e).
Proof.
  intros answer. subst answer. split; [|split; [|split]].
  - unfold web_search.
    destruct (search_and_format search_results repr_container subscript_error
                iteration_error query) as [text|e] eqn:E; simpl.
    + destruct (success_starts_with_source query text E) as [-> | [rest ->]];
        reflexivity.
    + apply prefix_of_append.
  - intros d H1 H2. unfold web_search, search_and_format. rewrite H1. simpl.
    rewrite H2. reflexivity.
  - intros d H1 H2. unfold web_search, search_and_format. rewrite H1. simpl.
    rewrite H2. reflexivity.
  - intros e H. unfold web_search, search_and_format. rewrite H. reflexivity.
Qed.

End Environment.

(** A reply of the search service that carries an error and no results. *)
Lemma web_search_reports_failure_witness :
  web_search (fun _ => Ok (JObj [("error", JStr "Invalid API key")]))
    (fun _ => "") (fun _ => "") (fun _ => "") "劳动合同法 经济补偿"
  = "搜索失败：'organic_results'".
Proof.
  pose proof (web_search_reports_failure
                (fun _ => Ok (JObj [("error", JStr "Invalid API key")]))
                (fun _ => "") (fun _ => "") (fun _ => "") "劳动合同法 经济补偿") as H.
  cbv zeta in H. destruct H as (_ & _ & H & _).
  apply (H [("error", JStr "Invalid API key")]); reflexivity.
Defined.

End ToolExtras.
